(** * hyperdb-helper: configuration merge, scaffolding and build orchestration

    A shallow embedding of [index.js] (class [HyperdbHelper] and its module
    level helpers) together with the parts of Node's [path], [fs] and
    [import()] the class relies on.

    - JavaScript values are a small tagged union; objects are finite maps
      from property names to values.
    - [path] is the POSIX flavour of Node's module, on strings.
    - The file system is a finite map from locations to nodes; [fs]
      resolves a path component by component through the directories that
      exist, [import()] on the text of its specifier (no symbolic links).
    - [async] methods are computations in a state-and-exception monad over
      the file system and the log of external calls. *)

From stdpp Require Import gmap strings list fin_maps pretty.
From Stdlib Require Import Ascii String.

Local Open Scope string_scope.

#[local] Set Warnings "-register-all".

(** ** JavaScript values

    Numbers are the integers, which is all the truthiness test needs; an
    array is an object whose property names are its indices; a function is
    known by a name. *)

Inductive value : Type :=
| VUndefined
| VNull
| VBool (b : bool)
| VNum (n : Z)
| VStr (s : string)
| VFun (name : string)
| VObj (props : gmap string value).

(** An object literal / the result of a spread. *)
Abbreviation obj := (gmap string value).

(** ToBoolean: [undefined], [null], [false], [0] and [''] are falsy. *)
Definition truthy (v : value) : bool :=
  match v with
  | VUndefined | VNull => false
  | VBool b => b
  | VNum n => negb (n =? 0)%Z
  | VStr s => negb (String.eqb s "")
  | VFun _ | VObj _ => true
  end.

(** [o[k]]: a missing property reads as [undefined]. *)
Definition get (o : obj) (k : string) : value := default VUndefined (o !! k).

(** [v[k]] on an arbitrary value that is not [undefined] or [null]:
    only objects carry the named properties used here. *)
Definition prop (v : value) (k : string) : value :=
  match v with
  | VObj o => get o k
  | _ => VUndefined
  end.

(** [a || b] *)
Definition js_or (a b : value) : value := if truthy a then a else b.

(** Own enumerable properties of a string: its characters by index. *)
Fixpoint string_props (i : N) (s : string) : obj :=
  match s with
  | EmptyString => ∅
  | String c r => <[pretty i := VStr (String c EmptyString)]> (string_props (N.succ i) r)
  end.

(** [{ ...v }] *)
Definition spread (v : value) : obj :=
  match v with
  | VObj o => o
  | VStr s => string_props 0 s
  | _ => ∅
  end.

(** ** Node's [path] module (POSIX) *)

Module path.

Definition slash : ascii := "/"%char.

Definition is_slash (c : ascii) : bool := Ascii.eqb c slash.

(** [path.isAbsolute] *)
Definition isAbsolute (p : string) : bool :=
  match p with
  | String c _ => is_slash c
  | EmptyString => false
  end.

(** The segments of a path: the text between separators. *)
Fixpoint split (p : string) : list string :=
  match p with
  | EmptyString => [EmptyString]
  | String c r =>
      if is_slash c then EmptyString :: split r
      else match split r with
           | s :: ss => String c s :: ss
           | [] => [String c EmptyString]
           end
  end.

(** Segments put back together with separators. *)
Fixpoint unsplit (segs : list string) : string :=
  match segs with
  | [] => EmptyString
  | [s] => s
  | s :: ss => s ++ String slash (unsplit ss)
  end.

(** One step of [normalizeString]: the segments kept so far are held
    innermost first. *)
Definition step (allowAboveRoot : bool) (kept : list string) (seg : string)
  : list string :=
  if String.eqb seg "" || String.eqb seg "." then kept
  else if String.eqb seg ".." then
    match kept with
    | top :: below =>
        if String.eqb top ".." then
          (if allowAboveRoot then seg :: kept else kept)
        else below
    | [] => if allowAboveRoot then [seg] else []
    end
  else seg :: kept.

(** A separator occurs in the text. *)
Fixpoint has_slash (s : string) : bool :=
  match s with
  | EmptyString => false
  | String c r => is_slash c || has_slash r
  end.

(** An ordinary name: not empty, not [.] or [..], no separator inside. *)
Definition plain (s : string) : bool :=
  negb (String.eqb s "") && negb (String.eqb s ".")
  && negb (String.eqb s "..") && negb (has_slash s).

Definition normalizeSegments (allowAboveRoot : bool) (segs : list string)
  : list string :=
  fold_left (step allowAboveRoot) segs [].

Definition normalizeString (p : string) (allowAboveRoot : bool) : string :=
  unsplit (rev (normalizeSegments allowAboveRoot (split p))).

Definition last_is_slash (p : string) : bool :=
  match rev (list_ascii_of_string p) with
  | c :: _ => is_slash c
  | [] => false
  end.

(** [path.normalize] *)
Definition normalize (p : string) : string :=
  if String.eqb p "" then "."
  else
    let isAbs := isAbsolute p in
    let trailingSeparator := last_is_slash p in
    let body := normalizeString p (negb isAbs) in
    if String.eqb body "" then
      (if isAbs then "/" else if trailingSeparator then "./" else ".")
    else
      let body := if trailingSeparator then body ++ "/" else body in
      if isAbs then String slash body else body.

(** [path.join(a, b)] *)
Definition join (a b : string) : string :=
  match String.eqb a "", String.eqb b "" with
  | true, true => "."
  | true, false => normalize b
  | false, true => normalize a
  | false, false => normalize (a ++ String slash b)
  end.

Fixpoint dropwhile {A} (f : A -> bool) (l : list A) : list A :=
  match l with
  | x :: r => if f x then dropwhile f r else l
  | [] => []
  end.

(** [path.dirname]: scanning from the end (the first character is never
    examined), skip the trailing separators, then the last segment; the
    separator found there ends the result. *)
Definition dirname (p : string) : string :=
  match p with
  | EmptyString => "."
  | String c0 rest =>
      let hasRoot := is_slash c0 in
      let back := rev (list_ascii_of_string rest) in
      let no_trailing := dropwhile is_slash back in
      match dropwhile (fun c => negb (is_slash c)) no_trailing with
      | [] => if hasRoot then "/" else "."
      | _ :: before =>
          match before with
          | [] => if hasRoot then "//" else String c0 EmptyString
          | _ => String c0 (string_of_list_ascii (rev before))
          end
      end
  end.

End path.

(** ** Errors, external calls and the world *)

Inductive errno := ENOENT | ENOTDIR | EISDIR | EEXIST.

(** Calls into code outside the class: modules run by [import()], the two
    builders and the functions the schema module exports. A builder object
    is identified by the directories it was created from. *)
Inductive call :=
| Evaluate (file : string)
| Hyperschema_from (dir : value)
| Module_createSchema (fn : string) (hyperschema : value)
| Hyperschema_toDisk (hyperschema : value)
| HyperDB_from (schemaDir dbDir : value)
| Module_createDatabase (fn : string) (hyperdb : value * value)
| HyperDB_toDisk (hyperdb : value * value).

Inductive error :=
| SystemError (code : errno) (syscall path : string)
| TypeError (msg : string)
| SyntaxError (msg : string)
| Error (msg : string)
| Thrown (by_call : call).

Inductive node := Dir | File (content : string).

#[global] Instance node_eq_dec : EqDecision node.
Proof. solve_decision. Defined.

(** A location is a list of names, innermost first; the root is [[]]. *)
Abbreviation loc := (list string) (only parsing).

(** [this] of a [HyperdbHelper]. *)
Record helper := Helper {
  config : obj;
  requiredDependencies : list string
}.

Record world := World {
  files : gmap (list string) node;
  calls : list call;
  console : list string;
  this : helper
}.

Definition set_files (f : gmap (list string) node) (w : world) : world :=
  World f (calls w) (console w) (this w).
Definition add_call (c : call) (w : world) : world :=
  World (files w) (calls w ++ [c])%list (console w) (this w).
Definition add_console (s : string) (w : world) : world :=
  World (files w) (calls w) (console w ++ [s])%list (this w).
Definition set_config (c : obj) (w : world) : world :=
  World (files w) (calls w) (console w)
        (Helper c (requiredDependencies (this w))).

(** ** Computations that may throw *)

Inductive result (A : Type) :=
| Ok (a : A)
| Throw (e : error).
Arguments Ok {A} a.
Arguments Throw {A} e.

Definition M (A : Type) : Type := world -> result A * world.

#[global] Instance M_ret : MRet M := fun A a w => (Ok a, w).
#[global] Instance M_bind : MBind M := fun A B k m w =>
  match m w with
  | (Ok a, w') => k a w'
  | (Throw e, w') => (Throw e, w')
  end.

Definition throw {A} (e : error) : M A := fun w => (Throw e, w).

(** [try { m } catch (error) { h error }] *)
Definition try_catch {A} (m : M A) (h : error -> M A) : M A := fun w =>
  match m w with
  | (Ok a, w') => (Ok a, w')
  | (Throw e, w') => h e w'
  end.

Definition read_world : M world := fun w => (Ok w, w).
Definition update (f : world -> world) : M unit := fun w => (Ok tt, f w).

Definition console_log (s : string) : M unit := update (add_console s).

(** [validateString]: the check [path] and [fs] apply to a path argument. *)
Definition validateString (v : value) : M string :=
  match v with
  | VStr s => mret s
  | _ => throw (TypeError "The path argument must be of type string")
  end.

(** Template literal interpolation of the values that occur in messages. *)
Definition show (v : value) : string :=
  match v with
  | VStr s => s
  | VUndefined => "undefined"
  | VNull => "null"
  | VBool true => "true"
  | VBool false => "false"
  | VNum n => pretty n
  | VFun _ => "[Function]"
  | VObj _ => "[object Object]"
  end.

Definition newline : string := String (ascii_of_nat 10) EmptyString.

(** ** The file system *)

Section FileSystem.

(** [process.cwd()] *)
Variable cwd : string.

(** The location the text of a path names: [.] and [..] are resolved on
    the text, as [path.normalize] and the URL of an [import()] specifier
    do. *)
Definition locate (p : string) : loc :=
  path.normalizeSegments false
    (path.split (if path.isAbsolute p then p else cwd ++ String path.slash p)).

(** Some proper ancestor of [l] is a regular file. *)
Fixpoint under_file (fs : gmap (list string) node) (l : loc) : bool :=
  match l with
  | [] => false
  | _ :: parent =>
      match fs !! parent with
      | Some (File _) => true
      | _ => under_file fs parent
      end
  end.

Definition stat (fs : gmap (list string) node) (l : loc) : errno + node :=
  match fs !! l with
  | Some n => inr n
  | None => inl (if under_file fs l then ENOTDIR else ENOENT)
  end.

(** Path resolution as the operating system does it: one component after
    the other, each looked up in a directory that exists. [walk fs at
    components] is the location reached from [at]; the last component
    itself need not exist. *)
Fixpoint walk (fs : gmap (list string) node) (at_ : loc)
         (components : list string) : errno + loc :=
  match components with
  | [] => inr at_
  | c :: rest =>
      match fs !! at_ with
      | Some Dir =>
          if String.eqb c "" || String.eqb c "." then walk fs at_ rest
          else if String.eqb c ".." then walk fs (tail at_) rest
          else walk fs (c :: at_) rest
      | Some (File _) => inl ENOTDIR
      | None => inl ENOENT
      end
  end.

(** Where resolution starts: the root, or the working directory. *)
Definition origin (p : string) : loc :=
  if path.isAbsolute p then []
  else path.normalizeSegments false (path.split cwd).

Definition resolve_path (fs : gmap (list string) node) (p : string)
  : errno + loc :=
  if String.eqb p "" then inl ENOENT
  else walk fs (origin p) (path.split p).

(** What is found at a path. *)
Definition stat_path (fs : gmap (list string) node) (p : string)
  : errno + node :=
  match resolve_path fs p with
  | inr l =>
      match fs !! l with
      | Some n => inr n
      | None => inl ENOENT
      end
  | inl e => inl e
  end.

(** The directory that is to hold a new entry at [l] is there. *)
Definition holds (fs : gmap (list string) node) (l : loc) : bool :=
  match l with
  | [] => false
  | _ :: parent => bool_decide (fs !! parent = Some Dir)
  end.

(** The components of a path without the empty ones a slash at its end
    leaves. *)
Definition trim (components : list string) : list string :=
  rev (path.dropwhile (fun c => String.eqb c "") (rev components)).

(** [fs.access(p)] *)
Definition fs_access (p : string) : M unit := fun w =>
  match stat_path (files w) p with
  | inr _ => (Ok tt, w)
  | inl e => (Throw (SystemError e "access" p), w)
  end.

(** [fs.readFile(p, 'utf8')] *)
Definition fs_readFile (p : string) : M string := fun w =>
  match stat_path (files w) p with
  | inr (File c) => (Ok c, w)
  | inr Dir => (Throw (SystemError EISDIR "read" p), w)
  | inl e => (Throw (SystemError e "open" p), w)
  end.

(** [fs.writeFile(p, content)]: creates the file or replaces its content. *)
Definition fs_writeFile (p content : string) : M unit := fun w =>
  match resolve_path (files w) p with
  | inl e => (Throw (SystemError e "open" p), w)
  | inr l =>
      match files w !! l with
      | Some Dir => (Throw (SystemError EISDIR "open" p), w)
      | Some (File _) => (Ok tt, set_files (<[l := File content]> (files w)) w)
      | None =>
          if holds (files w) l
          then (Ok tt, set_files (<[l := File content]> (files w)) w)
          else (Throw (SystemError ENOENT "open" p), w)
      end
  end.

(** [fs.mkdir(p)] *)
Definition fs_mkdir (p : string) : M unit := fun w =>
  if String.eqb p "" then (Throw (SystemError ENOENT "mkdir" p), w)
  else
    match walk (files w) (origin p) (trim (path.split p)) with
    | inl e => (Throw (SystemError e "mkdir" p), w)
    | inr l =>
        match files w !! l with
        | Some _ => (Throw (SystemError EEXIST "mkdir" p), w)
        | None =>
            if holds (files w) l
            then (Ok tt, set_files (<[l := Dir]> (files w)) w)
            else (Throw (SystemError ENOENT "mkdir" p), w)
        end
    end.

(** What [fs.mkdir(p, { recursive: true })] does along the components of
    [p]: a directory that is missing is made, one that exists is entered,
    [..] leads to the parent. The directories made before an error stay. *)
Fixpoint mkdirp (fs : gmap (list string) node) (at_ : loc)
         (components : list string)
  : option errno * gmap (list string) node :=
  match components with
  | [] =>
      match fs !! at_ with
      | Some Dir => (None, fs)
      | Some (File _) => (Some EEXIST, fs)
      | None => (Some ENOENT, fs)
      end
  | c :: rest =>
      match fs !! at_ with
      | Some Dir =>
          if String.eqb c "" || String.eqb c "." then mkdirp fs at_ rest
          else if String.eqb c ".." then mkdirp fs (tail at_) rest
          else
            match fs !! (c :: at_) with
            | Some _ => mkdirp fs (c :: at_) rest
            | None => mkdirp (<[c :: at_ := Dir]> fs) (c :: at_) rest
            end
      | Some (File _) => (Some ENOTDIR, fs)
      | None => (Some ENOENT, fs)
      end
  end.

(** [fs.mkdir(p, { recursive: true })] *)
Definition fs_mkdir_recursive (p : string) : M unit := fun w =>
  if String.eqb p "" then (Throw (SystemError ENOENT "mkdir" p), w)
  else
    match mkdirp (files w) (origin p) (path.split p) with
    | (None, fs') => (Ok tt, set_files fs' w)
    | (Some e, fs') => (Throw (SystemError e "mkdir" p), set_files fs' w)
    end.

End FileSystem.

(** ** Text produced by the template modules

    [templates/basic.js] exports [configFileTemplate], [schemaFileTemplate]
    and [functionFileTemplate]; [templates/examples.js] exports
    [schemaFileTemplate], [functionFileTemplate] and
    [exampleIndexFileTemplate]. They only produce file contents. *)
Record templates := Templates {
  configFileTemplate : value -> string;
  functionFileTemplate : string;
  schemaFileTemplate : string;
  examples_functionFileTemplate : string;
  examples_schemaFileTemplate : string;
  exampleIndexFileTemplate : string -> value -> string
}.

(** ** [HyperdbHelper] *)

Section HyperdbHelper.

(** [process.cwd()] *)
Variable cwd : string.
(** [JSON.parse]; [None] when it throws. *)
Variable JSON_parse : string -> option value.
(** The namespace object of the ES module with the given source text;
    [None] when its evaluation throws. *)
Variable evaluate : string -> option obj.
(** What a call into the builders or into the schema module does to the
    files, given the calls made before it; [None] when it throws. *)
Variable run : list call -> call -> gmap (list string) node
               -> option (gmap (list string) node).
(** [path.relative], which only feeds the text of the example file. *)
Variable path_relative : string -> string -> string.
Variable T : templates.

Definition defaultConfig : obj :=
  <["databaseConfigDirectory" := VStr "./database"]>
  (<["generatedCodeDirectory" := VStr "./generated"]>
  (<["functionsFilepath" := VStr "./functions.js"]>
  (<["schemaFilepath" := VStr "./schema.js"]>
  (<["configFilepath" := VStr "./config.js"]>
  (<["projectPackageJsonFilepath" := VStr "./package.json"]>
  (<["package" := VObj ∅]> ∅)))))).

Definition constructor (options : obj) : helper :=
  Helper (options ∪ defaultConfig) ["hyperschema"; "hyperdb"; "corestore"].

(** *** Module level helpers *)

Definition exists_ (filepath : string) : M bool :=
  try_catch
    (fs_access cwd filepath ;; mret true)
    (fun error =>
       match error with
       | SystemError ENOENT _ _ => mret false
       | _ => throw error
       end).

Definition getDatabaseConfigDirectory (databaseFilepathArgument : option string)
  : string :=
  let databaseFilepathArgument := default "./database" databaseFilepathArgument in
  if path.isAbsolute databaseFilepathArgument then databaseFilepathArgument
  else path.join cwd databaseFilepathArgument.

Definition getFilepathFromConfig (config : obj) (configProperty : string)
           (defaultFilepath : string) : M string :=
  filepath ← validateString (js_or (get config configProperty) (VStr defaultFilepath));
  if path.isAbsolute filepath then mret filepath
  else
    directory ← validateString (get config "databaseConfigDirectory");
    mret (path.join directory filepath).

(** [import(p)]: the module is run when a file is found at [p]. *)
Definition import_module (p : string) : M obj := fun w =>
  match stat (files w) (locate cwd p) with
  | inr (File source) =>
      let w' := add_call (Evaluate p) w in
      match evaluate source with
      | Some namespace => (Ok namespace, w')
      | None => (Throw (Thrown (Evaluate p)), w')
      end
  | _ => (Throw (Error ("Cannot find module " ++ p)), w)
  end.

Definition getPackageJson (dir : string) : M value :=
  let packageJsonFilepath := path.join dir "package.json" in
  found ← exists_ packageJsonFilepath;
  if negb found then mret VUndefined
  else
    file ← fs_readFile cwd packageJsonFilepath;
    match JSON_parse file with
    | Some v => mret v
    | None => throw (SyntaxError "Unexpected token in JSON")
    end.

Definition getConfig (configFilepath : string) : M obj :=
  module ← import_module configFilepath;
  mret (spread (get module "default")).

(** A call into external code. *)
Definition external (c : call) : M unit := fun w =>
  let w' := add_call c w in
  match run (calls w) c (files w) with
  | Some fs' => (Ok tt, set_files fs' w')
  | None => (Throw (Thrown c), w')
  end.

(** *** Methods *)

Definition required : list string :=
  [ "databaseConfigDirectory"; "generatedCodeDirectory";
    "functionsFilepath"; "schemaFilepath"; "configFilepath";
    "projectPackageJsonFilepath"; "databaseConfigJsonFilepath";
    "generatedPackageJsonFilepath";
    "hyperschemaDirectory"; "hyperdbDirectory";
    "moduleType" ].

Definition missing_fields_message (missing : list string) : string :=
  "Missing required config fields:" ++ newline
    ++ String.concat newline (map (fun field => "  - " ++ field) missing).

Definition validateConfig (config : obj) : M unit :=
  let missing := List.filter (fun field => negb (truthy (get config field))) required in
  if (0 <? List.length missing)%nat
  then throw (Error (missing_fields_message missing))
  else mret tt.

Definition mergeConfig (filepath : option string) (options : value) : M obj :=
  let databaseConfigDirectory := getDatabaseConfigDirectory filepath in
  let configFilepath := path.join databaseConfigDirectory "config.js" in
  userConfig ← try_catch (getConfig configFilepath) (fun _ => mret ∅);
  let config :=
    <["databaseConfigDirectory" := VStr databaseConfigDirectory]>
      (userConfig ∪ defaultConfig) in
  examples ← match options with
             | VUndefined | VNull =>
                 throw (TypeError "Cannot read properties of undefined (reading 'examples')")
             | _ => mret (prop options "examples")
             end;
  let config := <["examples" := examples]> config in
  v ← getFilepathFromConfig config "functionsFilepath" "./functions.js";
  let config := <["functionsFilepath" := VStr v]> config in
  v ← getFilepathFromConfig config "schemaFilepath" "./schema.js";
  let config := <["schemaFilepath" := VStr v]> config in
  v ← getFilepathFromConfig config "configFilepath" "./config.js";
  let config := <["configFilepath" := VStr v]> config in
  v ← getFilepathFromConfig config "projectPackageJsonFilepath" "./package.json";
  let config := <["projectPackageJsonFilepath" := VStr v]> config in
  d ← validateString (get config "databaseConfigDirectory");
  let config := <["databaseConfigJsonFilepath" := VStr (path.join d "package.json")]> config in
  v ← getFilepathFromConfig config "generatedCodeDirectory" "./generated";
  let config := <["generatedCodeDirectory" := VStr v]> config in
  g ← validateString (get config "generatedCodeDirectory");
  let config := <["generatedPackageJsonFilepath" := VStr (path.join g "package.json")]> config in
  g ← validateString (get config "generatedCodeDirectory");
  let config := <["hyperschemaDirectory" := VStr (path.join g "schemas")]> config in
  g ← validateString (get config "generatedCodeDirectory");
  let config := <["hyperdbDirectory" := VStr (path.join g "database")]> config in
  config ← try_catch
             (package ← getPackageJson cwd; mret (<["package" := package]> config))
             (fun _ => mret config);
  let config :=
    if truthy (get config "package")
    then <["moduleType" := js_or (prop (get config "package") "type") (VStr "commonjs")]> config
    else config in
  mret config.

(** [this.config[k]] *)
Definition this_config (k : string) : M value :=
  w ← read_world; mret (get (config (this w)) k).

Definition writeFile (file : value) (content : string) : M unit :=
  p ← validateString file; fs_writeFile cwd p content.

Definition createConfigFile : M unit :=
  configFilepath ← this_config "configFilepath";
  moduleType ← this_config "moduleType";
  writeFile configFilepath (configFileTemplate T moduleType).

Definition createFunctionsFile : M unit :=
  examples ← this_config "examples";
  let template :=
    if truthy examples then examples_functionFileTemplate T
    else functionFileTemplate T in
  functionsFilepath ← this_config "functionsFilepath";
  writeFile functionsFilepath template.

Definition createSchemaFile : M unit :=
  examples ← this_config "examples";
  let content :=
    if truthy examples then examples_schemaFileTemplate T
    else schemaFileTemplate T in
  schemaFilepath ← this_config "schemaFilepath";
  writeFile schemaFilepath content.

(** [templates.packageJsonTemplate({ main, type })]: [templates/basic.js]
    has no export of that name, so the property read gives [undefined] and
    the call throws. *)
Definition packageJsonTemplate (main type : string) : M string :=
  throw (TypeError "templates.packageJsonTemplate is not a function").

Definition createDatabaseConfigPackageJsonFile : M unit :=
  databaseConfigDirectory ← this_config "databaseConfigDirectory";
  d ← validateString databaseConfigDirectory;
  let mainIndex := path.join d "package.json" in
  content ← packageJsonTemplate mainIndex "module";
  databaseConfigJsonFilepath ← this_config "databaseConfigJsonFilepath";
  writeFile databaseConfigJsonFilepath content.

Definition createGeneratedPackageJsonFile : M unit :=
  hyperdbDirectory ← this_config "hyperdbDirectory";
  d ← validateString hyperdbDirectory;
  let mainIndex := path.join d "package.json" in
  content ← packageJsonTemplate mainIndex "commonjs";
  generatedPackageJsonFilepath ← this_config "generatedPackageJsonFilepath";
  writeFile generatedPackageJsonFilepath content.

Definition createExampleIndexFile (indexFilepath : string) : M unit :=
  hyperdbDirectory ← this_config "hyperdbDirectory";
  h ← validateString hyperdbDirectory;
  let definitionsFilepath := path.join h "index.js" in
  databaseConfigDirectory ← this_config "databaseConfigDirectory";
  d ← validateString databaseConfigDirectory;
  let projectDirectory := path.dirname d in
  let relativePath := path_relative projectDirectory definitionsFilepath in
  moduleType ← this_config "moduleType";
  console_log ("this.config.moduleType " ++ show moduleType);;
  let content := exampleIndexFileTemplate T relativePath moduleType in
  fs_writeFile cwd indexFilepath content.

Definition createDefaultFiles : M unit :=
  databaseConfigDirectory ← this_config "databaseConfigDirectory";
  d ← validateString databaseConfigDirectory;
  found ← exists_ d;
  (if found : bool
   then throw (Error ("Error: Schema directory already exists at " ++ d))
   else mret tt);;
  let exampleIndexFilepath := path.join (path.dirname d) "index.js" in
  examples ← this_config "examples";
  (if truthy examples
   then
     found ← exists_ exampleIndexFilepath;
     if found : bool
     then throw (Error ("Error: index.js file already exists at "
                          ++ exampleIndexFilepath))
     else mret tt
   else mret tt);;
  fs_mkdir_recursive cwd d;;
  createConfigFile;;
  createFunctionsFile;;
  createSchemaFile;;
  generatedCodeDirectory ← this_config "generatedCodeDirectory";
  g ← validateString generatedCodeDirectory;
  fs_mkdir cwd g;;
  createDatabaseConfigPackageJsonFile;;
  createGeneratedPackageJsonFile;;
  examples ← this_config "examples";
  if truthy examples
  then createExampleIndexFile exampleIndexFilepath
  else mret tt.

Definition checkPackageDependencies (self : helper) : list string :=
  let package := get (config self) "package" in
  if negb (truthy package) then requiredDependencies self
  else
    let dependencies := js_or (prop package "dependencies") (VObj ∅) in
    fold_left
      (fun toInstall dependency =>
         if negb (truthy (prop dependencies dependency))
         then (toInstall ++ [dependency])%list
         else toInstall)
      (requiredDependencies self) [].

Definition quote : string := String (ascii_of_nat 34) EmptyString.

Definition package_json_help : string :=
  "Please first create a package.json file in your project directory" ++ newline
  ++ "and choose either " ++ quote ++ "module" ++ quote ++ " or "
  ++ quote ++ "commonjs" ++ quote ++ " as the " ++ quote ++ "type" ++ quote
  ++ " field" ++ newline ++ newline
  ++ "You can create a package.json file by running:" ++ newline ++ newline
  ++ "npm init".

Definition init (filepath : option string) (options : value)
  : M (list string) :=
  merged ← mergeConfig filepath options;
  update (set_config merged);;
  w ← read_world;
  validateConfig (config (this w));;
  found ← exists_ "./package.json";
  (if negb found
   then
     console_log package_json_help;;
     throw (Error "Error: package.json not found in project directory")
   else mret tt);;
  createDefaultFiles;;
  w ← read_world;
  let dependenciesNeeded := checkPackageDependencies (this w) in
  mret dependenciesNeeded.

Definition getSchemaDefinitions (schemaFilepath : value) : M obj :=
  p ← validateString schemaFilepath;
  module ← import_module p;
  mret module.

(** [f(arg)] for a property of the schema module. *)
Definition call_export (schemaModule : obj) (name : string)
           (c : string -> call) : M unit :=
  match get schemaModule name with
  | VFun f => external (c f)
  | _ => throw (TypeError ("schemaModule." ++ name ++ " is not a function"))
  end.

Definition buildSchema (schemaModule : obj) : M unit :=
  hyperschemaDirectory ← this_config "hyperschemaDirectory";
  external (Hyperschema_from hyperschemaDirectory);;
  let hyperschema := hyperschemaDirectory in
  call_export schemaModule "createSchema"
    (fun f => Module_createSchema f hyperschema);;
  external (Hyperschema_toDisk hyperschema);;
  hyperschemaDirectory ← this_config "hyperschemaDirectory";
  hyperdbDirectory ← this_config "hyperdbDirectory";
  external (HyperDB_from hyperschemaDirectory hyperdbDirectory);;
  let hyperdb := (hyperschemaDirectory, hyperdbDirectory) in
  call_export schemaModule "createDatabase"
    (fun f => Module_createDatabase f hyperdb);;
  external (HyperDB_toDisk hyperdb).

Definition database_not_found_message (directory : value) : string :=
  "Error: Database directory not found at " ++ show directory ++ newline
  ++ "Run 'hyperdb-helper init' to create a new schema directory".

Definition build (filepath : option string) (options : value) : M unit :=
  merged ← mergeConfig filepath options;
  update (set_config merged);;
  databaseConfigDirectory ← this_config "databaseConfigDirectory";
  d ← validateString databaseConfigDirectory;
  found ← exists_ d;
  (if negb found
   then throw (Error (database_not_found_message databaseConfigDirectory))
   else mret tt);;
  schemaFilepath ← this_config "schemaFilepath";
  schemaDefinitions ← getSchemaDefinitions schemaFilepath;
  buildSchema schemaDefinitions.

(** The rest of [createDefaultFiles] once its two checks have passed. *)
Definition scaffold (d exampleIndexFilepath : string) : M unit :=
fs_mkdir_recursive cwd d;;
createConfigFile;;
createFunctionsFile;;
createSchemaFile;;
generatedCodeDirectory ← this_config "generatedCodeDirectory";
g ← validateString generatedCodeDirectory;
fs_mkdir cwd g;;
createDatabaseConfigPackageJsonFile;;
createGeneratedPackageJsonFile;;
examples ← this_config "examples";
if truthy examples
then createExampleIndexFile exampleIndexFilepath
else mret tt.

(** *** Vocabulary of the statements *)

(** The user configuration [mergeConfig] starts from in a world: what the
    config module of the directory exports by default, or nothing. *)
Definition userConfig_in (filepath : option string) (w : world) : obj :=
  match try_catch
          (getConfig (path.join (getDatabaseConfigDirectory filepath) "config.js"))
          (fun _ => mret ∅) w with
  | (Ok userConfig, _) => userConfig
  | (Throw _, _) => ∅
  end.

(** The path [getFilepathFromConfig] yields for a configured value. *)
Definition resolve (directory : string) (configured : value)
           (defaultFilepath : string) : option string :=
  match js_or configured (VStr defaultFilepath) with
  | VStr s => Some (if path.isAbsolute s then s else path.join directory s)
  | _ => None
  end.

(** The derived entries, written over a configuration. *)
Definition with_paths (directory : string) (examples : value)
           (functions schema configfile projectPackage generated : string)
           (config : obj) : obj :=
  <["hyperdbDirectory" := VStr (path.join generated "database")]>
  (<["hyperschemaDirectory" := VStr (path.join generated "schemas")]>
  (<["generatedPackageJsonFilepath" := VStr (path.join generated "package.json")]>
  (<["generatedCodeDirectory" := VStr generated]>
  (<["databaseConfigJsonFilepath" := VStr (path.join directory "package.json")]>
  (<["projectPackageJsonFilepath" := VStr projectPackage]>
  (<["configFilepath" := VStr configfile]>
  (<["schemaFilepath" := VStr schema]>
  (<["functionsFilepath" := VStr functions]>
  (<["examples" := examples]>
  (<["databaseConfigDirectory" := VStr directory]> config)))))))))).

(** The manifest of the project, when reading it does not throw. *)
Definition with_package (w : world) (config : obj) : obj :=
  match getPackageJson cwd w with
  | (Ok package, _) => <["package" := package]> config
  | (Throw _, _) => config
  end.

Definition with_moduleType (config : obj) : obj :=
  if truthy (get config "package")
  then <["moduleType" := js_or (prop (get config "package") "type") (VStr "commonjs")]> config
  else config.

(** The configuration [mergeConfig] returns when the world it reaches
    after loading the user configuration is [w]; [None] when a configured
    path is not a string. *)
Definition merged_config (directory : string) (examples : value)
           (userConfig : obj) (w : world) : option obj :=
  let base := userConfig ∪ defaultConfig in
  functions ← resolve directory (get base "functionsFilepath") "./functions.js";
  schema ← resolve directory (get base "schemaFilepath") "./schema.js";
  configfile ← resolve directory (get base "configFilepath") "./config.js";
  projectPackage ←
    resolve directory (get base "projectPackageJsonFilepath") "./package.json";
  generated ← resolve directory (get base "generatedCodeDirectory") "./generated";
  Some (with_moduleType
          (with_package w
             (with_paths directory examples functions schema configfile
                         projectPackage generated base))).

End HyperdbHelper.


(** The keys [mergeConfig] writes after the spread of the defaults and of
    the user configuration. *)
Definition derived_keys : list string :=
  [ "databaseConfigDirectory"; "functionsFilepath"; "schemaFilepath";
    "configFilepath"; "projectPackageJsonFilepath";
    "databaseConfigJsonFilepath"; "generatedCodeDirectory";
    "generatedPackageJsonFilepath"; "hyperschemaDirectory";
    "hyperdbDirectory" ].

(** The keys resolved by [getFilepathFromConfig], with their defaults. *)
Definition configured_paths : list (string * string) :=
  [ ("functionsFilepath", "./functions.js");
    ("schemaFilepath", "./schema.js");
    ("configFilepath", "./config.js");
    ("projectPackageJsonFilepath", "./package.json");
    ("generatedCodeDirectory", "./generated") ].

(** [stable f m]: running [m] never changes the component [f] of the world,
    whether it returns or throws. *)
Definition stable {X A} (f : world -> X) (m : M A) : Prop :=
  forall w, f (m w).2 = f w.

(** [fails m]: [m] never returns; however it is run, it throws. *)
Definition fails {A} (m : M A) : Prop :=
  forall w, exists e w', m w = (Throw e, w').

(** A component of a path that does not lead upwards. *)
Definition forward (c : string) : Prop := String.eqb c ".." = false.

(** The value configured for a key: the user's when the user configuration
    has the key, the default otherwise. *)
Definition configured (userConfig : obj) (k : string) : value :=
  match userConfig !! k with
  | Some v => v
  | None => get defaultConfig k
  end.

(** The calls [build] makes once the configuration is resolved, in the
    order it makes them. *)
Definition build_calls (schemaFilepath createSchema createDatabase : string)
           (hyperschemaDirectory hyperdbDirectory : value) : list call :=
  [ Evaluate schemaFilepath;
    Hyperschema_from hyperschemaDirectory;
    Module_createSchema createSchema hyperschemaDirectory;
    Hyperschema_toDisk hyperschemaDirectory;
    HyperDB_from hyperschemaDirectory hyperdbDirectory;
    Module_createDatabase createDatabase (hyperschemaDirectory, hyperdbDirectory);
    HyperDB_toDisk (hyperschemaDirectory, hyperdbDirectory) ].

(** The files left by a series of calls that all return, each one run on
    the files the one before it left. *)
Fixpoint run_all
         (run : list call -> call -> gmap (list string) node
                -> option (gmap (list string) node))
         (history todo : list call) (fs : gmap (list string) node)
  : option (gmap (list string) node) :=
  match todo with
  | [] => Some fs
  | c :: rest =>
      match run history c fs with
      | Some fs' => run_all run (history ++ [c])%list rest fs'
      | None => None
      end
  end.

(** [logs L m w]: run from [w], [m] adds to the log of calls a prefix of
    [L], and all of [L] when it returns. *)
Definition logs {A} (L : list call) (m : M A) (w : world) : Prop :=
  exists n,
    n <= List.length L
    /\ calls (m w).2 = (calls w ++ take n L)%list
    /\ (forall a, (m w).1 = Ok a -> n = List.length L).

(** The name of an exported function. *)
Definition function_name (v : value) : string :=
  match v with
  | VFun f => f
  | _ => ""
  end.

(** A file tree: whatever exists lies in a directory. *)
Definition tree (fs : gmap (list string) node) : Prop :=
  forall name parent, is_Some (fs !! (name :: parent)) -> fs !! parent = Some Dir.

Definition tree_check (fs : gmap (list string) node) : bool :=
  forallb
    (fun entry : list string * node =>
       match entry.1 with
       | [] => true
       | _ :: parent =>
           match fs !! parent with
           | Some Dir => true
           | _ => false
           end
       end)
    (map_to_list fs).

(** Reading the outcome of a run. *)
Definition is_Ok {A} (r : result A * world) : bool :=
  match r.1 with
  | Ok _ => true
  | Throw _ => false
  end.

Definition returned {A} (d : A) (r : result A * world) : A :=
  match r.1 with
  | Ok a => a
  | Throw _ => d
  end.

Definition thrown {A} (r : result A * world) : option error :=
  match r.1 with
  | Ok _ => None
  | Throw e => Some e
  end.

(** ** A sample project

    A working directory [/proj] holding a [package.json] with text [{}],
    a few module sources with their namespace objects, and builders that
    leave the files alone. *)
Module sample.

Definition cwd : string := "/proj".

Definition JSON_parse (text : string) : option value :=
  if String.eqb text "{}" then Some (VObj ∅) else None.

Definition config_with_moduleType : string :=
  "export default { moduleType: 'module' }".

Definition config_with_package : string :=
  "export default { package: { name: 'mine' }, functionsFilepath: './fn.js' }".

Definition schema_source : string :=
  "export function createSchema (hyperschema) {}; export function createDatabase (hyperdb) {}".

Definition evaluate (source : string) : option obj :=
  if String.eqb source config_with_moduleType then
    Some {[ "default" := VObj {[ "moduleType" := VStr "module" ]} ]}
  else if String.eqb source config_with_package then
    Some {[ "default" :=
              VObj (<["package" := VObj {[ "name" := VStr "mine" ]}]>
                      {[ "functionsFilepath" := VStr "./fn.js" ]}) ]}
  else if String.eqb source schema_source then
    Some (<["createSchema" := VFun "createSchema"]>
            {[ "createDatabase" := VFun "createDatabase" ]})
  else None.

Definition run (history : list call) (c : call)
           (fs : gmap (list string) node) : option (gmap (list string) node) :=
  Some fs.

Definition path_relative (from to : string) : string :=
  "database/generated/database/index.js".

Definition T : templates :=
  Templates (fun _ => "export const config = {}")
            "// Export map and trigger functions"
            "export function createSchema (hyperschema) {}"
            "export function mapExample (record, context) {}"
            "export function createSchema (hyperschema) { /* posts */ }"
            (fun relativePath _ => relativePath).

(** [/proj] with its manifest. *)
Definition project : gmap (list string) node :=
  <[ ["package.json"; "proj"] := File "{}" ]>
  (<[ ["proj"] := Dir ]> (<[ [] := Dir ]> ∅)).

(** [/proj] with a database directory that holds the given config
    module and a schema module. *)
Definition project_with (config_source : string) : gmap (list string) node :=
  <[ ["schema.js"; "database"; "proj"] := File schema_source ]>
  (<[ ["config.js"; "database"; "proj"] := File config_source ]>
  (<[ ["database"; "proj"] := Dir ]> project)).

(** The same files without the manifest of the project. *)
Definition no_manifest (fs : gmap (list string) node) : gmap (list string) node :=
  delete ["package.json"; "proj"] fs.

Definition start (fs : gmap (list string) node) : world :=
  World fs [] [] (constructor ∅).

(** The flags object of the command line parser: the examples flag, its
    alias and the positional arguments left. *)
Definition flags (examples : bool) : value :=
  VObj (<["examples" := VBool examples]>
       (<["e" := VBool examples]> {[ "_" := VObj ∅ ]})).

End sample.

(** ** [cleanup] and the command line

    The rest of [index.js], and [bin/cli.js], which drives the class. *)


Definition set_this (h : helper) (w : world) : world :=
  World (files w) (calls w) (console w) h.

(** [oblivious m]: [m] neither reads nor writes the helper object. *)
Definition oblivious {A} (m : M A) : Prop :=
  forall h w, m (set_this h w) = ((m w).1, set_this h (m w).2).

(** Two runs that end alike: the same value or error, the same files,
    calls and console output. *)
Definition same_outcome {A} (r1 r2 : result A * world) : Prop :=
  r1.1 = r2.1 /\ files r1.2 = files r2.2 /\ calls r1.2 = calls r2.2
  /\ console r1.2 = console r2.2.

(** [keeps P m]: whatever holds of the files before [m] holds after it,
    however [m] ends. *)
Definition keeps (P : gmap (list string) node -> Prop) {A} (m : M A) : Prop :=
  forall w, P (files w) -> P (files (m w).2).

(** The configuration of a directory without a config module of its own:
    every path is the default one. *)
Definition default_layout (D : string) (cfg : obj) : Prop :=
  get cfg "databaseConfigDirectory" = VStr D
  /\ get cfg "configFilepath" = VStr (path.join D "./config.js")
  /\ get cfg "functionsFilepath" = VStr (path.join D "./functions.js")
  /\ get cfg "schemaFilepath" = VStr (path.join D "./schema.js")
  /\ get cfg "generatedCodeDirectory" = VStr (path.join D "./generated")
  /\ get cfg "databaseConfigJsonFilepath" = VStr (path.join D "package.json")
  /\ get cfg "generatedPackageJsonFilepath"
     = VStr (path.join (path.join D "./generated") "package.json")
  /\ get cfg "hyperdbDirectory"
     = VStr (path.join (path.join D "./generated") "database").

(** [raises P m]: every error [m] throws satisfies [P]. *)
Definition raises {A} (P : error -> Prop) (m : M A) : Prop :=
  forall w e w', m w = (Throw e, w') -> P e.

(** The errors of the class itself and of the file system: not what a
    module that was run or the JSON parser threw. *)
Definition own_error (e : error) : Prop :=
  match e with
  | SystemError _ _ _ | TypeError _ | Error _ => True
  | SyntaxError _ | Thrown _ => False
  end.

Section Cleanup.

(** [fs.rm(p, { recursive: true, force: true })], taken as given: some
    operation on the files that returns or throws. *)
Variable fs_rm : string -> M unit.

(** [cleanup]. The handler reads [this.logger.warn]; the class defines no
    [logger], so that read throws. *)
Definition cleanup : M unit :=
  try_catch
    (generatedCodeDirectory ← this_config "generatedCodeDirectory";
     p ← validateString generatedCodeDirectory;
     fs_rm p)
    (fun error =>
       throw (TypeError "Cannot read properties of undefined (reading 'warn')")).

End Cleanup.

(** *** [bin/cli.js] *)

(** How the script ends when nothing is thrown: by [process.exit], or by
    running to its end. *)
Inductive completion :=
| Exit (code : Z)
| Finished.

Definition help : string :=
  String.concat newline
    [ "# hyperdb-helper";
      "";
      "Generate and build Hyperdb databases from schema files";
      "";
      "Usage:";
      "  hyperdb-helper <command> [options]";
      "";
      "Commands:";
      "  init [dir]     Initialize database schema files (default: ./database)";
      "  build [dir]    Build database from schema files (default: ./database)";
      "  help           Show this help";
      "";
      "Options:";
      "  -e, --examples Use with init subcommand to include example code";
      "  -h, --help     Show this help" ].

Definition install_message (dependenciesNeeded : list string) : string :=
  "Please install the required dependencies using npm:" ++ newline ++ newline
  ++ "npm install " ++ String.concat " " dependenciesNeeded.

(** An array of strings. *)
Definition array (items : list string) : value :=
  VObj (list_to_map (imap (fun i s => (pretty (N.of_nat i), VStr s)) items)).

Section CommandLine.

Variable cwd : string.
Variable JSON_parse : string -> option value.
Variable evaluate : string -> option obj.
Variable run : list call -> call -> gmap (list string) node
               -> option (gmap (list string) node).
Variable path_relative : string -> string -> string.
Variable T : templates.

(** The script, from the object the argument parser returns: [positional]
    is its [_] array, [flags] its other properties. *)
Definition cli (flags : obj) (positional : list string) : M completion :=
  let cmd := head positional in
  let args := tail positional in
  if negb (truthy (from_option VStr VUndefined cmd))
     || bool_decide (cmd = Some "help")
     || truthy (get flags "help")
  then
    console_log help;;
    mret (Exit 0)
  else
    update (set_this (constructor ∅));;
    let filepath := head args in
    let flags := VObj (<["_" := array (tail args)]> flags) in
    if bool_decide (cmd = Some "init") then
      dependenciesNeeded ← init cwd JSON_parse evaluate path_relative T filepath flags;
      (if (0 <? List.length dependenciesNeeded)%nat
       then console_log (install_message dependenciesNeeded)
       else mret tt);;
      mret Finished
    else if bool_decide (cmd = Some "build") then
      build cwd JSON_parse evaluate run filepath flags;;
      mret Finished
    else mret Finished.

End CommandLine.

(** ** More of the sample project *)
Module cases.

(** The sample project with a database directory that holds nothing. *)
Definition empty_database : gmap (list string) node :=
  <[ ["database"; "proj"] := Dir ]> sample.project.

(** The sample project with a manifest that is not JSON. *)
Definition broken_manifest : gmap (list string) node :=
  <[ ["package.json"; "proj"] := File "{" ]> sample.project.

(** A schema module that has [createSchema] only. *)
Definition schema_only : string :=
  "export function createSchema (hyperschema) {}".

Definition evaluate (source : string) : option obj :=
  if String.eqb source schema_only then
    Some {[ "createSchema" := VFun "createSchema" ]}
  else sample.evaluate source.

(** A database directory with that schema module. *)
Definition half_schema : gmap (list string) node :=
  <[ ["schema.js"; "database"; "proj"] := File schema_only ]> empty_database.

(** The flags of [hyperdb-helper init] without options. *)
Definition no_flags : obj :=
  <["examples" := VBool false]> ∅.

End cases.

(** * Properties of [path] *)

Module path_facts.
Import path.

Lemma split_nonempty (p : string) : split p <> [].
Proof.
  destruct p as [|c r]; simpl; [discriminate|].
  destruct (is_slash c); [discriminate|].
  destruct (split r); discriminate.
Qed.

Lemma split_app (a b : string) :
  split (a ++ String slash b) = (split a ++ split b)%list.
Proof.
  induction a as [|c a IH]; simpl.
  - reflexivity.
  - destruct (is_slash c).
    + now rewrite IH.
    + rewrite IH. destruct (split a) eqn:E; [|reflexivity].
      now apply split_nonempty in E.
Qed.

Lemma split_plain_text (s : string) : has_slash s = false -> split s = [s].
Proof.
  induction s as [|c s IH]; simpl; [reflexivity|].
  destruct (is_slash c); [discriminate|].
  intros H. now rewrite (IH H).
Qed.

Lemma split_no_slash (p : string) :
  Forall (fun s => has_slash s = false) (split p).
Proof.
  induction p as [|c r IH]; simpl.
  - repeat constructor.
  - destruct (is_slash c) eqn:Ec.
    + constructor; [reflexivity|exact IH].
    + destruct (split r) as [|s ss]; [repeat constructor; simpl; now rewrite Ec|].
      inversion IH; subst. constructor; [simpl; now rewrite Ec|assumption].
Qed.

Lemma split_unsplit (segs : list string) :
  segs <> [] -> Forall (fun s => has_slash s = false) segs ->
  split (unsplit segs) = segs.
Proof.
  induction segs as [|s ss IH]; [congruence|].
  intros _ H. inversion H as [|? ? Hs Hss]; subst.
  destruct ss as [|s' ss'].
  - simpl. now apply split_plain_text.
  - change (unsplit (s :: s' :: ss')) with (s ++ String slash (unsplit (s' :: ss'))).
    rewrite split_app, (split_plain_text _ Hs), IH; [reflexivity|discriminate|assumption].
Qed.

Lemma plain_spec (s : string) :
  plain s = true ->
  s <> "" /\ s <> "." /\ s <> ".." /\ has_slash s = false.
Proof.
  unfold plain. intros H.
  repeat (apply andb_prop in H; destruct H as [H ?]).
  repeat split; try (intros ->; discriminate).
  now apply negb_true_iff.
Qed.

Lemma step_plain (b : bool) (kept : list string) (seg : string) :
  plain seg = true -> step b kept seg = seg :: kept.
Proof.
  unfold plain, step. intros H.
  repeat (apply andb_prop in H; destruct H as [H ?]).
  repeat match goal with
         | H : negb _ = true |- _ => apply negb_true_iff in H
         end.
  now repeat match goal with H : _ = false |- _ => rewrite H; clear H end.
Qed.

Lemma step_keeps_plain (kept : list string) (seg : string) :
  has_slash seg = false ->
  Forall (fun s => plain s = true) kept ->
  Forall (fun s => plain s = true) (step false kept seg).
Proof.
  intros Hs Hk. unfold step.
  destruct (String.eqb seg "" || String.eqb seg ".") eqn:E1; [assumption|].
  destruct (String.eqb seg "..") eqn:E2.
  - destruct kept as [|top below]; [constructor|].
    destruct (String.eqb top ".."); [assumption|].
    now inversion Hk.
  - constructor; [|assumption].
    apply orb_false_elim in E1 as [E0 E1].
    unfold plain. now rewrite E0, E1, E2, Hs.
Qed.

Lemma fold_step_keeps_plain (segs kept : list string) :
  Forall (fun s => has_slash s = false) segs ->
  Forall (fun s => plain s = true) kept ->
  Forall (fun s => plain s = true) (fold_left (step false) segs kept).
Proof.
  revert kept. induction segs as [|s ss IH]; intros kept Hs Hk; simpl; [assumption|].
  inversion Hs; subst. apply IH; [assumption|]. now apply step_keeps_plain.
Qed.

Lemma normalizeSegments_plain (p : string) :
  Forall (fun s => plain s = true) (normalizeSegments false (split p)).
Proof.
  apply fold_step_keeps_plain; [apply split_no_slash|constructor].
Qed.

Lemma fold_step_plain (b : bool) (segs kept : list string) :
  Forall (fun s => plain s = true) segs ->
  fold_left (step b) segs kept = (rev segs ++ kept)%list.
Proof.
  revert kept. induction segs as [|s ss IH]; intros kept H; simpl; [reflexivity|].
  inversion H; subst. rewrite step_plain by assumption.
  rewrite IH by assumption. now rewrite <- app_assoc.
Qed.

End path_facts.

Module locate_facts.
Import path path_facts.

Lemma unsplit_empty (segs : list string) :
  Forall (fun s => plain s = true) segs -> unsplit segs = "" -> segs = [].
Proof.
  destruct segs as [|s ss]; [reflexivity|].
  intros H E. inversion H as [|? ? Hs _]; subst.
  apply plain_spec in Hs as [Hne _].
  destruct s as [|c s]; [congruence|].
  destruct ss; simpl in E; discriminate.
Qed.

Lemma plain_no_slash (segs : list string) :
  Forall (fun s => plain s = true) segs ->
  Forall (fun s => has_slash s = false) segs.
Proof.
  intros H. eapply Forall_impl; [exact H|].
  intros s Hs. now apply plain_spec in Hs.
Qed.

Lemma isAbsolute_normalize (p : string) :
  isAbsolute p = true -> isAbsolute (normalize p) = true.
Proof.
  intros H. unfold normalize.
  destruct (String.eqb_spec p ""); [subst; discriminate|].
  rewrite H.
  now destruct (String.eqb _ ""), (last_is_slash p).
Qed.

Lemma normalize_nonempty (p : string) : normalize p <> "".
Proof.
  unfold normalize.
  destruct (String.eqb_spec p ""); [discriminate|].
  destruct (String.eqb_spec (normalizeString p (negb (isAbsolute p))) "") as [|Hb].
  - now destruct (isAbsolute p), (last_is_slash p).
  - destruct (isAbsolute p); [discriminate|].
    destruct (last_is_slash p); [|assumption].
    destruct (normalizeString p _); [congruence|discriminate].
Qed.

(** Normalising an absolute path does not change the segments kept. *)
Lemma segments_normalize (p : string) :
  isAbsolute p = true ->
  normalizeSegments false (split (normalize p)) = normalizeSegments false (split p).
Proof.
  intros H. unfold normalize.
  destruct (String.eqb_spec p ""); [subst; discriminate|].
  rewrite H. simpl negb. unfold normalizeString.
  pose proof (normalizeSegments_plain p) as Hplain.
  set (K := normalizeSegments false (split p)) in *.
  assert (Hrev : Forall (fun s => plain s = true) (rev K))
    by now apply List.Forall_rev.
  destruct (String.eqb_spec (unsplit (rev K)) "") as [E|E].
  - apply unsplit_empty in E; [|assumption].
    apply (f_equal (@rev string)) in E. rewrite rev_involutive in E.
    now rewrite E.
  - assert (Hne : rev K <> []) by (intros E'; now rewrite E' in E).
    assert (Hsplit : split (unsplit (rev K)) = rev K)
      by (apply split_unsplit; [assumption|now apply plain_no_slash]).
    unfold normalizeSegments.
    destruct (last_is_slash p).
    + change (split (String slash (unsplit (rev K) ++ "/")))
        with ("" :: split (unsplit (rev K) ++ String slash "")).
      rewrite split_app, Hsplit. simpl fold_left.
      rewrite fold_left_app, (fold_step_plain false (rev K)) by assumption.
      now rewrite rev_involutive, app_nil_r.
    + change (split (String slash (unsplit (rev K))))
        with ("" :: split (unsplit (rev K))).
      rewrite Hsplit. simpl fold_left.
      rewrite (fold_step_plain false (rev K)) by assumption.
      now rewrite rev_involutive, app_nil_r.
Qed.

Lemma isAbsolute_app (a b : string) :
  isAbsolute a = true -> isAbsolute (a ++ b) = true.
Proof. now destruct a. Qed.

Lemma isAbsolute_join (a b : string) :
  isAbsolute a = true -> isAbsolute (join a b) = true.
Proof.
  intros H. unfold join.
  destruct (String.eqb_spec a ""); [subst; discriminate|].
  destruct (String.eqb b "");
    apply isAbsolute_normalize; [assumption|now apply isAbsolute_app].
Qed.

Lemma join_nonempty (a b : string) : join a b <> "".
Proof.
  unfold join.
  destruct (String.eqb a ""), (String.eqb b "");
    try apply normalize_nonempty; discriminate.
Qed.

Section Locate.
Variable cwd : string.

Lemma locate_absolute (p : string) :
  isAbsolute p = true -> locate cwd p = normalizeSegments false (split p).
Proof. intros H. unfold locate. now rewrite H. Qed.

Lemma locate_relative (p : string) :
  isAbsolute p = false ->
  locate cwd p
  = fold_left (step false) (split p) (normalizeSegments false (split cwd)).
Proof.
  intros H. unfold locate, normalizeSegments. rewrite H.
  now rewrite split_app, fold_left_app.
Qed.

(** Where [path.join a b] leads, from where [a] leads. *)
Lemma locate_join (a b : string) :
  isAbsolute a = true ->
  locate cwd (join a b) = fold_left (step false) (split b) (locate cwd a).
Proof.
  intros H.
  rewrite (locate_absolute (join a b)) by now apply isAbsolute_join.
  rewrite (locate_absolute a) by assumption.
  unfold join.
  destruct (String.eqb_spec a ""); [subst; discriminate|].
  destruct (String.eqb_spec b "") as [->|].
  - now rewrite segments_normalize.
  - rewrite segments_normalize by now apply isAbsolute_app.
    unfold normalizeSegments. now rewrite split_app, fold_left_app.
Qed.

End Locate.

End locate_facts.

(** Where the joins made by the class lead. *)
Section Children.

Variable cwd : string.

Lemma locate_child (a name : string) :
  path.isAbsolute a = true -> path.plain name = true ->
  locate cwd (path.join a name) = name :: locate cwd a.
Proof.
  intros Ha Hn. rewrite locate_facts.locate_join by assumption.
  rewrite (path_facts.split_plain_text name)
    by now apply path_facts.plain_spec in Hn.
  cbn [fold_left]. now apply path_facts.step_plain.
Qed.

Lemma locate_dot_child (a name : string) :
  path.isAbsolute a = true -> path.plain name = true ->
  locate cwd (path.join a (String "." (String path.slash name)))
  = name :: locate cwd a.
Proof.
  intros Ha Hn. rewrite locate_facts.locate_join by assumption.
  change (path.split (String "." (String path.slash name)))
    with ("." :: path.split name).
  rewrite (path_facts.split_plain_text name)
    by now apply path_facts.plain_spec in Hn.
  cbn [fold_left].
  change (path.step false (locate cwd a) ".") with (locate cwd a).
  now apply path_facts.step_plain.
Qed.

Lemma locate_cwd_child (name : string) :
  path.isAbsolute cwd = true -> path.plain name = true ->
  locate cwd (String "." (String path.slash name)) = name :: locate cwd cwd.
Proof.
  intros Ha Hn. rewrite locate_facts.locate_relative by reflexivity.
  rewrite (locate_facts.locate_absolute cwd cwd) by assumption.
  change (path.split (String "." (String path.slash name)))
    with ("." :: path.split name).
  rewrite (path_facts.split_plain_text name)
    by now apply path_facts.plain_spec in Hn.
  cbn [fold_left].
  change (path.step false (path.normalizeSegments false (path.split cwd)) ".")
    with (path.normalizeSegments false (path.split cwd)).
  now apply path_facts.step_plain.
Qed.

End Children.

(** [path.dirname] of a normalised absolute path leads to the parent. *)
Module dirname_facts.
Import path path_facts locate_facts.

Lemma append_assoc (a b c : string) : (a ++ b) ++ c = a ++ (b ++ c).
Proof.
  induction a as [|x a IH]; [reflexivity|].
  change (String x ((a ++ b) ++ c) = String x (a ++ (b ++ c))).
  now rewrite IH.
Qed.

Lemma append_empty (a : string) : a ++ "" = a.
Proof.
  induction a as [|x a IH]; [reflexivity|].
  change (String x (a ++ "") = String x a). now rewrite IH.
Qed.

Lemma chars_app (a b : string) :
  list_ascii_of_string (a ++ b)
  = (list_ascii_of_string a ++ list_ascii_of_string b)%list.
Proof. induction a as [|c a IH]; simpl; [reflexivity|now f_equal]. Qed.

Lemma dropwhile_all {A} (f : A -> bool) (l1 l2 : list A) :
  forallb f l1 = true -> dropwhile f (l1 ++ l2) = dropwhile f l2.
Proof.
  induction l1 as [|x l1 IH]; cbn; [reflexivity|].
  intros H. apply andb_prop in H as [Hx H]. rewrite Hx. now apply IH.
Qed.

Lemma no_slash_chars (s : string) :
  has_slash s = false ->
  forallb (fun c => negb (is_slash c)) (list_ascii_of_string s) = true.
Proof.
  induction s as [|c s IH]; cbn; [reflexivity|].
  intros H. apply orb_false_elim in H as [-> H]. now rewrite IH.
Qed.

Lemma forallb_rev {A} (f : A -> bool) (l : list A) :
  forallb f l = true -> forallb f (rev l) = true.
Proof.
  rewrite !forallb_forall. intros H x Hx. apply H. now apply in_rev.
Qed.

Lemma unsplit_snoc (segs : list string) (s : string) :
  segs <> [] ->
  unsplit (segs ++ [s]) = unsplit segs ++ String slash s.
Proof.
  induction segs as [|x segs IH]; [congruence|]. intros _.
  destruct segs as [|y segs]; [reflexivity|].
  specialize (IH ltac:(discriminate)).
  cbn [app] in IH |- *.
  change (unsplit (x :: y :: (segs ++ [s])%list))
    with (x ++ String slash (unsplit (y :: (segs ++ [s])%list))).
  rewrite IH.
  change (unsplit (x :: y :: segs))
    with (x ++ String slash (unsplit (y :: segs))).
  now rewrite append_assoc.
Qed.

(** The segments of a normal form are the ones it was built from. *)
Lemma segments_of_normal_form (K : list string) :
  Forall (fun s => plain s = true) K ->
  normalizeSegments false (split (String slash (unsplit (rev K)))) = K.
Proof.
  intros HK.
  assert (Hrev : Forall (fun s => plain s = true) (rev K))
    by now apply List.Forall_rev.
  change (split (String slash (unsplit (rev K))))
    with ("" :: split (unsplit (rev K))).
  unfold normalizeSegments. cbn [fold_left].
  change (step false [] "") with (@nil string).
  destruct K as [|last K']; [reflexivity|].
  rewrite split_unsplit;
    [|intros E; apply (f_equal (@List.length string)) in E;
      rewrite length_rev in E; discriminate
     |now apply plain_no_slash].
  rewrite (fold_step_plain false (rev (last :: K'))) by assumption.
  now rewrite rev_involutive, app_nil_r.
Qed.

(** What [dirname] makes of a normal form, with or without the trailing
    separator. *)
Lemma dirname_normal_form (K : list string) (trailing : bool) :
  Forall (fun s => plain s = true) K -> K <> [] ->
  dirname (String slash (unsplit (rev K) ++ (if trailing then "/" else "")))
  = String slash (unsplit (rev (tail K))).
Proof.
  intros HK Hne. destruct K as [|last K']; [congruence|]. clear Hne.
  inversion HK as [|? ? Hlast HK']; subst.
  apply plain_spec in Hlast as (Hne & _ & _ & Hns).
  cbn [tail dirname]. change (is_slash slash) with true.
  assert (Hback :
            rev (list_ascii_of_string
                   (unsplit (rev (last :: K')) ++ (if trailing then "/" else "")))
            = ((if trailing then [slash] else [])
                 ++ rev (list_ascii_of_string last)
                 ++ match K' with
                    | [] => []
                    | _ => slash :: rev (list_ascii_of_string (unsplit (rev K')))
                    end)%list).
  { rewrite chars_app, rev_app_distr.
    replace (rev (list_ascii_of_string (if trailing then "/" else "")))
      with (if trailing then [slash] else @nil ascii) by now destruct trailing.
    f_equal. cbn [rev]. destruct K' as [|k K''].
    - cbn. now rewrite app_nil_r.
    - rewrite unsplit_snoc
        by (intros E; apply (f_equal (@List.length string)) in E;
            rewrite length_rev in E; discriminate).
      rewrite chars_app. cbn [list_ascii_of_string].
      rewrite rev_app_distr. cbn [rev]. now rewrite <- app_assoc. }
  rewrite Hback.
  assert (Hdrop1 :
            dropwhile is_slash
              ((if trailing then [slash] else [])
                 ++ rev (list_ascii_of_string last)
                 ++ match K' with
                    | [] => []
                    | _ => slash :: rev (list_ascii_of_string (unsplit (rev K')))
                    end)
            = (rev (list_ascii_of_string last)
                 ++ match K' with
                    | [] => []
                    | _ => slash :: rev (list_ascii_of_string (unsplit (rev K')))
                    end)%list).
  { rewrite dropwhile_all by now destruct trailing.
    destruct last as [|c last']; [congruence|].
    pose proof (no_slash_chars _ Hns) as Hc.
    apply forallb_rev in Hc.
    destruct (rev (list_ascii_of_string (String c last'))) as [|x xs] eqn:E.
    - apply (f_equal (@List.length ascii)) in E.
      rewrite length_rev in E. discriminate.
    - cbn in Hc |- *. apply andb_prop in Hc as [Hx _].
      apply negb_true_iff in Hx. now rewrite Hx. }
  rewrite Hdrop1.
  rewrite dropwhile_all by apply forallb_rev, no_slash_chars, Hns.
  destruct K' as [|k K'']; [reflexivity|].
  cbn [dropwhile]. change (negb (is_slash slash)) with false. cbv iota.
  set (parent := unsplit (rev (k :: K''))).
  assert (Hparent : parent <> "").
  { subst parent. intros E. apply unsplit_empty in E.
    - apply (f_equal (@List.length string)) in E.
      rewrite length_rev in E. discriminate.
    - now apply List.Forall_rev. }
  destruct (rev (list_ascii_of_string parent)) as [|x xs] eqn:E.
  - apply (f_equal (@rev ascii)) in E. rewrite rev_involutive in E.
    apply (f_equal string_of_list_ascii) in E.
    rewrite string_of_list_ascii_of_string in E. now cbn in E.
  - rewrite <- E, rev_involutive, string_of_list_ascii_of_string. reflexivity.
Qed.

Lemma dirname_normalize (p : string) :
  isAbsolute p = true ->
  normalizeSegments false (split (dirname (normalize p)))
  = tail (normalizeSegments false (split p)).
Proof.
  intros H. pose proof (normalizeSegments_plain p) as HK.
  unfold normalize.
  destruct (String.eqb_spec p ""); [subst; discriminate|].
  rewrite H. cbn [negb]. unfold normalizeString.
  set (K := normalizeSegments false (split p)) in *.
  destruct (String.eqb_spec (unsplit (rev K)) "") as [E|E].
  - apply unsplit_empty in E; [|now apply List.Forall_rev].
    apply (f_equal (@rev string)) in E. rewrite rev_involutive in E.
    rewrite E. reflexivity.
  - assert (HKne : K <> []) by (intros ->; now apply E).
    destruct (last_is_slash p).
    + rewrite (dirname_normal_form K true HK HKne).
      apply segments_of_normal_form. destruct K; [congruence|]. now inversion HK.
    + rewrite <- (append_empty (unsplit (rev K))).
      rewrite (dirname_normal_form K false HK HKne).
      apply segments_of_normal_form. destruct K; [congruence|]. now inversion HK.
Qed.

(** The directory [dirname] gives for a joined path is its parent. *)
Lemma locate_dirname_join (cwd a b : string) :
  isAbsolute a = true ->
  locate cwd (dirname (join a b)) = tail (locate cwd (join a b)).
Proof.
  intros Ha.
  assert (Hn : forall p, isAbsolute p = true ->
                 locate cwd (dirname (normalize p)) = tail (locate cwd (normalize p))).
  { intros p Hp.
    assert (Hd : isAbsolute (dirname (normalize p)) = true).
    { pose proof (isAbsolute_normalize p Hp) as Hnp.
      destruct (normalize p) as [|c0 rest]; [discriminate|].
      cbn [isAbsolute dirname] in Hnp |- *. rewrite Hnp.
      destruct (dropwhile _ (dropwhile _ _)) as [|? [|]];
        cbn [isAbsolute]; (reflexivity || exact Hnp). }
    rewrite (locate_absolute cwd _ Hd).
    rewrite (locate_absolute cwd _ (isAbsolute_normalize p Hp)).
    rewrite dirname_normalize, segments_normalize by assumption. reflexivity. }
  unfold join.
  destruct (String.eqb_spec a ""); [subst; discriminate|].
  destruct (String.eqb b ""); apply Hn; [assumption|now apply isAbsolute_app].
Qed.

End dirname_facts.

(** * Path resolution through the file system *)

Lemma plain_forward (segs : list string) :
  Forall (fun s => path.plain s = true) segs -> Forall forward segs.
Proof.
  intros H. eapply Forall_impl; [exact H|].
  intros s Hs. apply path_facts.plain_spec in Hs as (_ & _ & Hs & _).
  unfold forward. now destruct (String.eqb_spec s "..").
Qed.

Lemma step_tail (kept : list string) :
  Forall forward kept -> path.step false kept ".." = tail kept.
Proof.
  intros H. unfold path.step. cbn [String.eqb Ascii.eqb Bool.eqb orb].
  destruct kept as [|top below]; [reflexivity|].
  inversion H as [|? ? Htop _]; subst. unfold forward in Htop.
  now rewrite Htop.
Qed.

Lemma forward_tail (l : list string) : Forall forward l -> Forall forward (tail l).
Proof. intros H. destruct l; [assumption|]. now inversion H. Qed.

Lemma walk_errno (fs : gmap (list string) node) (components : list string) :
  forall at_ e, walk fs at_ components = inl e -> e = ENOENT \/ e = ENOTDIR.
Proof.
  induction components as [|c rest IH]; intros at_ e; cbn [walk]; [discriminate|].
  destruct (fs !! at_) as [[|content]|].
  - destruct (String.eqb c "" || String.eqb c "."); [apply IH|].
    destruct (String.eqb c ".."); apply IH.
  - intros [= <-]. now right.
  - intros [= <-]. now left.
Qed.

(** A walk that arrives leads where the text of the path says. *)
Lemma walk_lexical (fs : gmap (list string) node) (components : list string) :
  forall at_ l,
    Forall forward at_ ->
    walk fs at_ components = inr l ->
    l = fold_left (path.step false) components at_.
Proof.
  induction components as [|c rest IH]; intros at_ l Hat; cbn [walk fold_left].
  - now intros [= <-].
  - destruct (fs !! at_) as [[|content]|]; try discriminate.
    unfold path.step at 2.
    destruct (String.eqb c "" || String.eqb c "."); [now apply IH|].
    destruct (String.eqb c "..") eqn:Ec.
    + apply String.eqb_eq in Ec. subst c.
      pose proof (step_tail at_ Hat) as Ht. unfold path.step in Ht.
      cbn [String.eqb Ascii.eqb Bool.eqb orb] in Ht. rewrite Ht.
      apply IH. now apply forward_tail.
    + apply IH. now constructor.
Qed.

(** Without [..] on the way, a walk only goes down. *)
Lemma fold_forward_suffix (components : list string) :
  forall at_,
    Forall forward components ->
    at_ `suffix_of` fold_left (path.step false) components at_.
Proof.
  induction components as [|c rest IH]; intros at_ H; cbn [fold_left].
  - reflexivity.
  - inversion H as [|? ? Hc Hrest]; subst. unfold path.step.
    destruct (String.eqb c "" || String.eqb c "."); [now apply IH|].
    unfold forward in Hc. rewrite Hc.
    etransitivity; [|apply IH; assumption]. now apply suffix_cons_r.
Qed.

(** It stops at a regular file only if one lies on the way. *)
Lemma walk_ENOTDIR (fs : gmap (list string) node) (components : list string) :
  forall at_,
    Forall forward components ->
    walk fs at_ components = inl ENOTDIR ->
    exists v content,
      fs !! v = Some (File content)
      /\ v `suffix_of` fold_left (path.step false) components at_.
Proof.
  induction components as [|c rest IH]; intros at_ H; cbn [walk fold_left];
    [discriminate|].
  inversion H as [|? ? Hc Hrest]; subst.
  destruct (fs !! at_) as [[|content]|] eqn:E; try discriminate.
  - unfold path.step.
    destruct (String.eqb c "" || String.eqb c "."); [now apply IH|].
    unfold forward in Hc. rewrite Hc. now apply IH.
  - intros _. exists at_, content. split; [assumption|].
    now apply (fold_forward_suffix (c :: rest)).
Qed.

Lemma under_file_suffix (fs : gmap (list string) node) (v : list string)
      (content : string) :
  fs !! v = Some (File content) ->
  forall l, v `suffix_of` l -> l = v \/ under_file fs l = true.
Proof.
  intros Hv l [pre ->]. induction pre as [|x pre IH]; [now left|].
  right. cbn [app under_file]. destruct IH as [E|IH].
  - rewrite E, Hv. reflexivity.
  - destruct (fs !! (pre ++ v)%list) as [[|?]|]; auto.
Qed.

(** The text [path.normalize] and [path.join] give for an absolute path:
    a separator, the names kept, and a separator at the end at most. *)
Lemma split_normalize (p : string) :
  path.isAbsolute p = true ->
  exists t,
    path.split (path.normalize p)
    = "" :: (rev (path.normalizeSegments false (path.split p)) ++ t)%list
    /\ (t = [] \/ t = [""])
    /\ (path.normalizeSegments false (path.split p) <> [] ->
        path.last_is_slash p = false -> t = []).
Proof.
  intros H. unfold path.normalize.
  destruct (String.eqb_spec p ""); [subst; discriminate|].
  rewrite H. simpl negb. unfold path.normalizeString.
  pose proof (path_facts.normalizeSegments_plain p) as Hplain.
  set (K := path.normalizeSegments false (path.split p)) in *.
  assert (Hrev : Forall (fun s => path.plain s = true) (rev K))
    by now apply List.Forall_rev.
  destruct (String.eqb_spec (path.unsplit (rev K)) "") as [E|E].
  - apply locate_facts.unsplit_empty in E; [|assumption].
    rewrite E. exists [""]. split; [reflexivity|]. split; [now right|].
    intros Hk. apply (f_equal (@rev string)) in E.
    rewrite rev_involutive in E. contradiction.
  - assert (Hne : rev K <> []) by (intros E'; now rewrite E' in E).
    assert (Hsplit : path.split (path.unsplit (rev K)) = rev K)
      by (apply path_facts.split_unsplit;
          [assumption|now apply locate_facts.plain_no_slash]).
    destruct (path.last_is_slash p).
    + exists [""]. split; [|split; [now right|discriminate]].
      change (path.split (String path.slash (path.unsplit (rev K) ++ "/")))
        with ("" :: path.split (path.unsplit (rev K) ++ String path.slash "")).
      now rewrite path_facts.split_app, Hsplit.
    + exists []. split; [|split; [now left|reflexivity]].
      change (path.split (String path.slash (path.unsplit (rev K))))
        with ("" :: path.split (path.unsplit (rev K))).
      now rewrite Hsplit, app_nil_r.
Qed.

Lemma forward_normalize (p : string) :
  path.isAbsolute p = true -> Forall forward (path.split (path.normalize p)).
Proof.
  intros H. destruct (split_normalize p H) as (t & -> & Ht & _).
  constructor; [reflexivity|]. apply Forall_app. split.
  - apply plain_forward, List.Forall_rev, path_facts.normalizeSegments_plain.
  - destruct Ht as [-> | ->]; repeat constructor.
Qed.

Lemma forward_join (a b : string) :
  path.isAbsolute a = true -> Forall forward (path.split (path.join a b)).
Proof.
  intros H. unfold path.join.
  destruct (String.eqb_spec a ""); [subst; discriminate|].
  destruct (String.eqb b ""); apply forward_normalize;
    [assumption|now apply locate_facts.isAbsolute_app].
Qed.

Section Resolve.

Variable cwd : string.

Lemma forward_origin (p : string) : Forall forward (origin cwd p).
Proof.
  unfold origin. destruct (path.isAbsolute p); [constructor|].
  apply plain_forward, path_facts.normalizeSegments_plain.
Qed.

Lemma locate_origin (p : string) :
  locate cwd p = fold_left (path.step false) (path.split p) (origin cwd p).
Proof.
  unfold origin. destruct (path.isAbsolute p) eqn:E.
  - now rewrite locate_facts.locate_absolute.
  - now rewrite locate_facts.locate_relative.
Qed.

(** A path that resolves leads to the location its text names. *)
Lemma resolve_path_lexical (fs : gmap (list string) node) (p : string)
      (l : list string) :
  resolve_path cwd fs p = inr l -> l = locate cwd p.
Proof.
  unfold resolve_path. destruct (String.eqb p ""); [discriminate|].
  intros H. apply walk_lexical in H; [|apply forward_origin].
  now rewrite locate_origin.
Qed.

Lemma resolve_path_errno (fs : gmap (list string) node) (p : string) (e : errno) :
  resolve_path cwd fs p = inl e -> e = ENOENT \/ e = ENOTDIR.
Proof.
  unfold resolve_path. destruct (String.eqb p "").
  - intros [= <-]. now left.
  - apply walk_errno.
Qed.

(** What is found at a path is what lies at the location its text names. *)
Lemma stat_path_found (fs : gmap (list string) node) (p : string) (n : node) :
  stat_path cwd fs p = inr n -> fs !! locate cwd p = Some n.
Proof.
  unfold stat_path. destruct (resolve_path cwd fs p) as [e|l] eqn:E; [discriminate|].
  apply resolve_path_lexical in E. subst l.
  destruct (fs !! locate cwd p); [|discriminate]. now intros [= ->].
Qed.

Lemma stat_path_errno (fs : gmap (list string) node) (p : string) (e : errno) :
  stat_path cwd fs p = inl e -> e = ENOENT \/ e = ENOTDIR.
Proof.
  unfold stat_path. destruct (resolve_path cwd fs p) as [e'|l] eqn:E.
  - intros [= <-]. now apply resolve_path_errno in E.
  - destruct (fs !! l); [discriminate|]. intros [= <-]. now left.
Qed.

(** Nothing is found at a path whose location is empty. *)
Lemma stat_path_missing (fs : gmap (list string) node) (p : string) :
  fs !! locate cwd p = None ->
  exists e, stat_path cwd fs p = inl e /\ (e = ENOENT \/ e = ENOTDIR).
Proof.
  intros H. destruct (stat_path cwd fs p) as [e|n] eqn:E.
  - exists e. split; [reflexivity|]. now apply stat_path_errno in E.
  - apply stat_path_found in E. congruence.
Qed.

(** Without [..] in the text, a path is missing for the operating system
    when it is missing on the text. *)
Lemma stat_path_ENOENT (fs : gmap (list string) node) (p : string) :
  Forall forward (path.split p) ->
  stat fs (locate cwd p) = inl ENOENT ->
  stat_path cwd fs p = inl ENOENT.
Proof.
  intros Hf H. unfold stat in H.
  destruct (fs !! locate cwd p) eqn:El; [discriminate|].
  destruct (under_file fs (locate cwd p)) eqn:Eu; [discriminate|].
  destruct (stat_path_missing fs p El) as (e & E & [->| ->]); [assumption|].
  exfalso. unfold stat_path in E.
  destruct (resolve_path cwd fs p) as [e'|l] eqn:Er.
  - injection E as ->. unfold resolve_path in Er.
    destruct (String.eqb p ""); [discriminate|].
    apply walk_ENOTDIR in Er as (v & content & Hv & Hs); [|assumption].
    rewrite <- locate_origin in Hs.
    destruct (under_file_suffix fs v content Hv _ Hs) as [E'|E']; congruence.
  - destruct (fs !! l); discriminate.
Qed.

End Resolve.

(** * Running computations *)

Lemma bind_run {A B} (m : M A) (k : A -> M B) (w : world) :
  (m ≫= k) w
  = match m w with
    | (Ok a, w1) => k a w1
    | (Throw e, w1) => (Throw e, w1)
    end.
Proof. reflexivity. Qed.

Lemma bind_Ok {A B} (m : M A) (k : A -> M B) (w w' : world) (b : B) :
  (m ≫= k) w = (Ok b, w') ->
  exists a w1, m w = (Ok a, w1) /\ k a w1 = (Ok b, w').
Proof.
  rewrite bind_run. destruct (m w) as [[a|e] w1]; [|discriminate].
  intros H. now exists a, w1.
Qed.

Lemma validateString_Ok (v : value) (w w' : world) (s : string) :
  validateString v w = (Ok s, w') -> v = VStr s /\ w' = w.
Proof. destruct v; simpl; intros H; inversion H; now subst. Qed.

Lemma getFilepathFromConfig_world (config : obj) (k d : string) (w : world) :
  (getFilepathFromConfig config k d w).2 = w.
Proof.
  unfold getFilepathFromConfig. rewrite bind_run.
  destruct (js_or (get config k) (VStr d)); try reflexivity. simpl.
  destruct (path.isAbsolute s); [reflexivity|].
  rewrite bind_run. now destruct (get config "databaseConfigDirectory").
Qed.

Section RunFacts.

Variable cwd : string.
Variable JSON_parse : string -> option value.
Variable evaluate : string -> option obj.

Lemma exists_run (p : string) (w : world) :
  exists_ cwd p w
  = match stat_path cwd (files w) p with
    | inr _ => (Ok true, w)
    | inl ENOENT => (Ok false, w)
    | inl e => (Throw (SystemError e "access" p), w)
    end.
Proof.
  unfold exists_, try_catch, fs_access. rewrite bind_run.
  destruct (stat_path cwd (files w) p) as [[]|]; reflexivity.
Qed.

Lemma exists_world (p : string) (w : world) : (exists_ cwd p w).2 = w.
Proof.
  rewrite exists_run.
  now destruct (stat_path cwd (files w) p) as [[]|].
Qed.

(** [exists] finds nothing where the location the text names is empty. *)
Lemma exists_missing (p : string) (w : world) :
  files w !! locate cwd p = None ->
  exists_ cwd p w = (Ok false, w)
  \/ exists_ cwd p w = (Throw (SystemError ENOTDIR "access" p), w).
Proof.
  intros H. rewrite exists_run.
  destruct (stat_path_missing cwd (files w) p H) as (e & -> & [->| ->]); auto.
Qed.

Lemma getPackageJson_world (dir : string) (w : world) :
  (getPackageJson cwd JSON_parse dir w).2 = w.
Proof.
  unfold getPackageJson. rewrite bind_run, exists_run.
  destruct (stat_path cwd (files w) _) as [[]|n] eqn:E; try reflexivity.
  simpl. rewrite bind_run. unfold fs_readFile. rewrite E.
  destruct n; [reflexivity|]. now destruct (JSON_parse content).
Qed.

(** Loading the user configuration only adds the run of the config
    module to the log. *)
Lemma load_userConfig (p : string) (w : world) :
  exists u w',
    try_catch (getConfig cwd evaluate p) (fun _ => mret ∅) w = (Ok u, w')
    /\ files w' = files w /\ console w' = console w /\ this w' = this w
    /\ (calls w' = calls w \/ calls w' = (calls w ++ [Evaluate p])%list)
    /\ (files w !! locate cwd p = None -> u = ∅ /\ w' = w).
Proof.
  unfold try_catch, getConfig. rewrite bind_run. unfold import_module, stat.
  destruct (files w !! locate cwd p) as [[|source]|] eqn:E.
  - exists ∅, w. repeat split; auto; discriminate.
  - destruct (evaluate source) as [namespace|].
    + eexists _, _. split; [reflexivity|]. repeat split; auto; discriminate.
    + eexists _, _. split; [reflexivity|]. repeat split; auto; discriminate.
  - exists ∅, w. repeat split; auto.
Qed.

End RunFacts.

(** * The configuration [mergeConfig] returns *)

Lemma get_insert_eq (c : obj) (k : string) (v : value) : get (<[k := v]> c) k = v.
Proof. unfold get. now rewrite lookup_insert_eq. Qed.

Lemma get_insert_ne (c : obj) (k k' : string) (v : value) :
  k' <> k -> get (<[k' := v]> c) k = get c k.
Proof. intros H. unfold get. now rewrite lookup_insert_ne. Qed.

Lemma getFilepathFromConfig_run (config : obj) (k d D : string) (w : world) :
  get config "databaseConfigDirectory" = VStr D ->
  getFilepathFromConfig config k d w
  = (match resolve D (get config k) d with
     | Some s => Ok s
     | None => Throw (TypeError "The path argument must be of type string")
     end, w).
Proof.
  intros HD. unfold getFilepathFromConfig, resolve. rewrite bind_run.
  destruct (js_or (get config k) (VStr d)); try reflexivity. simpl.
  destruct (path.isAbsolute s); [reflexivity|].
  rewrite bind_run, HD. reflexivity.
Qed.

Section MergeFacts.

Variable cwd : string.
Variable JSON_parse : string -> option value.
Variable evaluate : string -> option obj.

Lemma mergeConfig_run (filepath : option string) (options : value) (w : world) :
  let D := getDatabaseConfigDirectory cwd filepath in
  let w1 := (try_catch (getConfig cwd evaluate (path.join D "config.js"))
                       (fun _ => mret ∅) w).2 in
  mergeConfig cwd JSON_parse evaluate filepath options w
  = (match options with
     | VUndefined | VNull =>
         Throw (TypeError "Cannot read properties of undefined (reading 'examples')")
     | _ =>
         match merged_config cwd JSON_parse D (prop options "examples")
                             (userConfig_in cwd evaluate filepath w) w1 with
         | Some config => Ok config
         | None => Throw (TypeError "The path argument must be of type string")
         end
     end, w1).
Proof.
  intros D w1. unfold mergeConfig. fold D. rewrite bind_run.
  unfold userConfig_in. fold D. subst w1.
  destruct (load_userConfig cwd evaluate (path.join D "config.js") w)
    as (u & w1 & Hload & _).
  rewrite Hload. cbn [snd].
  assert (Hrest : forall examples : value,
    (let config := <["examples" := examples]>
                    (<["databaseConfigDirectory" := VStr D]> (u ∪ defaultConfig)) in
     v ← getFilepathFromConfig config "functionsFilepath" "./functions.js";
     let config := <["functionsFilepath" := VStr v]> config in
     v ← getFilepathFromConfig config "schemaFilepath" "./schema.js";
     let config := <["schemaFilepath" := VStr v]> config in
     v ← getFilepathFromConfig config "configFilepath" "./config.js";
     let config := <["configFilepath" := VStr v]> config in
     v ← getFilepathFromConfig config "projectPackageJsonFilepath" "./package.json";
     let config := <["projectPackageJsonFilepath" := VStr v]> config in
     d ← validateString (get config "databaseConfigDirectory");
     let config := <["databaseConfigJsonFilepath" := VStr (path.join d "package.json")]> config in
     v ← getFilepathFromConfig config "generatedCodeDirectory" "./generated";
     let config := <["generatedCodeDirectory" := VStr v]> config in
     g ← validateString (get config "generatedCodeDirectory");
     let config := <["generatedPackageJsonFilepath" := VStr (path.join g "package.json")]> config in
     g ← validateString (get config "generatedCodeDirectory");
     let config := <["hyperschemaDirectory" := VStr (path.join g "schemas")]> config in
     g ← validateString (get config "generatedCodeDirectory");
     let config := <["hyperdbDirectory" := VStr (path.join g "database")]> config in
     config ← try_catch
                (package ← getPackageJson cwd JSON_parse cwd;
                 mret (<["package" := package]> config))
                (fun _ => mret config);
     let config :=
       if truthy (get config "package")
       then <["moduleType" := js_or (prop (get config "package") "type") (VStr "commonjs")]> config
       else config in
     mret config) w1
    = (match merged_config cwd JSON_parse D examples u w1 with
       | Some config => Ok config
       | None => Throw (TypeError "The path argument must be of type string")
       end, w1)).
  { intros examples. cbv zeta. unfold merged_config.
    repeat
      (rewrite bind_run;
       rewrite (getFilepathFromConfig_run _ _ _ D)
         by (rewrite ?get_insert_ne by done; apply get_insert_eq);
       rewrite ?get_insert_ne by done;
       match goal with
       | |- context [resolve D ?v ?d] =>
           destruct (resolve D v d) as [?s|] eqn:?; [|reflexivity]
       end; cbn [mbind option_bind];
       try (rewrite bind_run, ?get_insert_ne, get_insert_eq by done;
            cbn [validateString mret M_ret])).
    repeat (rewrite bind_run, ?get_insert_ne, get_insert_eq by done;
            cbn [validateString mret M_ret]).
    rewrite bind_run. unfold try_catch, with_package. rewrite bind_run.
    pose proof (getPackageJson_world cwd JSON_parse cwd w1) as Hw.
    destruct (getPackageJson cwd JSON_parse cwd w1) as [[package|e] w2];
      cbn [snd] in Hw; subst w2; reflexivity. }
  cbv beta iota.
  destruct options; rewrite bind_run; try reflexivity; apply Hrest.
Qed.

End MergeFacts.

(** * Entries of the merged configuration *)

Section ConfigFacts.

Variable cwd : string.
Variable JSON_parse : string -> option value.

Lemma merged_config_Some (D : string) (ex : value) (uc : obj) (w : world)
      (cfg : obj) :
  merged_config cwd JSON_parse D ex uc w = Some cfg ->
  exists f s c p g,
    resolve D (get (uc ∪ defaultConfig) "functionsFilepath") "./functions.js" = Some f
    /\ resolve D (get (uc ∪ defaultConfig) "schemaFilepath") "./schema.js" = Some s
    /\ resolve D (get (uc ∪ defaultConfig) "configFilepath") "./config.js" = Some c
    /\ resolve D (get (uc ∪ defaultConfig) "projectPackageJsonFilepath") "./package.json" = Some p
    /\ resolve D (get (uc ∪ defaultConfig) "generatedCodeDirectory") "./generated" = Some g
    /\ cfg = with_moduleType
               (with_package cwd JSON_parse w
                  (with_paths D ex f s c p g (uc ∪ defaultConfig))).
Proof.
  unfold merged_config. cbv zeta.
  repeat match goal with
         | |- context [resolve D ?v ?d] =>
             destruct (resolve D v d) as [?s|] eqn:?; [|discriminate]
         end.
  cbn [mbind option_bind]. intros [= <-].
  eexists _, _, _, _, _. repeat split; reflexivity.
Qed.

Lemma lookup_with_moduleType (c : obj) (k : string) :
  k <> "moduleType" -> with_moduleType c !! k = c !! k.
Proof.
  intros H. unfold with_moduleType.
  destruct (truthy (get c "package")); [|reflexivity].
  now rewrite lookup_insert_ne.
Qed.

Lemma lookup_with_package (w : world) (c : obj) (k : string) :
  k <> "package" -> with_package cwd JSON_parse w c !! k = c !! k.
Proof.
  intros H. unfold with_package.
  destruct (getPackageJson cwd JSON_parse cwd w) as [[package|e] w1];
    [|reflexivity].
  now rewrite lookup_insert_ne.
Qed.

Lemma lookup_with_paths_other (D : string) (ex : value) (f s c p g : string)
      (base : obj) (k : string) :
  k ∉ derived_keys -> k <> "examples" ->
  with_paths D ex f s c p g base !! k = base !! k.
Proof.
  intros Hk He. unfold with_paths.
  rewrite !lookup_insert_ne; [reflexivity|..]; try congruence;
    intros <-; apply Hk; unfold derived_keys; set_solver.
Qed.

Lemma get_lookup (c : obj) (k : string) (v : value) :
  c !! k = Some v -> get c k = v.
Proof. unfold get. now intros ->. Qed.

End ConfigFacts.

(** * What a computation leaves alone *)

Create HintDb stable discriminated.

Section Stable.

Context {X : Type} (f : world -> X).

Lemma stable_ret {A} (a : A) : stable f (mret a).
Proof. now intros w. Qed.

Lemma stable_throw {A} (e : error) : stable f (@throw A e).
Proof. now intros w. Qed.

Lemma stable_bind {A B} (m : M A) (k : A -> M B) :
  stable f m -> (forall a, stable f (k a)) -> stable f (m ≫= k).
Proof.
  intros Hm Hk w. rewrite bind_run. specialize (Hm w).
  destruct (m w) as [[a|e] w1]; cbn [snd] in *; [|assumption].
  now rewrite Hk.
Qed.

Lemma stable_try_catch {A} (m : M A) (h : error -> M A) :
  stable f m -> (forall e, stable f (h e)) -> stable f (try_catch m h).
Proof.
  intros Hm Hh w. unfold try_catch. specialize (Hm w).
  destruct (m w) as [[a|e] w1]; cbn [snd] in *; [assumption|].
  now rewrite Hh.
Qed.

Lemma stable_read_world : stable f read_world.
Proof. now intros w. Qed.

Lemma stable_validateString (v : value) : stable f (validateString v).
Proof. intros w. now destruct v. Qed.

Lemma stable_if {A} (b : bool) (m1 m2 : M A) :
  stable f m1 -> stable f m2 -> stable f (if b then m1 else m2).
Proof. now destruct b. Qed.

Lemma stable_this_config (k : string) : stable f (this_config k).
Proof. now intros w. Qed.

Lemma stable_validateConfig (c : obj) : stable f (validateConfig c).
Proof. intros w. unfold validateConfig. now destruct (_ <? _)%nat. Qed.

Lemma stable_getFilepathFromConfig (c : obj) (k d : string) :
  stable f (getFilepathFromConfig c k d).
Proof. intros w. now rewrite getFilepathFromConfig_world. Qed.

Lemma stable_exists (cwd p : string) : stable f (exists_ cwd p).
Proof. intros w. now rewrite exists_world. Qed.

Lemma stable_fs_access (cwd p : string) : stable f (fs_access cwd p).
Proof. intros w. unfold fs_access. now destruct (stat_path _ _ _). Qed.

Lemma stable_fs_readFile (cwd p : string) : stable f (fs_readFile cwd p).
Proof. intros w. unfold fs_readFile. now destruct (stat_path _ _ _) as [|[]]. Qed.

Lemma stable_getPackageJson (cwd : string) (parse : string -> option value)
      (dir : string) : stable f (getPackageJson cwd parse dir).
Proof. intros w. now rewrite getPackageJson_world. Qed.

End Stable.

#[export] Hint Resolve stable_ret stable_throw stable_read_world
  stable_validateString stable_this_config stable_validateConfig
  stable_getFilepathFromConfig stable_exists stable_fs_access
  stable_fs_readFile stable_getPackageJson : stable.

(** The file operations, the console and the external calls do not touch
    the helper object. *)
Section StableThis.

Variable cwd : string.

Lemma stable_this_writeFile (p c : string) : stable this (fs_writeFile cwd p c).
Proof.
  intros w. unfold fs_writeFile.
  destruct (resolve_path _ _ _) as [|l]; [reflexivity|].
  destruct (files w !! l) as [[]|]; try reflexivity.
  now destruct (holds _ _).
Qed.

Lemma stable_this_mkdir (p : string) : stable this (fs_mkdir cwd p).
Proof.
  intros w. unfold fs_mkdir.
  destruct (String.eqb p ""); [reflexivity|].
  destruct (walk _ _ _) as [|l]; [reflexivity|].
  destruct (files w !! l); [reflexivity|]. now destruct (holds _ _).
Qed.

Lemma stable_this_mkdir_recursive (p : string) :
  stable this (fs_mkdir_recursive cwd p).
Proof.
  intros w. unfold fs_mkdir_recursive.
  destruct (String.eqb p ""); [reflexivity|].
  now destruct (mkdirp _ _ _) as [[] ?].
Qed.

Lemma stable_this_console_log (s : string) : stable this (console_log s).
Proof. now intros w. Qed.

Lemma stable_this_import (evaluate : string -> option obj) (p : string) :
  stable this (import_module cwd evaluate p).
Proof.
  intros w. unfold import_module.
  destruct (stat _ _) as [|[]]; try reflexivity. now destruct (evaluate _).
Qed.

Lemma stable_this_external run (c : call) : stable this (external run c).
Proof. intros w. unfold external. now destruct (run _ _ _). Qed.

End StableThis.

#[export] Hint Resolve stable_this_writeFile stable_this_mkdir
  stable_this_mkdir_recursive stable_this_console_log stable_this_import
  stable_this_external : stable.

(** Structural steps: through binds, handlers and conditionals. *)
Ltac stable_step :=
  first
    [ solve [auto with stable]
    | apply stable_bind; [|intros ?]
    | apply stable_try_catch; [|intros ?]
    | apply stable_if
    | match goal with
      | |- stable _ (match ?x with _ => _ end) => destruct x
      end ].

Ltac stable_auto := repeat stable_step.

Section StableMethods.

Variable cwd : string.
Variable run : list call -> call -> gmap (list string) node
               -> option (gmap (list string) node).
Variable path_relative : string -> string -> string.
Variable T : templates.

Lemma stable_this_createDefaultFiles :
  stable this (createDefaultFiles cwd path_relative T).
Proof.
  unfold createDefaultFiles, createConfigFile, createFunctionsFile,
    createSchemaFile, createDatabaseConfigPackageJsonFile,
    createGeneratedPackageJsonFile, packageJsonTemplate,
    createExampleIndexFile, writeFile.
  stable_auto.
Qed.

Lemma stable_this_buildSchema (schemaModule : obj) :
  stable this (buildSchema run schemaModule).
Proof.
  unfold buildSchema, call_export. stable_auto.
Qed.

End StableMethods.

(** * The merged configuration: precedence, paths, command line *)

Lemma get_union_configured (userConfig : obj) (k : string) :
  get (userConfig ∪ defaultConfig) k = configured userConfig k.
Proof.
  unfold configured, get. rewrite lookup_union.
  destruct (userConfig !! k) as [v|]; [now destruct (defaultConfig !! k)|].
  now rewrite (left_id None _).
Qed.

(** Reading an entry written by [with_paths]. *)
Ltac distinct_keys := apply String.eqb_neq; reflexivity.

Ltac lookup_paths :=
  unfold with_paths; rewrite ?lookup_insert_ne by distinct_keys;
  apply lookup_insert_eq.

Section Merge.

Variable cwd : string.
Variable JSON_parse : string -> option value.
Variable evaluate : string -> option obj.

(** What a successful [mergeConfig] returns. *)
Lemma mergeConfig_Ok (filepath : option string) (options : value)
      (w w' : world) (cfg : obj) :
  mergeConfig cwd JSON_parse evaluate filepath options w = (Ok cfg, w') ->
  let D := getDatabaseConfigDirectory cwd filepath in
  let base := userConfig_in cwd evaluate filepath w ∪ defaultConfig in
  exists f s c p g,
    resolve D (get base "functionsFilepath") "./functions.js" = Some f
    /\ resolve D (get base "schemaFilepath") "./schema.js" = Some s
    /\ resolve D (get base "configFilepath") "./config.js" = Some c
    /\ resolve D (get base "projectPackageJsonFilepath") "./package.json" = Some p
    /\ resolve D (get base "generatedCodeDirectory") "./generated" = Some g
    /\ cfg = with_moduleType
               (with_package cwd JSON_parse w'
                  (with_paths D (prop options "examples") f s c p g base)).
Proof.
  rewrite mergeConfig_run. intros H D base.
  assert (Hm : exists ex,
             merged_config cwd JSON_parse D ex
               (userConfig_in cwd evaluate filepath w) w' = Some cfg
             /\ ex = prop options "examples").
  { destruct options; try discriminate;
      match type of H with
      | (match ?m with _ => _ end, _) = _ =>
          destruct m eqn:E; [|discriminate]
      end; inversion H; subst; eexists; split; try reflexivity; exact E. }
  destruct Hm as (ex & Hm & ->).
  now apply merged_config_Some in Hm.
Qed.

(** C3. Every file path of the resolved configuration is absolute: a
    configured (or, failing that, default) path that is absolute is kept
    as it is, a relative one is joined to the base directory; the paths
    below the generated code directory and the manifest of the database
    directory are joined to absolute directories; the base directory is
    the command line argument when that is absolute, and otherwise the
    argument (by default [./database]) joined to the working directory. *)
Theorem resolved_paths_absolute (filepath : option string) (options : value)
        (w w' : world) (cfg : obj) :
  path.isAbsolute cwd = true ->
  mergeConfig cwd JSON_parse evaluate filepath options w = (Ok cfg, w') ->
  let argument := default "./database" filepath in
  let userConfig := userConfig_in cwd evaluate filepath w in
  exists D g,
    D = (if path.isAbsolute argument then argument else path.join cwd argument)
    /\ path.isAbsolute D = true
    /\ cfg !! "databaseConfigDirectory" = Some (VStr D)
    /\ Forall (fun '(k, d) =>
                 exists s,
                   js_or (configured userConfig k) (VStr d) = VStr s
                   /\ cfg !! k
                      = Some (VStr (if path.isAbsolute s then s
                                    else path.join D s))
                   /\ (exists s, cfg !! k = Some (VStr s) /\ path.isAbsolute s = true))
              configured_paths
    /\ cfg !! "generatedCodeDirectory" = Some (VStr g)
    /\ path.isAbsolute g = true
    /\ Forall (fun '(k, s) => cfg !! k = Some (VStr s) /\ path.isAbsolute s = true)
              [ ("databaseConfigJsonFilepath", path.join D "package.json");
                ("generatedPackageJsonFilepath", path.join g "package.json");
                ("hyperschemaDirectory", path.join g "schemas");
                ("hyperdbDirectory", path.join g "database") ].
Proof.
  intros Hcwd H argument userConfig.
  apply mergeConfig_Ok in H as (f & s & c & p & g & Hf & Hs & Hc & Hp & Hg & ->).
  set (D := getDatabaseConfigDirectory cwd filepath) in *.
  assert (HD : path.isAbsolute D = true).
  { subst D. unfold getDatabaseConfigDirectory. fold argument.
    destruct (path.isAbsolute argument) eqn:E; [assumption|].
    now apply locate_facts.isAbsolute_join. }
  assert (Hres : forall v d r, resolve D v d = Some r ->
            exists configured, js_or v (VStr d) = VStr configured
              /\ r = (if path.isAbsolute configured then configured
                      else path.join D configured)
              /\ path.isAbsolute r = true).
  { intros v d r. unfold resolve.
    destruct (js_or v (VStr d)); try discriminate.
    intros [= <-]. eexists; split; [reflexivity|]. split; [reflexivity|].
    destruct (path.isAbsolute s0) eqn:E; [assumption|].
    now apply locate_facts.isAbsolute_join. }
  assert (Habs_g : path.isAbsolute g = true)
    by (apply Hres in Hg as (? & _ & _ & ?); assumption).
  exists D, g. split; [reflexivity|]. split; [assumption|].
  assert (Hlook : forall k v,
            with_paths D (prop options "examples") f s c p g
                       (userConfig ∪ defaultConfig) !! k = Some v ->
            k <> "package" -> k <> "moduleType" ->
            with_moduleType
              (with_package cwd JSON_parse w'
                 (with_paths D (prop options "examples") f s c p g
                             (userConfig ∪ defaultConfig))) !! k = Some v).
  { intros k v Hk H1 H2.
    now rewrite lookup_with_moduleType, lookup_with_package. }
  split; [apply Hlook; [lookup_paths|done..]|].
  split.
  { assert (Hone : forall k d r,
              resolve D (get (userConfig ∪ defaultConfig) k) d = Some r ->
              with_paths D (prop options "examples") f s c p g
                         (userConfig ∪ defaultConfig) !! k = Some (VStr r) ->
              k <> "package" -> k <> "moduleType" ->
              exists configured,
                js_or (get (userConfig ∪ defaultConfig) k) (VStr d) = VStr configured
                /\ with_moduleType
                     (with_package cwd JSON_parse w'
                        (with_paths D (prop options "examples") f s c p g
                                    (userConfig ∪ defaultConfig))) !! k
                   = Some (VStr (if path.isAbsolute configured then configured
                                 else path.join D configured))
                /\ (exists s0,
                      with_moduleType
                        (with_package cwd JSON_parse w'
                           (with_paths D (prop options "examples") f s c p g
                                       (userConfig ∪ defaultConfig))) !! k
                      = Some (VStr s0) /\ path.isAbsolute s0 = true)).
    { intros k d r Hr Hk H1 H2.
      destruct (Hres _ _ _ Hr) as (configured & Hjs & -> & Habs).
      exists configured. split; [exact Hjs|].
      split; [now apply Hlook|].
      eexists; split; [apply Hlook; [exact Hk|done..]|exact Habs]. }
    unfold configured_paths.
    repeat first [apply List.Forall_nil | apply List.Forall_cons];
      rewrite <- get_union_configured;
      (eapply Hone; [eassumption|lookup_paths|done|done]). }
  split; [apply Hlook; [lookup_paths|done..]|]. split; [assumption|].
  repeat first [apply List.Forall_nil | apply List.Forall_cons];
    (split; [apply Hlook; [lookup_paths|done..]
            |now apply locate_facts.isAbsolute_join]).
Qed.

(** C2, as the code has it. The merge has the precedence defaults, user
    configuration, derived values: a key that is neither derived nor one
    of [examples], [package], [moduleType] holds the user's value when
    the user configuration has the key and the default otherwise; every
    derived path is computed from the configured value (the user's
    before the default) and written over both; [package] is replaced by
    the manifest of the project whenever reading it does not throw. *)
Theorem mergeConfig_precedence (filepath : option string) (options : value)
        (w w' : world) (cfg : obj) :
  mergeConfig cwd JSON_parse evaluate filepath options w = (Ok cfg, w') ->
  let D := getDatabaseConfigDirectory cwd filepath in
  let userConfig := userConfig_in cwd evaluate filepath w in
  (forall k, k ∉ derived_keys -> k ∉ ["examples"; "package"; "moduleType"] ->
     cfg !! k = match userConfig !! k with
                | Some v => Some v
                | None => defaultConfig !! k
                end)
  /\ cfg !! "databaseConfigDirectory" = Some (VStr D)
  /\ Forall (fun '(k, d) =>
               exists s, resolve D (configured userConfig k) d = Some s
                         /\ cfg !! k = Some (VStr s))
            configured_paths
  /\ (exists g,
        cfg !! "generatedCodeDirectory" = Some (VStr g)
        /\ cfg !! "generatedPackageJsonFilepath" = Some (VStr (path.join g "package.json"))
        /\ cfg !! "hyperschemaDirectory" = Some (VStr (path.join g "schemas"))
        /\ cfg !! "hyperdbDirectory" = Some (VStr (path.join g "database")))
  /\ cfg !! "databaseConfigJsonFilepath" = Some (VStr (path.join D "package.json"))
  /\ cfg !! "package"
     = match getPackageJson cwd JSON_parse cwd w' with
       | (Ok manifest, _) => Some manifest
       | (Throw _, _) => Some (configured userConfig "package")
       end.
Proof.
  intros H D userConfig.
  apply mergeConfig_Ok in H as (f & s & c & p & g & Hf & Hs & Hc & Hp & Hg & ->).
  fold D userConfig in Hf, Hs, Hc, Hp, Hg |- *.
  rewrite get_union_configured in Hf, Hs, Hc, Hp, Hg.
  assert (Hlook : forall k v,
            with_paths D (prop options "examples") f s c p g
                       (userConfig ∪ defaultConfig) !! k = Some v ->
            k <> "package" -> k <> "moduleType" ->
            with_moduleType
              (with_package cwd JSON_parse w'
                 (with_paths D (prop options "examples") f s c p g
                             (userConfig ∪ defaultConfig))) !! k = Some v).
  { intros k v Hk H1 H2.
    now rewrite lookup_with_moduleType, lookup_with_package. }
  split.
  { intros k Hk Hk'.
    rewrite lookup_with_moduleType, lookup_with_package by set_solver.
    rewrite lookup_with_paths_other by set_solver.
    rewrite lookup_union.
    destruct (userConfig !! k); [now destruct (defaultConfig !! k)|].
    now rewrite (left_id None _). }
  split; [apply Hlook; [lookup_paths|done..]|].
  split.
  { unfold configured_paths.
    repeat first [apply List.Forall_nil | apply List.Forall_cons];
      (eexists; split; [eassumption|apply Hlook; [lookup_paths|done..]]). }
  split.
  { exists g. repeat split; (apply Hlook; [lookup_paths|done..]). }
  split; [apply Hlook; [lookup_paths|done..]|].
  rewrite lookup_with_moduleType by done. unfold with_package.
  destruct (getPackageJson cwd JSON_parse cwd w') as [[manifest|e] w2].
  - apply lookup_insert_eq.
  - unfold with_paths. rewrite !lookup_insert_ne by done.
    rewrite <- get_union_configured. unfold get.
    rewrite lookup_union.
    destruct (userConfig !! "package"); reflexivity.
Qed.

(** C8, as the code has it. Of the command line, the directory argument
    and the examples flag reach the configuration: the base directory is
    derived from the argument and [examples] is the flag, whatever the
    defaults and the user configuration hold; nothing else of the flags
    object is read; and [init] and [build] both keep this one merged
    configuration as [this.config]. *)
Theorem cli_arguments_in_config run path_relative T
        (filepath : option string) (options : value) (w w1 : world)
        (cfg : obj) :
  mergeConfig cwd JSON_parse evaluate filepath options w = (Ok cfg, w1) ->
  cfg !! "databaseConfigDirectory"
  = Some (VStr (getDatabaseConfigDirectory cwd filepath))
  /\ cfg !! "examples" = Some (prop options "examples")
  /\ (forall flags,
        flags <> VUndefined -> flags <> VNull ->
        prop flags "examples" = prop options "examples" ->
        mergeConfig cwd JSON_parse evaluate filepath flags w = (Ok cfg, w1))
  /\ config (this (init cwd JSON_parse evaluate path_relative T
                       filepath options w).2) = cfg
  /\ config (this (build cwd JSON_parse evaluate run filepath options w).2) = cfg.
Proof.
  intros H.
  pose proof H as Hcfg.
  apply mergeConfig_Ok in Hcfg as (f & s & c & p & g & _ & _ & _ & _ & _ & Hcfg).
  split.
  { rewrite Hcfg, lookup_with_moduleType, lookup_with_package by done.
    lookup_paths. }
  split.
  { rewrite Hcfg, lookup_with_moduleType, lookup_with_package by done.
    lookup_paths. }
  split.
  { intros flags Hu Hn Hex. rewrite mergeConfig_run in H |- *.
    rewrite Hex.
    destruct options; try discriminate; destruct flags; congruence. }
  split.
  - unfold init. rewrite bind_run, H, bind_run. cbn [update].
    match goal with
    | |- config (this (?k ?w).2) = _ =>
        assert (Hst : stable this k); [|now rewrite Hst]
    end.
    pose proof (stable_this_createDefaultFiles cwd path_relative T).
    stable_auto.
  - unfold build. rewrite bind_run, H, bind_run. cbn [update].
    match goal with
    | |- config (this (?k ?w).2) = _ =>
        assert (Hst : stable this k); [|now rewrite Hst]
    end.
    unfold getSchemaDefinitions.
    pose proof (stable_this_buildSchema run).
    stable_auto.
Qed.

End Merge.

(** ** The sample project *)

(** Splitting a run of the sample into its outcome, once the outcome is
    known to be a value. *)
Ltac returns_as cfg w' E :=
  match goal with
  | Hok : is_Ok ?run = true |- _ =>
      let r := fresh "r" in
      remember run as r eqn:E in *;
      destruct r as [[cfg|?] w']; [|discriminate Hok];
      symmetry in E; clear Hok
  end.

(** The sample project resolves to absolute paths. *)
Lemma resolved_paths_absolute_witness :
  path.isAbsolute sample.cwd = true
  /\ exists cfg w',
      mergeConfig sample.cwd sample.JSON_parse sample.evaluate
                  None (sample.flags false) (sample.start sample.project)
      = (Ok cfg, w')
      /\ cfg !! "databaseConfigDirectory" = Some (VStr "/proj/database")
      /\ exists g, cfg !! "generatedCodeDirectory" = Some (VStr g)
                   /\ path.isAbsolute g = true.
Proof.
  split; [reflexivity|].
  assert (Hok : is_Ok (mergeConfig sample.cwd sample.JSON_parse sample.evaluate
                         None (sample.flags false)
                         (sample.start sample.project)) = true)
    by (vm_compute; reflexivity).
  returns_as cfg w' E.
  exists cfg, w'. split; [reflexivity|].
  destruct (resolved_paths_absolute sample.cwd sample.JSON_parse sample.evaluate
              None (sample.flags false) (sample.start sample.project) w' cfg
              eq_refl E)
    as (D & g & HD & _ & Hdir & _ & Hg & Habs & _).
  split; [rewrite Hdir, HD; reflexivity|].
  exists g. split; assumption.
Defined.

(** In a project whose config module sets entries of its own, the derived
    entries are where the merge puts them. *)
Lemma mergeConfig_precedence_witness :
  exists cfg w',
    mergeConfig sample.cwd sample.JSON_parse sample.evaluate
                None (sample.flags false)
                (sample.start (sample.project_with sample.config_with_package))
    = (Ok cfg, w')
    /\ cfg !! "databaseConfigDirectory" = Some (VStr "/proj/database")
    /\ cfg !! "databaseConfigJsonFilepath" = Some (VStr "/proj/database/package.json").
Proof.
  assert (Hok : is_Ok (mergeConfig sample.cwd sample.JSON_parse sample.evaluate
                         None (sample.flags false)
                         (sample.start (sample.project_with sample.config_with_package)))
                = true)
    by (vm_compute; reflexivity).
  returns_as cfg w' E.
  exists cfg, w'. split; [reflexivity|].
  destruct (mergeConfig_precedence sample.cwd sample.JSON_parse sample.evaluate
              None (sample.flags false) _ w' cfg E)
    as (_ & Hdir & _ & _ & Hjson & _).
  split; [exact Hdir|exact Hjson].
Defined.

(** C2 as stated fails: [package] is a key of the defaults and of this
    user configuration, it is not one of the derived paths, and the merged
    configuration holds the manifest of the project, not the user's
    value. *)
Lemma user_package_not_kept :
  let w := sample.start (sample.project_with sample.config_with_package) in
  let mine := VObj {[ "name" := VStr "mine" ]} in
  exists cfg w',
    mergeConfig sample.cwd sample.JSON_parse sample.evaluate
                None (sample.flags false) w = (Ok cfg, w')
    /\ defaultConfig !! "package" = Some (VObj ∅)
    /\ userConfig_in sample.cwd sample.evaluate None w !! "package" = Some mine
    /\ ("package" ∉ derived_keys)
    /\ cfg !! "package" = Some (VObj ∅)
    /\ cfg !! "package" ≠ Some mine.
Proof.
  intros w mine.
  assert (Hok : is_Ok (mergeConfig sample.cwd sample.JSON_parse sample.evaluate
                         None (sample.flags false) w) = true)
    by (vm_compute; reflexivity).
  assert (Hpkg : returned ∅ (mergeConfig sample.cwd sample.JSON_parse
                               sample.evaluate None (sample.flags false) w)
                 !! "package" = Some (VObj ∅))
    by (vm_compute; reflexivity).
  returns_as cfg w' E. exists cfg, w'.
  split; [reflexivity|].
  split; [reflexivity|].
  split; [vm_compute; reflexivity|].
  split.
  { clear. unfold derived_keys. intros H.
    repeat (apply elem_of_cons in H as [H|H]; [discriminate H|]).
    now apply elem_of_nil in H. }
  split; [exact Hpkg|].
  change (cfg !! "package" = Some (VObj ∅)) in Hpkg. rewrite Hpkg.
  intros H. apply (f_equal (fun v => prop (default VUndefined v) "name")) in H.
  vm_compute in H. discriminate H.
Qed.

(** From the command line [init mydb --examples] the directory and the
    flag reach the configuration both methods keep. *)
Lemma cli_arguments_in_config_witness :
  exists cfg w1,
    mergeConfig sample.cwd sample.JSON_parse sample.evaluate
                (Some "mydb") (sample.flags true) (sample.start sample.project)
    = (Ok cfg, w1)
    /\ cfg !! "databaseConfigDirectory" = Some (VStr "/proj/mydb")
    /\ cfg !! "examples" = Some (VBool true)
    /\ config (this (init sample.cwd sample.JSON_parse sample.evaluate
                          sample.path_relative sample.T (Some "mydb")
                          (sample.flags true) (sample.start sample.project)).2)
       = cfg.
Proof.
  assert (Hok : is_Ok (mergeConfig sample.cwd sample.JSON_parse sample.evaluate
                         (Some "mydb") (sample.flags true)
                         (sample.start sample.project)) = true)
    by (vm_compute; reflexivity).
  returns_as cfg w1 E.
  exists cfg, w1. split; [reflexivity|].
  destruct (cli_arguments_in_config sample.cwd sample.JSON_parse sample.evaluate
              sample.run sample.path_relative sample.T
              (Some "mydb") (sample.flags true) _ w1 cfg E)
    as (Hdir & Hex & _ & Hinit & _).
  split; [exact Hdir|]. split; [exact Hex|exact Hinit].
Defined.

(** C8 as stated fails: a flag other than [examples] on the command line
    ([init mydb --examples --verbose]) is in the flags object and nowhere
    in the merged configuration, and neither is the alias [e]. *)
Lemma extra_flag_not_merged :
  let flags :=
    VObj (<["verbose" := VBool true]>
         (<["examples" := VBool true]>
         (<["e" := VBool true]> {[ "_" := VObj ∅ ]}))) in
  exists cfg w',
    mergeConfig sample.cwd sample.JSON_parse sample.evaluate
                (Some "mydb") flags (sample.start sample.project) = (Ok cfg, w')
    /\ prop flags "verbose" = VBool true
    /\ cfg !! "verbose" = None
    /\ prop flags "e" = VBool true
    /\ cfg !! "e" = None.
Proof.
  intros flags.
  assert (Hok : is_Ok (mergeConfig sample.cwd sample.JSON_parse sample.evaluate
                         (Some "mydb") flags (sample.start sample.project)) = true)
    by (vm_compute; reflexivity).
  assert (Hv : returned ∅ (mergeConfig sample.cwd sample.JSON_parse
                             sample.evaluate (Some "mydb") flags
                             (sample.start sample.project)) !! "verbose" = None)
    by (vm_compute; reflexivity).
  assert (He : returned ∅ (mergeConfig sample.cwd sample.JSON_parse
                             sample.evaluate (Some "mydb") flags
                             (sample.start sample.project)) !! "e" = None)
    by (vm_compute; reflexivity).
  returns_as cfg w' E. exists cfg, w'.
  split; [reflexivity|].
  split; [vm_compute; reflexivity|].
  split; [exact Hv|].
  split; [vm_compute; reflexivity|exact He].
Qed.

(** * Running [init] *)

(** Only the file operations and the builders touch the files. *)
Section StableFiles.

Variable cwd : string.

Lemma stable_files_console_log (s : string) : stable files (console_log s).
Proof. now intros w. Qed.

Lemma stable_files_set_config (c : obj) : stable files (update (set_config c)).
Proof. now intros w. Qed.

Lemma stable_files_import (evaluate : string -> option obj) (p : string) :
  stable files (import_module cwd evaluate p).
Proof.
  intros w. unfold import_module.
  destruct (stat _ _) as [|[]]; try reflexivity. now destruct (evaluate _).
Qed.

End StableFiles.

#[export] Hint Resolve stable_files_console_log stable_files_set_config
  stable_files_import : stable.

Section Init.

Variable cwd : string.
Variable JSON_parse : string -> option value.
Variable evaluate : string -> option obj.
Variable path_relative : string -> string -> string.
Variable T : templates.

Lemma stable_files_mergeConfig (filepath : option string) (options : value) :
  stable files (mergeConfig cwd JSON_parse evaluate filepath options).
Proof.
  unfold mergeConfig, getConfig. stable_auto.
Qed.

(** The entries of the merged configuration [createDefaultFiles] reads. *)
Lemma mergeConfig_entries (filepath : option string) (options : value)
      (w w1 : world) (cfg : obj) :
  mergeConfig cwd JSON_parse evaluate filepath options w = (Ok cfg, w1) ->
  get cfg "databaseConfigDirectory"
  = VStr (getDatabaseConfigDirectory cwd filepath)
  /\ get cfg "examples" = prop options "examples".
Proof.
  intros H.
  apply mergeConfig_Ok in H as (f & s & c & p & g & _ & _ & _ & _ & _ & ->).
  split; apply get_lookup;
    rewrite lookup_with_moduleType, lookup_with_package by done; lookup_paths.
Qed.

Lemma init_run (filepath : option string) (options : value) (w : world) :
  init cwd JSON_parse evaluate path_relative T filepath options w
  = match mergeConfig cwd JSON_parse evaluate filepath options w with
    | (Throw e, w1) => (Throw e, w1)
    | (Ok cfg, w1) =>
        let w2 := set_config cfg w1 in
        match validateConfig cfg w2 with
        | (Throw e, _) => (Throw e, w2)
        | (Ok _, _) =>
            match exists_ cwd "./package.json" w2 with
            | (Throw e, _) => (Throw e, w2)
            | (Ok false, _) =>
                (Throw (Error "Error: package.json not found in project directory"),
                 add_console package_json_help w2)
            | (Ok true, _) =>
                match createDefaultFiles cwd path_relative T w2 with
                | (Throw e, w3) => (Throw e, w3)
                | (Ok _, w3) => (Ok (checkPackageDependencies (this w3)), w3)
                end
            end
        end
    end.
Proof.
  unfold init. rewrite bind_run.
  destruct (mergeConfig cwd JSON_parse evaluate filepath options w)
    as [[cfg|e] w1]; [|reflexivity].
  rewrite bind_run. cbn [update]. rewrite bind_run. cbn [read_world].
  rewrite bind_run. cbv zeta. cbn [set_config this config].
  pose proof (stable_validateConfig (fun w => w) cfg (set_config cfg w1)) as Hv.
  destruct (validateConfig cfg (set_config cfg w1)) as [[[]|e] w2];
    cbn [snd] in Hv; subst w2; [|reflexivity].
  rewrite bind_run.
  pose proof (exists_world cwd "./package.json" (set_config cfg w1)) as He.
  destruct (exists_ cwd "./package.json" (set_config cfg w1)) as [[[]|e] w2];
    cbn [snd] in He; subst w2; reflexivity.
Qed.

Lemma createDefaultFiles_run (D : string) (w : world) :
  get (config (this w)) "databaseConfigDirectory" = VStr D ->
  let exampleIndexFilepath := path.join (path.dirname D) "index.js" in
  createDefaultFiles cwd path_relative T w
  = match exists_ cwd D w with
    | (Throw e, _) => (Throw e, w)
    | (Ok true, _) =>
        (Throw (Error ("Error: Schema directory already exists at " ++ D)), w)
    | (Ok false, _) =>
        match (if truthy (get (config (this w)) "examples")
               then exists_ cwd exampleIndexFilepath w
               else (Ok false, w)) with
        | (Throw e, _) => (Throw e, w)
        | (Ok true, _) =>
            (Throw (Error ("Error: index.js file already exists at "
                             ++ exampleIndexFilepath)), w)
        | (Ok false, _) =>
            scaffold cwd path_relative T D exampleIndexFilepath w
        end
    end.
Proof.
  intros HD idx. unfold createDefaultFiles, scaffold, this_config.
  cbv [mbind M_bind read_world mret M_ret]. rewrite HD.
  cbv [validateString mret M_ret]. fold idx.
  pose proof (exists_world cwd D w) as He.
  destruct (exists_ cwd D w) as [[[]|e] w1]; cbn [snd] in He; subst w1;
    try reflexivity.
  destruct (truthy (get (config (this w)) "examples")); [|reflexivity].
  pose proof (exists_world cwd idx w) as He.
  destruct (exists_ cwd idx w) as [[[]|e] w1]; cbn [snd] in He; subst w1;
    reflexivity.
Qed.

(** [init] either throws with the files as they were, or passes every
    check and goes on to write. *)
Lemma init_cases (filepath : option string) (options : value) (w : world) :
  let D := getDatabaseConfigDirectory cwd filepath in
  let exampleIndexFilepath := path.join (path.dirname D) "index.js" in
  (exists e w',
      init cwd JSON_parse evaluate path_relative T filepath options w
      = (Throw e, w')
      /\ files w' = files w)
  \/ (exists cfg w1,
        mergeConfig cwd JSON_parse evaluate filepath options w = (Ok cfg, w1)
        /\ stat_path cwd (files w) D = inl ENOENT
        /\ (truthy (prop options "examples") = true ->
            stat_path cwd (files w) exampleIndexFilepath = inl ENOENT)
        /\ init cwd JSON_parse evaluate path_relative T filepath options w
           = match scaffold cwd path_relative T D exampleIndexFilepath
                            (set_config cfg w1) with
             | (Ok _, w3) => (Ok (checkPackageDependencies (this w3)), w3)
             | (Throw e, w3) => (Throw e, w3)
             end).
Proof.
  intros D idx. rewrite init_run.
  pose proof (stable_files_mergeConfig filepath options w) as Hfiles.
  destruct (mergeConfig cwd JSON_parse evaluate filepath options w)
    as [[cfg|e] w1] eqn:Hm; cbn [snd] in Hfiles;
    [|left; eauto].
  destruct (mergeConfig_entries _ _ _ _ _ Hm) as [HD Hex]. fold D in HD.
  cbv zeta.
  destruct (validateConfig cfg (set_config cfg w1)) as [[[]|e] w2];
    [|left; eauto].
  assert (Hfiles2 : files (set_config cfg w1) = files w) by exact Hfiles.
  rewrite exists_run, Hfiles2.
  destruct (stat_path cwd (files w) "./package.json") as [[]|n];
    try (left; eexists _, _; split; [reflexivity|assumption]).
  rewrite (createDefaultFiles_run D) by exact HD.
  rewrite exists_run, Hfiles2.
  change (config (this (set_config cfg w1))) with cfg. rewrite Hex.
  destruct (stat_path cwd (files w) D) as [[]|n'] eqn:HstatD;
    try (left; eexists _, _; split; [reflexivity|assumption]).
  fold idx.
  destruct (truthy (prop options "examples")) eqn:Htruthy.
  - rewrite exists_run, Hfiles2.
    destruct (stat_path cwd (files w) idx) as [[]|n''] eqn:Hstat;
      try (left; eexists _, _; split; [reflexivity|assumption]).
    right. exists cfg, w1. repeat split; auto.
  - right. exists cfg, w1. repeat split; auto. discriminate.
Qed.

(** C4. When [fs.access] finds the database config directory, or the
    examples option is set and it finds the [index.js] next to it, [init]
    throws and the files are what they were: nothing has been created or
    written. *)
Theorem init_refuses_existing (filepath : option string) (options : value)
        (w : world) :
  let D := getDatabaseConfigDirectory cwd filepath in
  let exampleIndexFilepath := path.join (path.dirname D) "index.js" in
  (exists n, stat_path cwd (files w) D = inr n)
  \/ (truthy (prop options "examples") = true
      /\ exists n, stat_path cwd (files w) exampleIndexFilepath = inr n) ->
  exists e w',
    init cwd JSON_parse evaluate path_relative T filepath options w
    = (Throw e, w')
    /\ files w' = files w.
Proof.
  intros D idx Hpresent.
  destruct (init_cases filepath options w)
    as [Hthrows|(cfg & w1 & _ & HD & Hidx & _)]; [exact Hthrows|].
  fold D in HD. fold D idx in Hidx. exfalso.
  destruct Hpresent as [[n Hn]|[Hex [n Hn]]].
  - congruence.
  - specialize (Hidx Hex). congruence.
Qed.

End Init.

(** * [init] in a project without a manifest *)

Lemma truthy_VStr (s : string) : s <> "" -> truthy (VStr s) = true.
Proof.
  intros H. cbn. apply negb_true_iff. now apply String.eqb_neq.
Qed.

Lemma resolve_nonempty (D : string) (v : value) (d s : string) :
  resolve D v d = Some s -> s <> "".
Proof.
  unfold resolve. destruct (js_or v (VStr d)); try discriminate.
  intros [= <-]. destruct (path.isAbsolute s0) eqn:E.
  - intros ->. discriminate.
  - apply locate_facts.join_nonempty.
Qed.

Section NoManifest.

Variable cwd : string.
Variable JSON_parse : string -> option value.
Variable evaluate : string -> option obj.
Variable path_relative : string -> string -> string.
Variable T : templates.

Hypothesis cwd_absolute : path.isAbsolute cwd = true.

(** The manifest is missing for [fs.access], by the relative path [init]
    checks and by the absolute one [getPackageJson] reads. *)
Lemma manifest_absent (fs : gmap (list string) node) :
  stat fs (locate cwd "./package.json") = inl ENOENT ->
  stat_path cwd fs "./package.json" = inl ENOENT
  /\ stat_path cwd fs (path.join cwd "package.json") = inl ENOENT.
Proof.
  intros H. split.
  - apply stat_path_ENOENT; [|assumption]. repeat constructor.
  - apply stat_path_ENOENT; [now apply forward_join|].
    pose proof (locate_cwd_child cwd "package.json" cwd_absolute eq_refl) as E.
    change (String "." (String path.slash "package.json"))
      with "./package.json" in E.
    rewrite E in H.
    now rewrite (locate_child cwd cwd "package.json") by done.
Qed.

Lemma getPackageJson_absent (w : world) :
  stat (files w) (locate cwd "./package.json") = inl ENOENT ->
  getPackageJson cwd JSON_parse cwd w = (Ok VUndefined, w).
Proof.
  intros H. apply manifest_absent in H as [_ H].
  unfold getPackageJson. rewrite bind_run, exists_run. now rewrite H.
Qed.

(** Without a manifest the only required field that can be missing is
    [moduleType], and it is missing unless the user configuration
    supplies it. *)
Lemma missing_without_manifest (D : string) (ex : value)
      (f s c p g : string) (base : obj) :
  f <> "" -> s <> "" -> c <> "" -> p <> "" -> g <> "" -> D <> "" ->
  List.filter
    (fun field =>
       negb (truthy (get (<["package" := VUndefined]>
                            (with_paths D ex f s c p g base)) field)))
    required
  = if truthy (get base "moduleType") then [] else ["moduleType"].
Proof.
  intros Hf Hs Hc Hp Hg HD.
  assert (Hj : forall a b, path.join a b <> "")
    by (intros; apply locate_facts.join_nonempty).
  set (cfg := <["package" := VUndefined]> (with_paths D ex f s c p g base)).
  assert (Hpath : forall k v,
            with_paths D ex f s c p g base !! k = Some (VStr v) ->
            k <> "package" -> v <> "" ->
            negb (truthy (get cfg k)) = false).
  { intros k v Hk Hne Hv. subst cfg. rewrite get_insert_ne by done.
    rewrite (get_lookup _ _ _ Hk). apply negb_false_iff. now apply truthy_VStr. }
  assert (Hmt : get cfg "moduleType" = get base "moduleType").
  { subst cfg. rewrite get_insert_ne by done. unfold get, with_paths.
    now rewrite !lookup_insert_ne by done. }
  unfold required. cbn [List.filter].
  repeat (erewrite Hpath; [|lookup_paths|done|solve [auto]]).
  rewrite Hmt. now destruct (truthy (get base "moduleType")).
Qed.

(** C10, as the code has it. Without a [package.json] in the working
    directory [init] throws and the files are what they were. When the
    configuration resolves, the error is the one of [validateConfig],
    naming [moduleType] alone, unless the user configuration itself
    supplies a [moduleType]: then validation passes and the error is the
    dedicated one about the missing [package.json]. *)
Theorem init_without_manifest (filepath : option string) (options : value)
        (w : world) :
  stat (files w) (locate cwd "./package.json") = inl ENOENT ->
  exists e w',
    init cwd JSON_parse evaluate path_relative T filepath options w
    = (Throw e, w')
    /\ files w' = files w
    /\ (is_Ok (mergeConfig cwd JSON_parse evaluate filepath options w) = true ->
        e = if truthy (get (userConfig_in cwd evaluate filepath w) "moduleType")
            then Error "Error: package.json not found in project directory"
            else Error (missing_fields_message ["moduleType"])).
Proof.
  intros Habsent. rewrite init_run.
  pose proof (stable_files_mergeConfig cwd JSON_parse evaluate filepath options w)
    as Hfiles.
  destruct (mergeConfig cwd JSON_parse evaluate filepath options w)
    as [[cfg|e] w1] eqn:Hm; cbn [snd] in Hfiles.
  2: { exists e, w1. repeat split; [assumption|discriminate]. }
  assert (Habsent1 : stat (files w1) (locate cwd "./package.json") = inl ENOENT)
    by now rewrite Hfiles.
  apply mergeConfig_Ok in Hm
    as (f & s & c & p & g & Hf & Hs & Hc & Hp & Hg & ->).
  unfold with_package. rewrite (getPackageJson_absent w1 Habsent1).
  set (D := getDatabaseConfigDirectory cwd filepath) in *.
  set (base := userConfig_in cwd evaluate filepath w ∪ defaultConfig) in *.
  unfold with_moduleType. rewrite get_insert_eq. cbn [truthy].
  cbv zeta. unfold validateConfig.
  assert (HD : D <> "").
  { subst D. unfold getDatabaseConfigDirectory.
    destruct (path.isAbsolute (default "./database" filepath)) eqn:E.
    - intros Heq. rewrite Heq in E. discriminate.
    - apply locate_facts.join_nonempty. }
  rewrite missing_without_manifest by (eauto using resolve_nonempty).
  assert (Hmt : get base "moduleType"
                = get (userConfig_in cwd evaluate filepath w) "moduleType").
  { subst base. rewrite get_union_configured. unfold configured, get.
    now destruct (userConfig_in cwd evaluate filepath w !! "moduleType"). }
  rewrite Hmt.
  destruct (truthy (get (userConfig_in cwd evaluate filepath w) "moduleType")).
  - cbn [List.length Nat.ltb Nat.leb mret M_ret].
    rewrite exists_run.
    change (files (set_config ?c w1)) with (files w1).
    rewrite (proj1 (manifest_absent _ Habsent1)).
    eexists _, _. split; [reflexivity|]. split; [exact Hfiles|reflexivity].
  - cbn [List.length Nat.ltb Nat.leb throw].
    eexists _, _. split; [reflexivity|]. split; [exact Hfiles|reflexivity].
Qed.

End NoManifest.

(** [init] in the sample project when the database directory is there
    already. *)
Lemma init_refuses_existing_witness :
  let w := sample.start (sample.project_with sample.config_with_moduleType) in
  (exists n, stat_path sample.cwd (files w) "/proj/database" = inr n)
  /\ exists e w',
      init sample.cwd sample.JSON_parse sample.evaluate sample.path_relative
           sample.T None (sample.flags true) w = (Throw e, w')
      /\ files w' = files w.
Proof.
  intros w.
  assert (H : exists n, stat_path sample.cwd (files w)
                          (getDatabaseConfigDirectory sample.cwd None) = inr n)
    by (eexists; vm_compute; reflexivity).
  split; [exact H|].
  exact (init_refuses_existing sample.cwd sample.JSON_parse sample.evaluate
           sample.path_relative sample.T None (sample.flags true) w
           (or_introl H)).
Defined.

(** [init] in a fresh project that has no manifest. *)
Lemma init_without_manifest_witness :
  let w := sample.start (sample.no_manifest sample.project) in
  path.isAbsolute sample.cwd = true
  /\ stat (files w) (locate sample.cwd "./package.json") = inl ENOENT
  /\ exists e w',
      init sample.cwd sample.JSON_parse sample.evaluate sample.path_relative
           sample.T None (sample.flags false) w = (Throw e, w')
      /\ files w' = files w
      /\ e = Error (missing_fields_message ["moduleType"]).
Proof.
  intros w.
  assert (Hstat : stat (files w) (locate sample.cwd "./package.json") = inl ENOENT)
    by (vm_compute; reflexivity).
  assert (Hok : is_Ok (mergeConfig sample.cwd sample.JSON_parse sample.evaluate
                         None (sample.flags false) w) = true)
    by (vm_compute; reflexivity).
  assert (Hmt : truthy (get (userConfig_in sample.cwd sample.evaluate None w)
                            "moduleType") = false)
    by (vm_compute; reflexivity).
  split; [reflexivity|]. split; [exact Hstat|].
  destruct (init_without_manifest sample.cwd sample.JSON_parse sample.evaluate
              sample.path_relative sample.T eq_refl None (sample.flags false)
              w Hstat) as (e & w' & Hinit & Hfiles & He).
  exists e, w'. split; [exact Hinit|]. split; [exact Hfiles|].
  rewrite (He Hok), Hmt. reflexivity.
Defined.

(** C10 as stated fails: the database directory of this project holds a
    config module that sets [moduleType]; without a [package.json]
    validation passes and [init] throws the dedicated error, which is not
    a [Missing required config fields] error. *)
Lemma user_moduleType_passes_validation :
  let w := sample.start
             (sample.no_manifest
                (sample.project_with sample.config_with_moduleType)) in
  stat (files w) (locate sample.cwd "./package.json") = inl ENOENT
  /\ thrown (init sample.cwd sample.JSON_parse sample.evaluate
                  sample.path_relative sample.T None (sample.flags false) w)
     = Some (Error "Error: package.json not found in project directory")
  /\ forall missing,
      Error "Error: package.json not found in project directory"
      <> Error (missing_fields_message missing).
Proof.
  intros w.
  split; [vm_compute; reflexivity|].
  split; [vm_compute; reflexivity|].
  clear w. intros missing H. unfold missing_fields_message in H.
  cbn in H. discriminate H.
Qed.

(** * Running [build] *)

Lemma tree_check_sound (fs : gmap (list string) node) :
  tree_check fs = true -> tree fs.
Proof.
  unfold tree_check, tree. intros H name parent [n Hn].
  rewrite forallb_forall in H.
  specialize (H (name :: parent, n)).
  cbn in H. destruct (fs !! parent) as [[]|]; try reflexivity;
    (discriminate H; apply list_elem_of_In; now apply elem_of_map_to_list).
Qed.

Section Build.

Variable cwd : string.
Variable JSON_parse : string -> option value.
Variable evaluate : string -> option obj.
Variable run : list call -> call -> gmap (list string) node
               -> option (gmap (list string) node).

Hypothesis cwd_absolute : path.isAbsolute cwd = true.

Lemma getDatabaseConfigDirectory_absolute (filepath : option string) :
  path.isAbsolute (getDatabaseConfigDirectory cwd filepath) = true.
Proof.
  unfold getDatabaseConfigDirectory.
  destruct (path.isAbsolute (default "./database" filepath)) eqn:E;
    [assumption|now apply locate_facts.isAbsolute_join].
Qed.

(** Without the database directory there is no config module to run:
    resolving the configuration leaves the world as it is. *)
Lemma mergeConfig_fresh (filepath : option string) (options : value)
      (w : world) :
  tree (files w) ->
  files w !! locate cwd (getDatabaseConfigDirectory cwd filepath) = None ->
  userConfig_in cwd evaluate filepath w = ∅
  /\ (mergeConfig cwd JSON_parse evaluate filepath options w).2 = w.
Proof.
  intros Htree Hnone.
  set (D := getDatabaseConfigDirectory cwd filepath) in *.
  assert (Hcfg : files w !! locate cwd (path.join D "config.js") = None).
  { rewrite locate_child by (done || apply getDatabaseConfigDirectory_absolute).
    destruct (files w !! ("config.js" :: locate cwd D)) eqn:E; [|reflexivity].
    rewrite (Htree "config.js" (locate cwd D)) in Hnone by eauto.
    discriminate. }
  rewrite mergeConfig_run. fold D. unfold userConfig_in. fold D. cbn [snd].
  destruct (load_userConfig cwd evaluate (path.join D "config.js") w)
    as (u & w1 & Hload & _ & _ & _ & _ & Hfresh).
  rewrite Hload. cbn [snd]. now destruct (Hfresh Hcfg) as [-> ->].
Qed.


Lemma external_Ok (c : call) (w w' : world) :
  external run c w = (Ok tt, w') ->
  exists fs', run (calls w) c (files w) = Some fs'
              /\ w' = set_files fs' (add_call c w).
Proof.
  unfold external. destruct (run (calls w) c (files w)) as [fs'|];
    [|discriminate].
  intros [= <-]. now exists fs'.
Qed.

Lemma call_export_Ok (schemaModule : obj) (name : string)
      (c : string -> call) (w w' : world) :
  call_export run schemaModule name c w = (Ok tt, w') ->
  exists f fs', get schemaModule name = VFun f
                /\ run (calls w) (c f) (files w) = Some fs'
                /\ w' = set_files fs' (add_call (c f) w).
Proof.
  unfold call_export. destruct (get schemaModule name); try discriminate.
  intros H. apply external_Ok in H as (fs' & Hrun & ->). now exists name0, fs'.
Qed.

Lemma import_module_Ok (p : string) (w w' : world) (m : obj) :
  import_module cwd evaluate p w = (Ok m, w') ->
  exists source,
    files w !! locate cwd p = Some (File source)
    /\ evaluate source = Some m
    /\ w' = add_call (Evaluate p) w.
Proof.
  unfold import_module, stat.
  destruct (files w !! locate cwd p) as [[|source]|]; try discriminate.
  destruct (evaluate source) as [namespace|] eqn:E; [|discriminate].
  intros [= <- <-]. now exists source.
Qed.

(** C5. A [build] that returns has made exactly these calls, in this
    order, after resolving the configuration: it ran the schema module,
    then [Hyperschema.from] on the hyperschema directory, the module's
    [createSchema] on that builder and [Hyperschema.toDisk], then
    [HyperDB.from] on the hyperschema and hyperdb directories, the
    module's [createDatabase] and [HyperDB.toDisk]; every call returned
    before the next was made, and each ran on the files the one before it
    left. *)
Theorem build_sequence (filepath : option string) (options : value)
        (w w' : world) :
  build cwd JSON_parse evaluate run filepath options w = (Ok tt, w') ->
  exists cfg w1 schemaFilepath source schemaModule createSchema createDatabase,
    mergeConfig cwd JSON_parse evaluate filepath options w = (Ok cfg, w1)
    /\ get cfg "schemaFilepath" = VStr schemaFilepath
    /\ files w !! locate cwd schemaFilepath = Some (File source)
    /\ evaluate source = Some schemaModule
    /\ get schemaModule "createSchema" = VFun createSchema
    /\ get schemaModule "createDatabase" = VFun createDatabase
    /\ calls w'
       = (calls w1
          ++ build_calls schemaFilepath createSchema createDatabase
               (get cfg "hyperschemaDirectory") (get cfg "hyperdbDirectory"))%list
    /\ run_all run (calls w1 ++ [Evaluate schemaFilepath])%list
               (tail (build_calls schemaFilepath createSchema createDatabase
                        (get cfg "hyperschemaDirectory")
                        (get cfg "hyperdbDirectory")))
               (files w)
       = Some (files w').
Proof.
  intros H. unfold build in H.
  apply bind_Ok in H as (cfg & w1 & Hm & H).
  pose proof (stable_files_mergeConfig cwd JSON_parse evaluate filepath options w)
    as Hfiles. rewrite Hm in Hfiles. cbn [snd] in Hfiles.
  destruct (mergeConfig_entries _ _ _ _ _ _ _ _ Hm) as [HD _].
  apply bind_Ok in H as ([] & w2 & Hu & H). injection Hu as <-.
  apply bind_Ok in H as (d & w2 & Hd & H). injection Hd as <- <-.
  change (config (this (set_config cfg w1))) with cfg in H. rewrite HD in H.
  apply bind_Ok in H as (D & w2 & HD' & H). injection HD' as <- <-.
  apply bind_Ok in H as (found & w2 & Hex & H).
  pose proof (exists_world cwd (getDatabaseConfigDirectory cwd filepath)
                (set_config cfg w1)) as Hw.
  rewrite Hex in Hw. cbn [snd] in Hw. subst w2.
  apply bind_Ok in H as ([] & w2 & Hif & H).
  destruct found; [|discriminate]. injection Hif as <-.
  apply bind_Ok in H as (sf & w2 & Hsf & H). injection Hsf as <- <-.
  change (config (this (set_config cfg w1))) with cfg in H.
  apply bind_Ok in H as (schemaModule & w2 & Hget & H).
  unfold getSchemaDefinitions in Hget.
  apply bind_Ok in Hget as (schemaFilepath & w3 & Hv & Hget).
  apply validateString_Ok in Hv as [Hsf ->].
  apply bind_Ok in Hget as (m & w3 & Himp & Hret). injection Hret as <- <-.
  apply import_module_Ok in Himp as (source & Hfile & Heval & ->).
  change (files (set_config cfg w1)) with (files w1) in Hfile.
  rewrite Hfiles in Hfile.
  unfold buildSchema in H.
  apply bind_Ok in H as (hs & w2 & Hhs & H). injection Hhs as <- <-.
  apply bind_Ok in H as ([] & w2 & Hc1 & H).
  apply external_Ok in Hc1 as (fs1 & Hr1 & ->).
  apply bind_Ok in H as ([] & w2 & Hc2 & H).
  apply call_export_Ok in Hc2 as (f & fs2 & Hf & Hr2 & ->).
  apply bind_Ok in H as ([] & w2 & Hc3 & H).
  apply external_Ok in Hc3 as (fs3 & Hr3 & ->).
  apply bind_Ok in H as (hs' & w2 & Hhs & H). injection Hhs as <- <-.
  apply bind_Ok in H as (db & w2 & Hdb & H). injection Hdb as <- <-.
  apply bind_Ok in H as ([] & w2 & Hc4 & H).
  apply external_Ok in Hc4 as (fs4 & Hr4 & ->).
  apply bind_Ok in H as ([] & w2 & Hc5 & H).
  apply call_export_Ok in Hc5 as (g & fs5 & Hg & Hr5 & ->).
  apply external_Ok in H as (fs6 & Hr6 & ->).
  cbn [calls files this config set_files add_call set_config] in *.
  exists cfg, w1, schemaFilepath, source, m, f, g.
  repeat split; try assumption.
  - unfold build_calls. now rewrite <- !app_assoc.
  - unfold build_calls. cbn [tail run_all].
    rewrite <- Hfiles.
    rewrite Hr1, Hr2, Hr3, Hr4, Hr5, Hr6. reflexivity.
Qed.

End Build.

(** The files of the sample project form a tree. *)
Lemma sample_project_tree : tree sample.project.
Proof. apply tree_check_sound. vm_compute. reflexivity. Defined.


(** [build] in the sample project once the database directory holds a
    schema module: the calls it makes, in order. *)
Lemma build_sequence_witness :
  let w := sample.start (sample.project_with sample.config_with_moduleType) in
  exists w',
    build sample.cwd sample.JSON_parse sample.evaluate sample.run
          None (sample.flags false) w = (Ok tt, w')
    /\ calls w'
       = [ Evaluate "/proj/database/config.js";
           Evaluate "/proj/database/schema.js";
           Hyperschema_from (VStr "/proj/database/generated/schemas");
           Module_createSchema "createSchema"
             (VStr "/proj/database/generated/schemas");
           Hyperschema_toDisk (VStr "/proj/database/generated/schemas");
           HyperDB_from (VStr "/proj/database/generated/schemas")
                        (VStr "/proj/database/generated/database");
           Module_createDatabase "createDatabase"
             (VStr "/proj/database/generated/schemas",
              VStr "/proj/database/generated/database");
           HyperDB_toDisk
             (VStr "/proj/database/generated/schemas",
              VStr "/proj/database/generated/database") ]
    /\ exists before schemaFilepath createSchema createDatabase
              hyperschemaDirectory hyperdbDirectory,
        calls w'
        = (before ++ build_calls schemaFilepath createSchema createDatabase
                       hyperschemaDirectory hyperdbDirectory)%list.
Proof.
  intros w.
  assert (Hok : is_Ok (build sample.cwd sample.JSON_parse sample.evaluate
                         sample.run None (sample.flags false) w) = true)
    by (vm_compute; reflexivity).
  assert (Hcalls :
            calls (build sample.cwd sample.JSON_parse sample.evaluate
                         sample.run None (sample.flags false) w).2
            = [ Evaluate "/proj/database/config.js";
                Evaluate "/proj/database/schema.js";
                Hyperschema_from (VStr "/proj/database/generated/schemas");
                Module_createSchema "createSchema"
                  (VStr "/proj/database/generated/schemas");
                Hyperschema_toDisk (VStr "/proj/database/generated/schemas");
                HyperDB_from (VStr "/proj/database/generated/schemas")
                             (VStr "/proj/database/generated/database");
                Module_createDatabase "createDatabase"
                  (VStr "/proj/database/generated/schemas",
                   VStr "/proj/database/generated/database");
                HyperDB_toDisk
                  (VStr "/proj/database/generated/schemas",
                   VStr "/proj/database/generated/database") ])
    by (vm_compute; reflexivity).
  returns_as u w' E. destruct u. cbn [snd] in Hcalls.
  exists w'. split; [reflexivity|]. split; [exact Hcalls|].
  destruct (build_sequence sample.cwd sample.JSON_parse sample.evaluate
              sample.run None (sample.flags false) w w' E)
    as (cfg & w1 & sf & source & m & f & g & _ & _ & _ & _ & _ & _ & Hseq & _).
  now exists (calls w1), sf, f, g, (get cfg "hyperschemaDirectory"),
    (get cfg "hyperdbDirectory").
Defined.

(** * The order of the calls of [build], whatever the outcome *)

Lemma logs_bind {A B} (L1 L2 : list call) (m : M A) (k : A -> M B)
      (w : world) :
  logs L1 m w ->
  (forall a w1, m w = (Ok a, w1) -> logs L2 (k a) w1) ->
  logs (L1 ++ L2) (m ≫= k) w.
Proof.
  intros (n1 & Hle1 & Hcalls1 & Hok1) Hk. unfold logs. rewrite bind_run.
  destruct (m w) as [[a|e] w1] eqn:Hm; cbn [fst snd] in *.
  - destruct (Hk a w1 eq_refl) as (n2 & Hle2 & Hcalls2 & Hok2).
    rewrite (Hok1 a eq_refl) in Hcalls1.
    rewrite firstn_all in Hcalls1.
    exists (List.length L1 + n2). split; [rewrite length_app; lia|].
    split.
    + rewrite Hcalls2, Hcalls1, <- app_assoc. f_equal.
      rewrite take_app_add'; reflexivity.
    + intros b Hb. rewrite (Hok2 b Hb), length_app. reflexivity.
  - exists n1. split; [rewrite length_app; lia|].
    split; [|discriminate].
    rewrite Hcalls1. f_equal. now rewrite take_app_le.
Qed.

(** A computation that leaves the log alone. *)
Lemma logs_nothing {A} (m : M A) (w : world) :
  stable calls m -> logs [] m w.
Proof.
  intros H. exists 0. split; [reflexivity|].
  split; [now rewrite H, app_nil_r|reflexivity].
Qed.

Section Order.

Variable cwd : string.
Variable JSON_parse : string -> option value.
Variable evaluate : string -> option obj.
Variable run : list call -> call -> gmap (list string) node
               -> option (gmap (list string) node).

Lemma logs_external (c : call) (w : world) : logs [c] (external run c) w.
Proof.
  exists 1. split; [reflexivity|]. unfold external.
  destruct (run (calls w) c (files w)); split; reflexivity.
Qed.

Lemma logs_import (p : string) (w : world) :
  logs [Evaluate p] (import_module cwd evaluate p) w.
Proof.
  unfold logs, import_module.
  destruct (stat (files w) (locate cwd p)) as [e|[|source]].
  1, 2: exists 0; cbn; rewrite app_nil_r;
        (split; [lia|split; [reflexivity|discriminate]]).
  exists 1. split; [reflexivity|].
  destruct (evaluate source); split; reflexivity.
Qed.

Lemma logs_call_export (schemaModule : obj) (name : string)
      (c : string -> call) (w : world) :
  logs [c (function_name (get schemaModule name))]
       (call_export run schemaModule name c) w.
Proof.
  unfold call_export.
  destruct (get schemaModule name);
    try (exists 0; cbn; rewrite app_nil_r;
         (split; [lia|split; [reflexivity|discriminate]])).
  apply logs_external.
Qed.

Lemma bind_this_config {B} (k : string) (f : value -> M B) (w : world) :
  (this_config k ≫= f) w = f (get (config (this w)) k) w.
Proof. reflexivity. Qed.

Lemma bind_update {B} (g : world -> world) (f : unit -> M B) (w : world) :
  (update g ≫= f) w = f tt (g w).
Proof. reflexivity. Qed.

Lemma stable_calls_this_config (k : string) : stable calls (this_config k).
Proof. now intros w. Qed.

(** The calls of [buildSchema], in order, up to the first that throws. *)
Lemma buildSchema_logs (schemaModule : obj) (w : world) :
  logs [ Hyperschema_from (get (config (this w)) "hyperschemaDirectory");
         Module_createSchema
           (function_name (get schemaModule "createSchema"))
           (get (config (this w)) "hyperschemaDirectory");
         Hyperschema_toDisk (get (config (this w)) "hyperschemaDirectory");
         HyperDB_from (get (config (this w)) "hyperschemaDirectory")
                      (get (config (this w)) "hyperdbDirectory");
         Module_createDatabase
           (function_name (get schemaModule "createDatabase"))
           (get (config (this w)) "hyperschemaDirectory",
            get (config (this w)) "hyperdbDirectory");
         HyperDB_toDisk
           (get (config (this w)) "hyperschemaDirectory",
            get (config (this w)) "hyperdbDirectory") ]
       (buildSchema run schemaModule) w.
Proof.
  set (cfg := config (this w)).
  assert (Hthis : forall {A} (m : M A) a w0 w1,
             stable this m -> config (this w0) = cfg -> m w0 = (Ok a, w1) ->
             config (this w1) = cfg).
  { intros A m a w0 w1 Hst H0 Hm. specialize (Hst w0). rewrite Hm in Hst.
    cbn [snd] in Hst. now rewrite Hst. }
  unfold buildSchema.
  apply (logs_bind [] _); [apply logs_nothing, stable_calls_this_config|].
  intros hs w1 [= <- <-]. fold cfg.
  apply (logs_bind [_] _); [apply logs_external|]. intros [] w1 H1.
  assert (C1 : config (this w1) = cfg)
    by (eapply Hthis; [apply stable_this_external|reflexivity|exact H1]).
  apply (logs_bind [_] _); [apply logs_call_export|]. intros [] w2 H2.
  assert (C2 : config (this w2) = cfg).
  { eapply Hthis; [|exact C1|exact H2]. unfold call_export.
    destruct (get schemaModule "createSchema"); auto with stable. }
  apply (logs_bind [_] _); [apply logs_external|]. intros [] w3 H3.
  assert (C3 : config (this w3) = cfg)
    by (eapply Hthis; [apply stable_this_external|exact C2|exact H3]).
  apply (logs_bind [] _); [apply logs_nothing, stable_calls_this_config|].
  intros hs' w4 [= <- <-]. rewrite C3.
  apply (logs_bind [] _); [apply logs_nothing, stable_calls_this_config|].
  intros db w4 [= <- <-]. rewrite C3.
  apply (logs_bind [_] _); [apply logs_external|]. intros [] w4 H4.
  apply (logs_bind [_] [_]); [apply logs_call_export|]. intros [] w5 H5.
  apply logs_external.
Qed.

(** The run stops here with nothing more in the log. *)
Ltac no_more_calls :=
  exists 0, "", "", ""; cbn [fst snd take]; now rewrite app_nil_r.


End Order.

(** * [init] never returns *)

Lemma fails_throw {A} (e : error) : fails (@throw A e).
Proof. intros w. now exists e, w. Qed.

Lemma fails_bind_l {A B} (m : M A) (k : A -> M B) : fails m -> fails (m ≫= k).
Proof.
  intros H w. rewrite bind_run. destruct (H w) as (e & w' & ->). now exists e, w'.
Qed.

Lemma fails_bind_r {A B} (m : M A) (k : A -> M B) :
  (forall a, fails (k a)) -> fails (m ≫= k).
Proof.
  intros H w. rewrite bind_run. destruct (m w) as [[a|e] w1].
  - apply H.
  - now exists e, w1.
Qed.

Section NeverReturns.

Variable cwd : string.
Variable JSON_parse : string -> option value.
Variable evaluate : string -> option obj.
Variable path_relative : string -> string -> string.
Variable T : templates.

Lemma createDatabaseConfigPackageJsonFile_fails :
  fails (createDatabaseConfigPackageJsonFile cwd).
Proof.
  unfold createDatabaseConfigPackageJsonFile.
  do 2 (apply fails_bind_r; intros ?).
  apply fails_bind_l, fails_throw.
Qed.

Lemma createGeneratedPackageJsonFile_fails :
  fails (createGeneratedPackageJsonFile cwd).
Proof.
  unfold createGeneratedPackageJsonFile.
  do 2 (apply fails_bind_r; intros ?).
  apply fails_bind_l, fails_throw.
Qed.

Lemma scaffold_fails (d exampleIndexFilepath : string) :
  fails (scaffold cwd path_relative T d exampleIndexFilepath).
Proof.
  unfold scaffold.
  do 7 (apply fails_bind_r; intros ?).
  apply fails_bind_l, createDatabaseConfigPackageJsonFile_fails.
Qed.

Lemma createDefaultFiles_fails : fails (createDefaultFiles cwd path_relative T).
Proof.
  unfold createDefaultFiles.
  do 13 (apply fails_bind_r; intros ?).
  apply fails_bind_l, createDatabaseConfigPackageJsonFile_fails.
Qed.

Lemma init_fails (filepath : option string) (options : value) :
  fails (init cwd JSON_parse evaluate path_relative T filepath options).
Proof.
  unfold init.
  do 6 (apply fails_bind_r; intros ?).
  apply fails_bind_l, createDefaultFiles_fails.
Qed.

End NeverReturns.

(** * What [init] writes *)

(** Two file trees that are given in full are compared by the decision
    procedure for their equality. *)
Ltac same_files := apply (bool_decide_eq_true_1 _); vm_compute; reflexivity.

(** C7. No [init] is successful, so the set of paths the claim gives is
    never written in full: [createDatabaseConfigPackageJsonFile] calls
    [templates.packageJsonTemplate], which [templates/basic.js] does not
    export, and the [TypeError] of that call ends every [init] that has
    passed its checks. In a fresh project [init] has by then made the
    database config directory with [config.js], [functions.js] and
    [schema.js] and the generated code directory; neither [package.json]
    is written, nor, with the examples option, [index.js]. *)
Theorem init_stops_before_manifests :
  (forall cwd JSON_parse evaluate path_relative T filepath options,
      fails (init cwd JSON_parse evaluate path_relative T filepath options))
  /\ (forall examples : bool,
        let w := sample.start sample.project in
        let r := init sample.cwd sample.JSON_parse sample.evaluate
                      sample.path_relative sample.T None (sample.flags examples)
                      w in
        r.1 = Throw (TypeError "templates.packageJsonTemplate is not a function")
        /\ files r.2
           = <[ ["generated"; "database"; "proj"] := Dir ]>
             (<[ ["schema.js"; "database"; "proj"] :=
                   File (if examples then examples_schemaFileTemplate sample.T
                         else schemaFileTemplate sample.T) ]>
             (<[ ["functions.js"; "database"; "proj"] :=
                   File (if examples then examples_functionFileTemplate sample.T
                         else functionFileTemplate sample.T) ]>
             (<[ ["config.js"; "database"; "proj"] :=
                   File (configFileTemplate sample.T (VStr "commonjs")) ]>
             (<[ ["database"; "proj"] := Dir ]> (files w)))))
        /\ files r.2 !! ["package.json"; "database"; "proj"] = None
        /\ files r.2 !! ["package.json"; "generated"; "database"; "proj"] = None
        /\ files r.2 !! ["index.js"; "proj"] = None).
Proof.
  split.
  - intros. apply init_fails.
  - intros examples w r.
    split; [destruct examples; vm_compute; reflexivity|].
    split; [destruct examples; same_files|].
    repeat match goal with |- _ /\ _ => split end;
      destruct examples; vm_compute; reflexivity.
Qed.

(** C1. [init] can write over files that exist. The existence check is
    made on the directory path as given; the files are written at paths
    made with [path.join], which resolves [..] on the text. For the
    directory [/proj/missing/../database], with [/proj/missing] absent and
    [/proj/database] holding a config module and a schema module,
    [fs.access] finds nothing, so [init] goes on: the recursive [mkdir]
    makes [/proj/missing], both files are replaced, and [init] throws
    only afterwards, at the missing [packageJsonTemplate]. *)
Theorem init_overwrites_existing_files :
  let fs := sample.project_with sample.config_with_moduleType in
  let D := "/proj/missing/../database" in
  let r := init sample.cwd sample.JSON_parse sample.evaluate
                sample.path_relative sample.T (Some D) (sample.flags false)
                (sample.start fs) in
  stat_path sample.cwd fs D = inl ENOENT
  /\ path.join D "./config.js" = "/proj/database/config.js"
  /\ path.join D "./schema.js" = "/proj/database/schema.js"
  /\ stat_path sample.cwd fs "/proj/database/config.js"
     = inr (File sample.config_with_moduleType)
  /\ stat_path sample.cwd fs "/proj/database/schema.js"
     = inr (File sample.schema_source)
  /\ stat_path sample.cwd (files r.2) "/proj/database/config.js"
     = inr (File (configFileTemplate sample.T (VStr "commonjs")))
  /\ stat_path sample.cwd (files r.2) "/proj/database/schema.js"
     = inr (File (schemaFileTemplate sample.T))
  /\ configFileTemplate sample.T (VStr "commonjs") <> sample.config_with_moduleType
  /\ schemaFileTemplate sample.T <> sample.schema_source
  /\ fs !! ["missing"; "proj"] = None
  /\ files r.2 !! ["missing"; "proj"] = Some Dir
  /\ r.1 = Throw (TypeError "templates.packageJsonTemplate is not a function").
Proof.
  intros fs D r.
  repeat match goal with |- _ /\ _ => split end;
    try (vm_compute; reflexivity); intros H; vm_compute in H; discriminate H.
Qed.

(** * [checkPackageDependencies] *)

(** The loop keeps, in order, the required names whose entry in the
    [dependencies] of the manifest is falsy. *)
Lemma checkPackageDependencies_filter (self : helper) :
  checkPackageDependencies self
  = let package := get (config self) "package" in
    if truthy package then
      List.filter
        (fun dependency =>
           negb (truthy (prop (js_or (prop package "dependencies") (VObj ∅))
                              dependency)))
        (requiredDependencies self)
    else requiredDependencies self.
Proof.
  unfold checkPackageDependencies. cbv zeta.
  destruct (truthy (get (config self) "package")); [|reflexivity].
  cbn [negb].
  set (deps := js_or _ _).
  assert (H : forall l acc,
             fold_left
               (fun toInstall dependency =>
                  if negb (truthy (prop deps dependency))
                  then (toInstall ++ [dependency])%list else toInstall) l acc
             = (acc ++ List.filter
                         (fun dependency => negb (truthy (prop deps dependency)))
                         l)%list).
  { induction l as [|d l IH]; intros acc; cbn [fold_left List.filter].
    - now rewrite app_nil_r.
    - rewrite IH. destruct (negb (truthy (prop deps d))); [|reflexivity].
      now rewrite <- app_assoc. }
  now rewrite H.
Qed.

(** C6 at a manifest that lists [hyperdb] with the empty version range:
    [hyperdb] is a key of the dependencies map, and the method still
    reports it as missing. *)
Theorem listed_dependency_reported_missing :
  let dependencies : obj := {[ "hyperdb" := VStr "" ]} in
  let package := VObj {[ "dependencies" := VObj dependencies ]} in
  let self := constructor {[ "package" := package ]} in
  is_Some (dependencies !! "hyperdb")
  /\ checkPackageDependencies self = ["hyperschema"; "hyperdb"; "corestore"].
Proof.
  intros dependencies package self.
  split; [eexists; vm_compute; reflexivity|].
  vm_compute. reflexivity.
Qed.

(** * What the state of the helper before a call does not decide *)

Create HintDb oblivious discriminated.

Lemma oblivious_ret {A} (a : A) : oblivious (mret a).
Proof. now intros h w. Qed.

Lemma oblivious_throw {A} (e : error) : oblivious (@throw A e).
Proof. now intros h w. Qed.

Lemma oblivious_bind {A B} (m : M A) (k : A -> M B) :
  oblivious m -> (forall a, oblivious (k a)) -> oblivious (m ≫= k).
Proof.
  intros Hm Hk h w. rewrite !bind_run, Hm.
  destruct (m w) as [[a|e] w1]; cbn [fst snd]; [apply Hk|reflexivity].
Qed.

Lemma oblivious_try_catch {A} (m : M A) (handler : error -> M A) :
  oblivious m -> (forall e, oblivious (handler e)) ->
  oblivious (try_catch m handler).
Proof.
  intros Hm Hh h w. unfold try_catch. rewrite Hm.
  destruct (m w) as [[a|e] w1]; cbn [fst snd]; [reflexivity|apply Hh].
Qed.

Lemma oblivious_if {A} (b : bool) (m1 m2 : M A) :
  oblivious m1 -> oblivious m2 -> oblivious (if b then m1 else m2).
Proof. now destruct b. Qed.

Lemma oblivious_validateString (v : value) : oblivious (validateString v).
Proof. intros h w. now destruct v. Qed.

Lemma oblivious_fs_access (cwd p : string) : oblivious (fs_access cwd p).
Proof.
  intros h w. unfold fs_access. cbn [files set_this].
  now destruct (stat_path cwd (files w) p).
Qed.

Lemma oblivious_fs_readFile (cwd p : string) : oblivious (fs_readFile cwd p).
Proof.
  intros h w. unfold fs_readFile. cbn [files set_this].
  now destruct (stat_path cwd (files w) p) as [|[]].
Qed.

Lemma oblivious_import (cwd : string) (evaluate : string -> option obj)
      (p : string) : oblivious (import_module cwd evaluate p).
Proof.
  intros h w. unfold import_module. cbn [files set_this].
  destruct (stat (files w) (locate cwd p)) as [|[]]; try reflexivity.
  now destruct (evaluate content).
Qed.

#[export] Hint Resolve oblivious_ret oblivious_throw oblivious_validateString
  oblivious_fs_access oblivious_fs_readFile oblivious_import : oblivious.

Ltac oblivious_step :=
  first
    [ solve [auto with oblivious]
    | apply oblivious_bind; [|intros ?]
    | apply oblivious_try_catch; [|intros ?]
    | apply oblivious_if
    | match goal with
      | |- oblivious (match ?x with _ => _ end) => destruct x
      end ].

Ltac oblivious_auto := repeat oblivious_step.

Section ObliviousMerge.

Variable cwd : string.
Variable JSON_parse : string -> option value.
Variable evaluate : string -> option obj.
Variable run : list call -> call -> gmap (list string) node
               -> option (gmap (list string) node).
Variable path_relative : string -> string -> string.
Variable T : templates.

Lemma oblivious_mergeConfig (filepath : option string) (options : value) :
  oblivious (mergeConfig cwd JSON_parse evaluate filepath options).
Proof.
  unfold mergeConfig, getConfig, getFilepathFromConfig, getPackageJson, exists_.
  oblivious_auto.
Qed.

(** X1. The configuration of the helper before the call decides nothing:
    [init] and [build] start from the static defaults and replace
    [this.config], so two helpers constructed with different options (the
    same required dependencies) give the same outcome and leave the same
    files, calls and console output. *)
Theorem constructor_options_ignored (options1 options2 : obj)
        (dependencies : list string)
        (filepath : option string) (options : value) (w : world) :
  let w1 := set_this (Helper options1 dependencies) w in
  let w2 := set_this (Helper options2 dependencies) w in
  same_outcome
    (init cwd JSON_parse evaluate path_relative T filepath options w1)
    (init cwd JSON_parse evaluate path_relative T filepath options w2)
  /\ same_outcome
       (build cwd JSON_parse evaluate run filepath options w1)
       (build cwd JSON_parse evaluate run filepath options w2).
Proof.
  intros w1 w2. subst w1 w2. unfold same_outcome.
  pose proof (oblivious_mergeConfig filepath options) as Hm.
  split.
  - unfold init. rewrite !bind_run, !Hm.
    destruct (mergeConfig cwd JSON_parse evaluate filepath options w)
      as [[cfg|e] w'']; cbn [fst snd]; [|now repeat split].
    rewrite !bind_update. now repeat split.
  - unfold build. rewrite !bind_run, !Hm.
    destruct (mergeConfig cwd JSON_parse evaluate filepath options w)
      as [[cfg|e] w'']; cbn [fst snd]; [|now repeat split].
    rewrite !bind_update. now repeat split.
Qed.

(** X2. Called without the options argument, as in [helper.init()],
    [init] and [build] throw a TypeError on reading [options.examples]:
    nothing is validated, created or written, and [this.config] is not
    replaced. *)
Theorem options_argument_required (filepath : option string) (w : world) :
  let e := TypeError "Cannot read properties of undefined (reading 'examples')" in
  (exists w',
      init cwd JSON_parse evaluate path_relative T filepath VUndefined w
      = (Throw e, w')
      /\ files w' = files w /\ console w' = console w /\ this w' = this w)
  /\ (exists w',
        build cwd JSON_parse evaluate run filepath VUndefined w = (Throw e, w')
        /\ files w' = files w /\ console w' = console w /\ this w' = this w).
Proof.
  intros e.
  pose proof (mergeConfig_run cwd JSON_parse evaluate filepath VUndefined w) as Hm.
  cbv zeta in Hm.
  destruct (load_userConfig cwd evaluate
              (path.join (getDatabaseConfigDirectory cwd filepath) "config.js") w)
    as (u & w1 & Hload & Hfiles & Hconsole & Hthis & _).
  rewrite Hload in Hm. cbn [snd] in Hm.
  split; exists w1.
  - unfold init. rewrite bind_run, Hm. now repeat split.
  - unfold build. rewrite bind_run, Hm. now repeat split.
Qed.

End ObliviousMerge.

(** * More on the merged configuration *)

Lemma resolve_Some (D : string) (v : value) (d : string) :
  is_Some (resolve D v d) <-> exists s, js_or v (VStr d) = VStr s.
Proof.
  unfold resolve. split.
  - intros [r Hr]. destruct (js_or v (VStr d)); try discriminate. now eexists.
  - intros [s ->]. now eexists.
Qed.

Lemma getDatabaseConfigDirectory_nonempty (cwd : string)
      (filepath : option string) :
  getDatabaseConfigDirectory cwd filepath <> "".
Proof.
  unfold getDatabaseConfigDirectory.
  destruct (path.isAbsolute (default "./database" filepath)) eqn:E.
  - intros Heq. rewrite Heq in E. discriminate.
  - apply locate_facts.join_nonempty.
Qed.

(** With every path field a string that is not empty, the one required
    field that can be missing is [moduleType]. *)
Lemma missing_fields (cfg : obj) :
  Forall (fun k => exists s, cfg !! k = Some (VStr s) /\ s <> "") derived_keys ->
  List.filter (fun field => negb (truthy (get cfg field))) required
  = if truthy (get cfg "moduleType") then [] else ["moduleType"].
Proof.
  intros H.
  assert (Hpath : forall k, k ∈ derived_keys ->
                            negb (truthy (get cfg k)) = false).
  { intros k Hk. rewrite Forall_forall in H.
    destruct (H k Hk) as (s & Hs & Hne).
    rewrite (get_lookup _ _ _ Hs). apply negb_false_iff. now apply truthy_VStr. }
  unfold required. cbn [List.filter].
  rewrite !Hpath by (unfold derived_keys; repeat constructor).
  now destruct (truthy (get cfg "moduleType")).
Qed.

(** A key that is none of the listed ones. *)
Ltac not_listed :=
  let H := fresh in
  unfold derived_keys; intros H;
  repeat (apply elem_of_cons in H as [H|H]; [discriminate H|]);
  now apply elem_of_nil in H.

Section MergeMore.

Variable cwd : string.
Variable JSON_parse : string -> option value.
Variable evaluate : string -> option obj.

(** X3. Resolving the configuration writes nothing: the files, the
    console and the helper object are as before; its one effect is that
    the config module of the directory is run, exactly when a file is
    there. *)
Theorem mergeConfig_effects (filepath : option string) (options : value)
        (w : world) :
  let configFilepath :=
    path.join (getDatabaseConfigDirectory cwd filepath) "config.js" in
  let w' := (mergeConfig cwd JSON_parse evaluate filepath options w).2 in
  files w' = files w /\ console w' = console w /\ this w' = this w
  /\ calls w'
     = (calls w ++ match files w !! locate cwd configFilepath with
                   | Some (File _) => [Evaluate configFilepath]
                   | _ => []
                   end)%list.
Proof.
  intros configFilepath w'. subst w'. rewrite mergeConfig_run. cbn [snd].
  fold configFilepath.
  unfold try_catch, getConfig. rewrite bind_run. unfold import_module, stat.
  destruct (files w !! locate cwd configFilepath) as [[|source]|];
    cbn [snd mret M_ret]; try (now rewrite app_nil_r).
  now destruct (evaluate source).
Qed.

(** X4. [mergeConfig] returns exactly when it is given an options object
    and each of the five configured paths (the user's value, or the
    default when that is missing or falsy) is a string; whatever goes
    wrong while the config module or the manifest is read is swallowed,
    so the only errors it throws are TypeErrors. *)
Theorem mergeConfig_returns_iff (filepath : option string) (options : value)
        (w : world) :
  let userConfig := userConfig_in cwd evaluate filepath w in
  let outcome := mergeConfig cwd JSON_parse evaluate filepath options w in
  (is_Ok outcome = true
   <-> options <> VUndefined /\ options <> VNull
       /\ Forall (fun '(k, d) =>
                    exists s, js_or (configured userConfig k) (VStr d) = VStr s)
                 configured_paths)
  /\ (forall e, thrown outcome = Some e -> exists msg, e = TypeError msg).
Proof.
  intros userConfig outcome. subst outcome. rewrite mergeConfig_run.
  cbv zeta. fold userConfig. unfold is_Ok, thrown. cbn [fst].
  set (D := getDatabaseConfigDirectory cwd filepath).
  set (w1 := (try_catch _ _ w).2).
  assert (Hm : is_Some (merged_config cwd JSON_parse D (prop options "examples")
                          userConfig w1)
               <-> Forall (fun '(k, d) =>
                             exists s, js_or (configured userConfig k) (VStr d) = VStr s)
                          configured_paths).
  { unfold merged_config, configured_paths. cbv zeta.
    rewrite !get_union_configured.
    rewrite !Forall_cons, Forall_nil. rewrite <- !resolve_Some.
    instantiate (1 := D). instantiate (1 := D). instantiate (1 := D).
    instantiate (1 := D). instantiate (1 := D).
    destruct (resolve D (configured userConfig "functionsFilepath") _);
      cbn [mbind option_bind]; [|split; [intros []; discriminate|intros [[] _]; discriminate]].
    destruct (resolve D (configured userConfig "schemaFilepath") _);
      cbn [mbind option_bind]; [|split; [intros []; discriminate|intros (_ & [] & _); discriminate]].
    destruct (resolve D (configured userConfig "configFilepath") _);
      cbn [mbind option_bind]; [|split; [intros []; discriminate|intros (_ & _ & [] & _); discriminate]].
    destruct (resolve D (configured userConfig "projectPackageJsonFilepath") _);
      cbn [mbind option_bind]; [|split; [intros []; discriminate|intros (_ & _ & _ & [] & _); discriminate]].
    destruct (resolve D (configured userConfig "generatedCodeDirectory") _);
      cbn [mbind option_bind]; [|split; [intros []; discriminate|intros (_ & _ & _ & _ & [] & _); discriminate]].
    split; [intros _; repeat split; eauto|intros _; eauto]. }
  split.
  - rewrite <- Hm.
    destruct options;
      try (split; [discriminate|now intros (? & ? & _)]);
      (destruct (merged_config _ _ _ _ _ _) as [cfg|];
       [split; [intros _; repeat split; (discriminate || eauto)|reflexivity]
       |split; [discriminate|intros (_ & _ & [cfg Hc]); discriminate]]).
  - intros e.
    destruct options; try (intros [= <-]; eauto);
      (destruct (merged_config _ _ _ _ _ _); [discriminate|intros [= <-]; eauto]).
Qed.

(** X5. The module type is the manifest's to decide: when the merged
    [package] is truthy, [moduleType] is its [type], or [commonjs] when
    that is missing or falsy, whatever the user configuration says; only
    without a truthy [package] does the user's [moduleType] stand. *)
Theorem moduleType_from_manifest (filepath : option string) (options : value)
        (w w' : world) (cfg : obj) :
  mergeConfig cwd JSON_parse evaluate filepath options w = (Ok cfg, w') ->
  let package := get cfg "package" in
  cfg !! "moduleType"
  = if truthy package
    then Some (js_or (prop package "type") (VStr "commonjs"))
    else userConfig_in cwd evaluate filepath w !! "moduleType".
Proof.
  intros H.
  apply mergeConfig_Ok in H as (f & s & c & p & g & _ & _ & _ & _ & _ & ->).
  set (inner := with_package _ _ _ _).
  assert (Hp : get (with_moduleType inner) "package" = get inner "package")
    by (unfold get; now rewrite lookup_with_moduleType).
  cbv zeta. rewrite Hp. unfold with_moduleType.
  destruct (truthy (get inner "package")) eqn:E.
  - apply lookup_insert_eq.
  - subst inner. rewrite lookup_with_package by done.
    rewrite lookup_with_paths_other by (done || not_listed).
    rewrite lookup_union. change (defaultConfig !! "moduleType") with (@None value).
    now destruct (_ !! "moduleType").
Qed.

(** X6. A manifest that cannot be read as JSON does not stop the merge:
    the error is swallowed and [package] keeps the configured value, the
    empty object of the defaults unless the user configuration has one,
    so that the module type falls back to what that value gives,
    [commonjs] for the default. *)
Theorem unreadable_manifest_is_ignored (filepath : option string)
        (options : value) (w w' : world) (cfg : obj) (text : string) :
  stat_path cwd (files w) (path.join cwd "package.json") = inr (File text) ->
  JSON_parse text = None ->
  mergeConfig cwd JSON_parse evaluate filepath options w = (Ok cfg, w') ->
  let userConfig := userConfig_in cwd evaluate filepath w in
  cfg !! "package" = Some (configured userConfig "package")
  /\ (userConfig !! "package" = None ->
      cfg !! "package" = Some (VObj ∅)
      /\ cfg !! "moduleType" = Some (VStr "commonjs")).
Proof.
  intros Hfile Hparse H userConfig.
  pose proof (stable_files_mergeConfig cwd JSON_parse evaluate filepath options w)
    as Hfiles. rewrite H in Hfiles. cbn [snd] in Hfiles.
  assert (Hthrows : exists e w2, getPackageJson cwd JSON_parse cwd w' = (Throw e, w2)).
  { unfold getPackageJson. rewrite bind_run, exists_run.
    rewrite Hfiles, Hfile. cbn [negb]. rewrite bind_run. unfold fs_readFile.
    rewrite Hfiles, Hfile, Hparse. now eexists _, _. }
  destruct Hthrows as (e & w2 & Hthrows).
  apply mergeConfig_Ok in H as (f & s & c & p & g & _ & _ & _ & _ & _ & ->).
  fold userConfig.
  assert (Hpkg : with_package cwd JSON_parse w'
                   (with_paths (getDatabaseConfigDirectory cwd filepath)
                      (prop options "examples") f s c p g
                      (userConfig ∪ defaultConfig)) !! "package"
                 = Some (configured userConfig "package")).
  { unfold with_package. rewrite Hthrows.
    rewrite lookup_with_paths_other by (done || not_listed).
    rewrite lookup_union. unfold configured.
    destruct (userConfig !! "package"); reflexivity. }
  split; [now rewrite lookup_with_moduleType|].
  intros Hnone. unfold configured in Hpkg. rewrite Hnone in Hpkg.
  change (get defaultConfig "package") with (VObj ∅) in Hpkg.
  split; [now rewrite lookup_with_moduleType|].
  unfold with_moduleType. rewrite (get_lookup _ _ _ Hpkg). cbn [truthy].
  apply lookup_insert_eq.
Qed.

Lemma validateConfig_merged (filepath : option string)
      (options : value) (w w' : world) (cfg : obj) :
  mergeConfig cwd JSON_parse evaluate filepath options w = (Ok cfg, w') ->
  forall w2,
    validateConfig cfg w2
    = (if truthy (get cfg "moduleType") then Ok tt
       else Throw (Error (missing_fields_message ["moduleType"])), w2).
Proof.
  intros H w2.
  apply mergeConfig_Ok in H as (f & s & c & p & g & Hf & Hs & Hc & Hp & Hg & ->).
  set (D := getDatabaseConfigDirectory cwd filepath) in *.
  set (cfg := with_moduleType _).
  assert (HD : D <> "") by apply getDatabaseConfigDirectory_nonempty.
  assert (Hj : forall a b, path.join a b <> "")
    by (intros; apply locate_facts.join_nonempty).
  assert (Hlook : forall k v,
            with_paths D (prop options "examples") f s c p g
                       (userConfig_in cwd evaluate filepath w ∪ defaultConfig) !! k
            = Some (VStr v) ->
            k <> "package" -> k <> "moduleType" -> v <> "" ->
            exists s0, cfg !! k = Some (VStr s0) /\ s0 <> "").
  { intros k v Hk H1 H2 Hv. exists v. split; [|exact Hv]. subst cfg.
    now rewrite lookup_with_moduleType, lookup_with_package. }
  unfold validateConfig. rewrite missing_fields.
  - now destruct (truthy (get cfg "moduleType")).
  - unfold derived_keys.
    repeat first [apply List.Forall_nil | apply List.Forall_cons];
      (eapply Hlook; [lookup_paths|done|done|eauto using resolve_nonempty]).
Qed.

(** X7. On a configuration that [mergeConfig] returned, validation can
    only ever miss [moduleType]: every path field holds a string that is
    not empty, so [validateConfig] passes exactly when [moduleType] is
    truthy and otherwise throws naming that field alone. *)
Theorem validateConfig_after_mergeConfig (filepath : option string)
        (options : value) (w w' : world) (cfg : obj) :
  mergeConfig cwd JSON_parse evaluate filepath options w = (Ok cfg, w') ->
  forall w2,
    validateConfig cfg w2
    = (if truthy (get cfg "moduleType") then Ok tt
       else Throw (Error (missing_fields_message ["moduleType"])), w2).
Proof. apply validateConfig_merged. Qed.

End MergeMore.

(** * What [checkPackageDependencies] reports *)

Lemma sublist_filter {A} (f : A -> bool) (l : list A) :
  sublist (List.filter f l) l.
Proof.
  induction l as [|x l IH]; cbn [List.filter]; [constructor|].
  destruct (f x); now constructor.
Qed.

(** X10. [checkPackageDependencies] reports required names only, in the
    order of the required list: a name is reported exactly when there is
    no truthy [package], or its entry in the [dependencies] of the
    package is falsy (missing, or an empty version); nothing else of the
    package is looked at, so a name listed under another field such as
    [devDependencies] is reported all the same. *)
Theorem dependencies_reported (self : helper) :
  let package := get (config self) "package" in
  let dependencies := js_or (prop package "dependencies") (VObj ∅) in
  let needed := checkPackageDependencies self in
  sublist needed (requiredDependencies self)
  /\ (forall name,
        name ∈ needed
        <-> name ∈ requiredDependencies self
            /\ (truthy package = false
                \/ truthy (prop dependencies name) = false))
  /\ (forall other : helper,
        requiredDependencies other = requiredDependencies self ->
        truthy (get (config other) "package") = truthy package ->
        prop (get (config other) "package") "dependencies"
        = prop package "dependencies" ->
        checkPackageDependencies other = needed).
Proof.
  intros package dependencies needed. subst needed.
  rewrite checkPackageDependencies_filter. cbv zeta.
  fold package. fold dependencies.
  split; [|split].
  - destruct (truthy package); [apply sublist_filter|reflexivity].
  - intros name. destruct (truthy package).
    + rewrite !list_elem_of_In, filter_In, negb_true_iff.
      split; [intros [? ?]; auto|intros [? [?|?]]; [discriminate|auto]].
    + split; [auto|now intros [? _]].
  - intros other Hreq Htruthy Hdeps.
    rewrite checkPackageDependencies_filter. cbv zeta.
    rewrite Htruthy, Hdeps, Hreq. reflexivity.
Qed.

(** * More on [build] *)

Section Keeps.

Variable P : gmap (list string) node -> Prop.

Lemma keeps_stable {A} (m : M A) : stable files m -> keeps P m.
Proof. intros H w HP. now rewrite H. Qed.

Lemma keeps_bind {A B} (m : M A) (k : A -> M B) :
  keeps P m -> (forall a, keeps P (k a)) -> keeps P (m ≫= k).
Proof.
  intros Hm Hk w HP. rewrite bind_run. specialize (Hm w HP).
  destruct (m w) as [[a|e] w1]; cbn [snd] in *; [now apply Hk|assumption].
Qed.

Variable run : list call -> call -> gmap (list string) node
               -> option (gmap (list string) node).

Hypothesis run_keeps :
  forall history c fs fs', run history c fs = Some fs' -> P fs -> P fs'.

Lemma keeps_external (c : call) : keeps P (external run c).
Proof.
  intros w HP. unfold external.
  destruct (run (calls w) c (files w)) as [fs'|] eqn:E; cbn [snd files set_files add_call];
    [eapply run_keeps; eassumption|assumption].
Qed.

Lemma keeps_call_export (schemaModule : obj) (name : string)
      (c : string -> call) : keeps P (call_export run schemaModule name c).
Proof.
  unfold call_export.
  destruct (get schemaModule name); try (now intros w HP).
  apply keeps_external.
Qed.

Lemma keeps_buildSchema (schemaModule : obj) :
  keeps P (buildSchema run schemaModule).
Proof.
  unfold buildSchema.
  repeat first
    [ apply keeps_external
    | apply keeps_call_export
    | apply keeps_bind; [|intros ?]
    | apply keeps_stable; solve [auto with stable] ].
Qed.

End Keeps.

Section BuildMore.

Variable cwd : string.
Variable JSON_parse : string -> option value.
Variable evaluate : string -> option obj.
Variable run : list call -> call -> gmap (list string) node
               -> option (gmap (list string) node).

(** [build], once the configuration is resolved. *)
Lemma build_run (filepath : option string) (options : value) (w : world) :
  build cwd JSON_parse evaluate run filepath options w
  = match mergeConfig cwd JSON_parse evaluate filepath options w with
    | (Throw e, w1) => (Throw e, w1)
    | (Ok cfg, w1) =>
        let D := getDatabaseConfigDirectory cwd filepath in
        let w2 := set_config cfg w1 in
        match stat_path cwd (files w) D with
        | inr _ =>
            (getSchemaDefinitions cwd evaluate (get cfg "schemaFilepath")
               ≫= buildSchema run) w2
        | inl ENOENT =>
            (Throw (Error (database_not_found_message (VStr D))), w2)
        | inl e => (Throw (SystemError e "access" D), w2)
        end
    end.
Proof.
  unfold build. rewrite bind_run.
  pose proof (stable_files_mergeConfig cwd JSON_parse evaluate filepath options w)
    as Hfiles.
  destruct (mergeConfig cwd JSON_parse evaluate filepath options w)
    as [[cfg|e] w1] eqn:Hm; [|reflexivity].
  cbn [snd] in Hfiles.
  destruct (mergeConfig_entries _ _ _ _ _ _ _ _ Hm) as [HD _].
  rewrite bind_update, bind_this_config.
  change (config (this (set_config cfg w1))) with cfg. rewrite HD.
  rewrite bind_run. cbn [validateString mret M_ret].
  rewrite bind_run, exists_run.
  change (files (set_config cfg w1)) with (files w1). rewrite Hfiles. cbv zeta.
  destruct (stat_path cwd (files w) _) as [[]|n]; reflexivity.
Qed.

Lemma getSchemaDefinitions_run (schemaFilepath : string) (w : world) :
  getSchemaDefinitions cwd evaluate (VStr schemaFilepath) w
  = import_module cwd evaluate schemaFilepath w.
Proof.
  unfold getSchemaDefinitions. rewrite bind_run.
  cbn [validateString mret M_ret]. rewrite bind_run.
  now destruct (import_module cwd evaluate schemaFilepath w) as [[m|e] w'].
Qed.

(** X11. [build] itself writes no file: any property of the files that
    every call into the builders and the schema module keeps holds after
    [build] if it held before, however [build] ends. In particular, with
    builders that leave the files alone, so does [build]. *)
Theorem build_writes_through_builders
        (P : gmap (list string) node -> Prop)
        (filepath : option string) (options : value) (w : world) :
  (forall history c fs fs', run history c fs = Some fs' -> P fs -> P fs') ->
  P (files w) ->
  P (files (build cwd JSON_parse evaluate run filepath options w).2).
Proof.
  intros Hrun. revert w.
  change (keeps P (build cwd JSON_parse evaluate run filepath options)).
  unfold build, getSchemaDefinitions.
  repeat first
    [ apply (keeps_buildSchema P run Hrun)
    | apply keeps_stable;
      solve [auto with stable
            | apply stable_files_mergeConfig
            | apply stable_if; auto with stable]
    | apply keeps_bind; [|intros ?] ].
Qed.

(** X12. When the database directory is there and no file is at the
    resolved schema path, [build] throws on loading the schema module: no
    builder has been called and no file has changed. *)
Theorem build_needs_schema_file (filepath : option string) (options : value)
        (w w1 : world) (cfg : obj) (schemaFilepath : string) :
  mergeConfig cwd JSON_parse evaluate filepath options w = (Ok cfg, w1) ->
  (exists n, stat_path cwd (files w) (getDatabaseConfigDirectory cwd filepath)
             = inr n) ->
  get cfg "schemaFilepath" = VStr schemaFilepath ->
  (forall source, files w !! locate cwd schemaFilepath <> Some (File source)) ->
  exists w',
    build cwd JSON_parse evaluate run filepath options w
    = (Throw (Error ("Cannot find module " ++ schemaFilepath)), w')
    /\ calls w' = calls w1
    /\ files w' = files w.
Proof.
  intros Hm [n Hdir] Hsf Hnone.
  pose proof (stable_files_mergeConfig cwd JSON_parse evaluate filepath options w)
    as Hfiles. rewrite Hm in Hfiles. cbn [snd] in Hfiles.
  rewrite build_run, Hm. cbv zeta. rewrite Hdir, Hsf.
  rewrite bind_run, getSchemaDefinitions_run.
  unfold import_module, stat. change (files (set_config cfg w1)) with (files w1).
  rewrite Hfiles.
  destruct (files w !! locate cwd schemaFilepath) as [[|source]|] eqn:E;
    [| now destruct (Hnone source) |];
    (eexists; split; [reflexivity|split; [reflexivity|exact Hfiles]]).
Qed.

(** X13. A schema module without a [createDatabase] function leaves the
    build half done: the schema builder has run and [Hyperschema.toDisk]
    has written its output, [HyperDB.from] has been called, and then
    [build] throws a TypeError; [HyperDB.toDisk] is never reached. *)
Theorem build_without_createDatabase (filepath : option string)
        (options : value) (w w1 : world) (cfg : obj)
        (schemaFilepath source createSchema : string) (schemaModule : obj)
        (fs' : gmap (list string) node) :
  let hyperschema := get cfg "hyperschemaDirectory" in
  let hyperdb := get cfg "hyperdbDirectory" in
  let made :=
    [ Hyperschema_from hyperschema;
      Module_createSchema createSchema hyperschema;
      Hyperschema_toDisk hyperschema;
      HyperDB_from hyperschema hyperdb ] in
  mergeConfig cwd JSON_parse evaluate filepath options w = (Ok cfg, w1) ->
  (exists n, stat_path cwd (files w) (getDatabaseConfigDirectory cwd filepath)
             = inr n) ->
  get cfg "schemaFilepath" = VStr schemaFilepath ->
  files w !! locate cwd schemaFilepath = Some (File source) ->
  evaluate source = Some schemaModule ->
  get schemaModule "createSchema" = VFun createSchema ->
  (forall f, get schemaModule "createDatabase" <> VFun f) ->
  run_all run (calls w1 ++ [Evaluate schemaFilepath])%list made (files w)
  = Some fs' ->
  exists w',
    build cwd JSON_parse evaluate run filepath options w
    = (Throw (TypeError "schemaModule.createDatabase is not a function"), w')
    /\ calls w' = (calls w1 ++ Evaluate schemaFilepath :: made)%list
    /\ files w' = fs'.
Proof.
  intros hyperschema hyperdb made Hm [n Hdir] Hsf Hfile Heval Hcs Hcd Hrun.
  pose proof (stable_files_mergeConfig cwd JSON_parse evaluate filepath options w)
    as Hfiles. rewrite Hm in Hfiles. cbn [snd] in Hfiles.
  rewrite build_run, Hm. cbv zeta. rewrite Hdir, Hsf.
  rewrite bind_run, getSchemaDefinitions_run.
  unfold import_module, stat. change (files (set_config cfg w1)) with (files w1).
  rewrite Hfiles, Hfile, Heval.
  subst made. cbn [run_all] in Hrun.
  destruct (run _ (Hyperschema_from hyperschema) _) as [fs1|] eqn:R1;
    [|discriminate].
  destruct (run _ (Module_createSchema createSchema hyperschema) _) as [fs2|] eqn:R2;
    [|discriminate].
  destruct (run _ (Hyperschema_toDisk hyperschema) _) as [fs3|] eqn:R3;
    [|discriminate].
  destruct (run _ (HyperDB_from hyperschema hyperdb) _) as [fs4|] eqn:R4;
    [|discriminate].
  injection Hrun as <-.
  unfold buildSchema. rewrite bind_this_config.
  cbn [this config add_call set_config].
  fold hyperschema.
  rewrite bind_run. unfold external at 1.
  cbn [calls files add_call set_config]. rewrite Hfiles, R1.
  rewrite bind_run. unfold call_export at 1. rewrite Hcs. unfold external at 1.
  cbn [calls files add_call set_files set_config]. rewrite R2.
  rewrite bind_run. unfold external at 1.
  cbn [calls files add_call set_files set_config]. rewrite R3.
  rewrite !bind_this_config. cbn [this config add_call set_files set_config].
  fold hyperschema hyperdb.
  rewrite bind_run. unfold external at 1.
  cbn [calls files add_call set_files set_config]. rewrite R4.
  rewrite bind_run. unfold call_export at 1.
  destruct (get schemaModule "createDatabase") eqn:Ecd;
    try (now destruct (Hcd name));
    (eexists; split; [reflexivity|];
     cbn [calls files add_call set_files set_config];
     split; [now rewrite <- !app_assoc|reflexivity]).
Qed.

End BuildMore.

(** * Where the check looks and where the files go *)

(** In a tree, all that is above something is a directory. *)
Lemma tree_ancestors (fs : gmap (list string) node) (names l : list string) :
  tree fs -> is_Some (fs !! (names ++ l)%list) -> names <> [] ->
  fs !! l = Some Dir.
Proof.
  intros Htree. induction names as [|name names IH]; [congruence|].
  intros Hsome _. cbn [app] in Hsome. apply Htree in Hsome.
  destruct names as [|name' names']; [exact Hsome|].
  apply IH; [rewrite Hsome; eauto|discriminate].
Qed.

Lemma last_is_slash_cons (c : ascii) (s : string) :
  s <> "" -> path.last_is_slash (String c s) = path.last_is_slash s.
Proof.
  intros Hs. unfold path.last_is_slash. cbn [list_ascii_of_string rev].
  destruct s as [|c' s']; [congruence|].
  destruct (rev (list_ascii_of_string (String c' s'))) as [|x r] eqn:E;
    [|reflexivity].
  apply (f_equal (@rev ascii)) in E. rewrite rev_involutive in E. discriminate.
Qed.

Lemma last_is_slash_app (a b : string) :
  b <> "" -> path.last_is_slash (a ++ b) = path.last_is_slash b.
Proof.
  intros Hb. induction a as [|c a IH]; [reflexivity|].
  change (String c a ++ b) with (String c (a ++ b)).
  rewrite last_is_slash_cons; [exact IH|].
  destruct a; [exact Hb|discriminate].
Qed.

(** [path.normalize] reads of a path whether it is absolute, whether it
    ends in a separator, and the segments it keeps. *)
Lemma normalize_eq (p q : string) :
  p <> "" -> q <> "" ->
  path.isAbsolute p = path.isAbsolute q ->
  path.last_is_slash p = path.last_is_slash q ->
  path.normalizeSegments (negb (path.isAbsolute p)) (path.split p)
  = path.normalizeSegments (negb (path.isAbsolute q)) (path.split q) ->
  path.normalize p = path.normalize q.
Proof.
  intros Hp Hq Habs Hslash Hsegs. unfold path.normalize, path.normalizeString.
  rewrite (proj2 (String.eqb_neq p "")), (proj2 (String.eqb_neq q ""))
    by assumption.
  now rewrite Hsegs, Habs, Hslash.
Qed.

Lemma walk_app (fs : gmap (list string) node) (c1 c2 : list string) :
  forall at_,
    walk fs at_ (c1 ++ c2)
    = match walk fs at_ c1 with
      | inr l => walk fs l c2
      | inl e => inl e
      end.
Proof.
  induction c1 as [|c rest IH]; intros at_; cbn [app walk]; [reflexivity|].
  destruct (fs !! at_) as [[|content]|]; try reflexivity.
  destruct (String.eqb c "" || String.eqb c "."); [apply IH|].
  destruct (String.eqb c ".."); apply IH.
Qed.

(** In a tree, a walk without [..] towards something that is there
    arrives, unless it is asked to pass through a regular file. *)
Lemma walk_forward_tree (fs : gmap (list string) node)
      (components : list string) :
  tree fs ->
  forall at_,
    Forall forward components ->
    is_Some (fs !! fold_left (path.step false) components at_) ->
    walk fs at_ components = inr (fold_left (path.step false) components at_)
    \/ walk fs at_ components = inl ENOTDIR.
Proof.
  intros Htree. induction components as [|c rest IH]; intros at_ Hf Hsome;
    cbn [walk fold_left] in *; [now left|].
  inversion Hf as [|? ? Hc Hrest]; subst.
  assert (Hat : is_Some (fs !! at_)).
  { destruct (fold_forward_suffix (c :: rest) at_ Hf) as [pre Hpre].
    cbn [fold_left] in Hpre. rewrite Hpre in Hsome.
    destruct pre as [|x pre]; [exact Hsome|].
    rewrite (tree_ancestors fs (x :: pre) at_ Htree Hsome); [eauto|discriminate]. }
  destruct Hat as [[|content] Hat]; rewrite Hat; [|now right].
  unfold path.step in Hsome |- *.
  destruct (String.eqb c "" || String.eqb c "."); [now apply IH|].
  unfold forward in Hc. rewrite Hc in Hsome |- *. now apply IH.
Qed.

Section Guard.

Variable cwd : string.
Variable JSON_parse : string -> option value.
Variable evaluate : string -> option obj.
Variable path_relative : string -> string -> string.
Variable T : templates.

(** In a tree, a path without [..] that names something is not reported
    missing. *)
Lemma stat_path_forward (fs : gmap (list string) node) (p : string) (n : node) :
  tree fs -> p <> "" -> Forall forward (path.split p) ->
  fs !! locate cwd p = Some n ->
  stat_path cwd fs p = inr n \/ stat_path cwd fs p = inl ENOTDIR.
Proof.
  intros Htree Hne Hf Hn. unfold stat_path, resolve_path.
  rewrite (proj2 (String.eqb_neq p "")) by assumption.
  rewrite locate_origin in Hn.
  destruct (walk_forward_tree fs (path.split p) Htree (origin cwd p) Hf)
    as [-> | ->]; [eauto|now rewrite Hn; left|now right].
Qed.

(** [path.join] with the working directory leaves no [..]; an absolute
    directory argument is taken as it is. *)
Lemma forward_getDatabaseConfigDirectory (filepath : option string) :
  path.isAbsolute cwd = true ->
  path.isAbsolute (default "./database" filepath) = false
  \/ Forall forward (path.split (default "./database" filepath)) ->
  Forall forward (path.split (getDatabaseConfigDirectory cwd filepath)).
Proof.
  intros Hcwd H. unfold getDatabaseConfigDirectory.
  destruct (path.isAbsolute (default "./database" filepath)) eqn:E.
  - now destruct H.
  - now apply forward_join.
Qed.

(** X8. Where the check of [init] does see what is there: in a tree of
    files, for a directory argument that is relative or omitted, or an
    absolute one without [..], whenever something lies at the database
    config directory or anywhere below it, [init] throws and the files
    are what they were. *)
Theorem init_refuses_without_dotdot (filepath : option string)
        (options : value) (w : world) (below : list string) :
  let D := getDatabaseConfigDirectory cwd filepath in
  path.isAbsolute cwd = true ->
  tree (files w) ->
  path.isAbsolute (default "./database" filepath) = false
  \/ Forall forward (path.split (default "./database" filepath)) ->
  is_Some (files w !! (below ++ locate cwd D)%list) ->
  exists e w',
    init cwd JSON_parse evaluate path_relative T filepath options w
    = (Throw e, w')
    /\ files w' = files w.
Proof.
  intros D Hcwd Htree Harg Hsome.
  assert (Hthere : is_Some (files w !! locate cwd D)).
  { destruct below as [|x below]; [exact Hsome|].
    rewrite (tree_ancestors (files w) (x :: below) _ Htree Hsome); [eauto|discriminate]. }
  destruct Hthere as [n Hn].
  destruct (init_cases cwd JSON_parse evaluate path_relative T filepath options w)
    as [Hthrows|(cfg & w1 & _ & HD & _)]; [exact Hthrows|].
  fold D in HD. exfalso.
  destruct (stat_path_forward (files w) D n Htree) as [E|E];
    [apply getDatabaseConfigDirectory_nonempty
    |now apply forward_getDatabaseConfigDirectory
    |exact Hn|congruence|congruence].
Qed.

(** X9. Where it does not: a component that is missing hides what [..]
    after it leads to. When [a] is a directory that has no entry [name],
    [fs.access] reports [a/name/../x] missing whatever lies at [a/x],
    while [path.join] makes of both the same paths for the files [init]
    writes. *)
Theorem missing_component_hides (a name x f : string) (w : world)
        (l : list string) :
  path.isAbsolute a = true ->
  resolve_path cwd (files w) a = inr l ->
  files w !! l = Some Dir ->
  path.plain name = true ->
  files w !! (name :: l) = None ->
  f <> "" ->
  let D := a ++ String path.slash (name ++ String path.slash
                                         (".." ++ String path.slash x)) in
  exists_ cwd D w = (Ok false, w)
  /\ path.join D f = path.join (a ++ String path.slash x) f.
Proof.
  intros Ha Hres Hl Hname Hmissing Hf D.
  assert (HaD : path.isAbsolute D = true)
    by now apply locate_facts.isAbsolute_app.
  assert (Hax : path.isAbsolute (a ++ String path.slash x) = true)
    by now apply locate_facts.isAbsolute_app.
  assert (Hne : a <> "") by (intros ->; discriminate).
  destruct (path_facts.plain_spec _ Hname) as (Hn1 & Hn2 & Hn3 & Hn4).
  split.
  - rewrite exists_run. unfold stat_path, resolve_path, origin in *.
    rewrite Ha in Hres. rewrite HaD.
    destruct (String.eqb_spec a ""); [contradiction|].
    destruct (String.eqb_spec D "") as [E|_].
    { rewrite E in HaD. discriminate. }
    unfold D. rewrite !path_facts.split_app, walk_app, Hres.
    rewrite (path_facts.split_plain_text name) by assumption.
    change (path.split "..") with [".."]. cbn [app walk].
    rewrite Hl.
    rewrite (proj2 (String.eqb_neq name "")), (proj2 (String.eqb_neq name ".")),
      (proj2 (String.eqb_neq name "..")) by assumption.
    cbn [orb]. now rewrite Hmissing.
  - unfold path.join.
    rewrite (proj2 (String.eqb_neq D "")) by (intros E; rewrite E in HaD; discriminate).
    rewrite (proj2 (String.eqb_neq (a ++ String path.slash x) ""))
      by (intros E; rewrite E in Hax; discriminate).
    rewrite (proj2 (String.eqb_neq f "")) by assumption.
    assert (H1 : path.isAbsolute (D ++ String path.slash f) = true)
      by now apply locate_facts.isAbsolute_app.
    assert (H2 : path.isAbsolute ((a ++ String path.slash x) ++ String path.slash f)
                 = true)
      by now apply locate_facts.isAbsolute_app.
    apply normalize_eq.
    + intros E. rewrite E in H1. discriminate.
    + intros E. rewrite E in H2. discriminate.
    + now rewrite H1, H2.
    + now rewrite !last_is_slash_app by discriminate.
    + rewrite H1, H2. cbn [negb]. unfold D, path.normalizeSegments.
      rewrite !path_facts.split_app, !fold_left_app.
      rewrite (path_facts.split_plain_text name) by assumption.
      change (path.split "..") with [".."]. cbn [fold_left].
      rewrite (path_facts.step_plain false _ name) by assumption.
      do 2 f_equal. unfold path.step. cbn [String.eqb Ascii.eqb Bool.eqb orb].
      now rewrite (proj2 (String.eqb_neq name "..")).
Qed.

End Guard.

(** * What [init] leaves behind *)

Lemma cons_neq {A} (x : A) (l : list A) : x :: l <> l.
Proof.
  intros E. apply (f_equal List.length) in E. cbn in E. lia.
Qed.

Lemma cons_cons_neq {A} (x y : A) (l : list A) : x :: y :: l <> l.
Proof.
  intros E. apply (f_equal List.length) in E. cbn in E. lia.
Qed.

(** Two locations that cannot be the same. *)
Ltac distinct_locations :=
  first
    [ apply cons_neq
    | apply not_eq_sym, cons_neq
    | apply cons_cons_neq
    | apply not_eq_sym, cons_cons_neq
    | let E := fresh in
      intros E; injection E; clear E; intros;
      first [ discriminate
            | eapply cons_neq; eassumption
            | eapply cons_neq; symmetry; eassumption ]
    | congruence ].

Lemma tree_no_file_above (fs : gmap (list string) node) (l : list string) :
  tree fs -> is_Some (fs !! l) -> under_file fs l = false.
Proof.
  intros Htree. induction l as [|name parent IH]; [reflexivity|].
  intros Hsome. cbn [under_file]. rewrite (Htree _ _ Hsome).
  apply IH. rewrite (Htree _ _ Hsome). eauto.
Qed.

Lemma tree_insert (fs : gmap (list string) node) (l : list string) (n : node) :
  tree fs -> fs !! l = None -> holds fs l = true -> tree (<[l := n]> fs).
Proof.
  intros Htree Hnone Hparent name parent [m Hm].
  destruct l as [|x l']; [discriminate|].
  cbn [holds] in Hparent. apply bool_decide_eq_true_1 in Hparent.
  destruct (decide (name :: parent = x :: l')) as [[= -> ->]|Hne].
  - rewrite lookup_insert_ne; [exact Hparent|apply cons_neq].
  - rewrite lookup_insert_ne in Hm by congruence.
    assert (Hp : fs !! parent = Some Dir) by (apply (Htree name); eauto).
    rewrite lookup_insert_ne; [exact Hp|]. intros <-. congruence.
Qed.

Lemma tree_nothing_below (fs : gmap (list string) node) (l : list string)
      (name : string) :
  tree fs -> fs !! l = None -> fs !! (name :: l) = None.
Proof.
  intros Htree Hnone. destruct (fs !! (name :: l)) eqn:E; [|reflexivity].
  rewrite (Htree name l) in Hnone by eauto. discriminate.
Qed.

Lemma trim_names (components : list string) (x : string) :
  x <> "" -> trim (components ++ [x]) = (components ++ [x])%list.
Proof.
  intros Hx. unfold trim. rewrite rev_app_distr. cbn [rev app path.dropwhile].
  rewrite (proj2 (String.eqb_neq x "")) by assumption.
  cbn [rev]. now rewrite rev_involutive.
Qed.

(** A walk towards a directory of a tree arrives. *)
Lemma walk_to_dir (fs : gmap (list string) node) (components at_ : list string) :
  tree fs -> Forall forward components ->
  fs !! fold_left (path.step false) components at_ = Some Dir ->
  walk fs at_ components = inr (fold_left (path.step false) components at_).
Proof.
  intros Htree Hf Hdir.
  destruct (walk_forward_tree fs components Htree at_ Hf) as [E|E];
    [eauto|exact E|].
  exfalso. apply walk_ENOTDIR in E as (v & content & Hv & [pre Hpre]);
    [|assumption].
  rewrite Hpre in Hdir. destruct pre as [|x pre].
  - cbn [app] in Hdir. congruence.
  - rewrite (tree_ancestors fs (x :: pre) v Htree) in Hv;
      [discriminate|rewrite Hdir; eauto|discriminate].
Qed.

Lemma walk_root (fs : gmap (list string) node) (K : list string) :
  tree fs -> Forall (fun s => path.plain s = true) K ->
  fs !! K = Some Dir ->
  walk fs [] ("" :: rev K) = inr K.
Proof.
  intros Htree Hplain Hdir.
  assert (E : fold_left (path.step false) ("" :: rev K) [] = K).
  { cbn [fold_left]. change (path.step false [] "") with (@nil string).
    rewrite path_facts.fold_step_plain by now apply List.Forall_rev.
    now rewrite rev_involutive, app_nil_r. }
  rewrite <- E at 2. apply walk_to_dir; [assumption| |now rewrite E].
  constructor; [reflexivity|]. now apply plain_forward, List.Forall_rev.
Qed.

(** Where everything on the way is there, the recursive [mkdir] makes
    nothing. *)
Lemma mkdirp_through (fs : gmap (list string) node) (c1 c2 : list string) :
  forall at_ l,
    walk fs at_ c1 = inr l -> is_Some (fs !! l) ->
    mkdirp fs at_ (c1 ++ c2) = mkdirp fs l c2.
Proof.
  induction c1 as [|c rest IH]; intros at_ l; cbn [app walk mkdirp].
  - now intros [= <-].
  - destruct (fs !! at_) as [[|content]|]; try discriminate.
    destruct (String.eqb c "" || String.eqb c "."); [apply IH|].
    destruct (String.eqb c ".."); [apply IH|].
    intros Hw Hl.
    assert (Hchild : is_Some (fs !! (c :: at_))).
    { destruct rest as [|c' rest'].
      - cbn [walk] in Hw. now injection Hw as <-.
      - cbn [walk] in Hw. destruct (fs !! (c :: at_)); [eauto|discriminate]. }
    destruct Hchild as [n Hn]. rewrite Hn. now apply IH.
Qed.

Section Partial.

Variable cwd : string.

(** The text of [path.join a b] for an absolute [a]. *)
Lemma split_join (a b : string) :
  path.isAbsolute a = true ->
  exists t,
    path.split (path.join a b) = "" :: (rev (locate cwd (path.join a b)) ++ t)%list
    /\ (t = [] \/ t = [""])
    /\ (locate cwd (path.join a b) <> [] ->
        b <> "" -> path.last_is_slash b = false -> t = []).
Proof.
  intros Ha.
  assert (Hne : a <> "") by (intros ->; discriminate).
  rewrite (locate_facts.locate_absolute cwd (path.join a b))
    by now apply locate_facts.isAbsolute_join.
  unfold path.join.
  destruct (String.eqb_spec a ""); [contradiction|].
  destruct (String.eqb_spec b "") as [->|Hb].
  - destruct (split_normalize a Ha) as (t & E & Ht & _).
    exists t. rewrite locate_facts.segments_normalize by assumption.
    split; [exact E|]. split; [exact Ht|]. congruence.
  - assert (Hab : path.isAbsolute (a ++ String path.slash b) = true)
      by now apply locate_facts.isAbsolute_app.
    destruct (split_normalize _ Hab) as (t & E & Ht & Hno).
    exists t. rewrite locate_facts.segments_normalize by assumption.
    split; [exact E|]. split; [exact Ht|].
    intros HK _ Hslash. apply Hno; [exact HK|].
    rewrite last_is_slash_app by discriminate.
    now rewrite last_is_slash_cons.
Qed.

(** A path made with [path.join] that names something in a directory of
    a tree resolves to that place. *)
Lemma resolve_child (fs : gmap (list string) node) (a b name : string)
      (parent : list string) :
  tree fs -> path.isAbsolute a = true ->
  b <> "" -> path.last_is_slash b = false ->
  locate cwd (path.join a b) = name :: parent ->
  fs !! parent = Some Dir ->
  resolve_path cwd fs (path.join a b) = inr (name :: parent).
Proof.
  intros Htree Ha Hb Hslash Hloc Hparent.
  destruct (split_join a b Ha) as (t & E & _ & Ht).
  rewrite Hloc in E, Ht. rewrite (Ht ltac:(discriminate) Hb Hslash) in E.
  rewrite app_nil_r in E. cbn [rev] in E.
  unfold resolve_path, origin.
  rewrite (proj2 (String.eqb_neq _ "")) by apply locate_facts.join_nonempty.
  rewrite locate_facts.isAbsolute_join by assumption.
  rewrite E. change ("" :: (rev parent ++ [name])%list)
    with (("" :: rev parent) ++ [name])%list.
  assert (Hplain : Forall (fun s => path.plain s = true) (name :: parent)).
  { rewrite <- Hloc.
    rewrite (locate_facts.locate_absolute cwd (path.join a b))
      by now apply locate_facts.isAbsolute_join.
    apply path_facts.normalizeSegments_plain. }
  inversion Hplain as [|? ? Hname Hpp]; subst.
  rewrite walk_app, (walk_root fs parent Htree Hpp Hparent).
  cbn [walk]. rewrite Hparent.
  apply path_facts.plain_spec in Hname as (H1 & H2 & H3 & _).
  now rewrite (proj2 (String.eqb_neq name "")), (proj2 (String.eqb_neq name ".")),
    (proj2 (String.eqb_neq name "..")) by assumption.
Qed.

Lemma fs_writeFile_child (a b name content : string) (parent : list string)
      (w : world) :
  tree (files w) -> path.isAbsolute a = true ->
  b <> "" -> path.last_is_slash b = false ->
  locate cwd (path.join a b) = name :: parent ->
  files w !! parent = Some Dir ->
  files w !! (name :: parent) = None ->
  fs_writeFile cwd (path.join a b) content w
  = (Ok tt, set_files (<[name :: parent := File content]> (files w)) w).
Proof.
  intros Htree Ha Hb Hslash Hloc Hparent Hnone. unfold fs_writeFile.
  rewrite (resolve_child (files w) a b name parent) by assumption.
  rewrite Hnone. cbn [holds]. now rewrite bool_decide_eq_true_2.
Qed.

Lemma fs_mkdir_child (a b name : string) (parent : list string) (w : world) :
  tree (files w) -> path.isAbsolute a = true ->
  b <> "" -> path.last_is_slash b = false ->
  locate cwd (path.join a b) = name :: parent ->
  files w !! parent = Some Dir ->
  files w !! (name :: parent) = None ->
  fs_mkdir cwd (path.join a b) w
  = (Ok tt, set_files (<[name :: parent := Dir]> (files w)) w).
Proof.
  intros Htree Ha Hb Hslash Hloc Hparent Hnone.
  pose proof (resolve_child (files w) a b name parent Htree Ha Hb Hslash
                Hloc Hparent) as Hres.
  unfold resolve_path in Hres. unfold fs_mkdir.
  destruct (String.eqb (path.join a b) ""); [discriminate|].
  destruct (split_join a b Ha) as (t & E & _ & Ht).
  rewrite Hloc in E, Ht. rewrite (Ht ltac:(discriminate) Hb Hslash) in E.
  rewrite app_nil_r in E. cbn [rev] in E.
  assert (Hname : name <> "").
  { assert (Hplain : Forall (fun s => path.plain s = true) (name :: parent)).
    { rewrite <- Hloc.
      rewrite (locate_facts.locate_absolute cwd (path.join a b))
        by now apply locate_facts.isAbsolute_join.
      apply path_facts.normalizeSegments_plain. }
    inversion Hplain as [|? ? Hn _]; subst.
    now apply path_facts.plain_spec in Hn. }
  assert (Htrim : trim (path.split (path.join a b)) = path.split (path.join a b)).
  { rewrite E. change ("" :: (rev parent ++ [name])%list)
      with (("" :: rev parent) ++ [name])%list.
    now apply trim_names. }
  rewrite Htrim, Hres, Hnone. cbn [holds]. now rewrite bool_decide_eq_true_2.
Qed.

(** The recursive [mkdir] of a joined path whose parent directory is
    there makes that one directory. *)
Lemma fs_mkdir_recursive_child (a b name : string) (parent : list string)
      (w : world) :
  tree (files w) -> path.isAbsolute a = true ->
  locate cwd (path.join a b) = name :: parent ->
  files w !! parent = Some Dir ->
  files w !! (name :: parent) = None ->
  fs_mkdir_recursive cwd (path.join a b) w
  = (Ok tt, set_files (<[name :: parent := Dir]> (files w)) w).
Proof.
  intros Htree Ha Hloc Hparent Hnone. unfold fs_mkdir_recursive, origin.
  rewrite (proj2 (String.eqb_neq _ "")) by apply locate_facts.join_nonempty.
  rewrite locate_facts.isAbsolute_join by assumption.
  destruct (split_join a b Ha) as (t & E & Ht & _).
  rewrite Hloc in E. cbn [rev] in E. rewrite E.
  assert (Hplain : Forall (fun s => path.plain s = true) (name :: parent)).
  { rewrite <- Hloc.
    rewrite (locate_facts.locate_absolute cwd (path.join a b))
      by now apply locate_facts.isAbsolute_join.
    apply path_facts.normalizeSegments_plain. }
  inversion Hplain as [|? ? Hname Hpp]; subst.
  rewrite <- app_assoc.
  change ("" :: (rev parent ++ [name] ++ t)%list)
    with (("" :: rev parent) ++ name :: t)%list.
  rewrite (mkdirp_through (files w) _ _ [] parent)
    by (rewrite ?Hparent; eauto using walk_root).
  cbn [mkdirp]. rewrite Hparent, Hnone.
  apply path_facts.plain_spec in Hname as (H1 & H2 & H3 & _).
  rewrite (proj2 (String.eqb_neq name "")), (proj2 (String.eqb_neq name ".")),
    (proj2 (String.eqb_neq name "..")) by assumption.
  cbn [orb].
  destruct Ht as [-> | ->]; cbn [mkdirp String.eqb orb];
    now rewrite !lookup_insert_eq.
Qed.

End Partial.

Section PartialScaffold.

Variable cwd : string.
Variable JSON_parse : string -> option value.
Variable evaluate : string -> option obj.
Variable path_relative : string -> string -> string.
Variable T : templates.

Hypothesis cwd_absolute : path.isAbsolute cwd = true.

(** The configuration of a directory that does not exist yet: every path
    is the default one, below the directory. *)
Lemma fresh_config (filepath : option string) (options : value)
      (w w1 : world) (cfg : obj) :
  let D := getDatabaseConfigDirectory cwd filepath in
  tree (files w) ->
  files w !! locate cwd D = None ->
  mergeConfig cwd JSON_parse evaluate filepath options w = (Ok cfg, w1) ->
  w1 = w /\ get cfg "examples" = prop options "examples" /\ default_layout D cfg.
Proof.
  intros D Htree Hnone Hm.
  destruct (mergeConfig_fresh cwd JSON_parse evaluate cwd_absolute
              filepath options w Htree Hnone) as [Hu Hw].
  rewrite Hm in Hw. cbn [snd] in Hw. split; [exact Hw|].
  apply mergeConfig_Ok in Hm
    as (f & s & c & p & g & Hf & Hs & Hc & Hp & Hg & ->).
  fold D in Hf, Hs, Hc, Hp, Hg |- *. rewrite Hu in *.
  change (resolve D (get (∅ ∪ defaultConfig) "functionsFilepath") "./functions.js")
    with (Some (path.join D "./functions.js")) in Hf.
  change (resolve D (get (∅ ∪ defaultConfig) "schemaFilepath") "./schema.js")
    with (Some (path.join D "./schema.js")) in Hs.
  change (resolve D (get (∅ ∪ defaultConfig) "configFilepath") "./config.js")
    with (Some (path.join D "./config.js")) in Hc.
  change (resolve D (get (∅ ∪ defaultConfig) "generatedCodeDirectory") "./generated")
    with (Some (path.join D "./generated")) in Hg.
  injection Hf as <-. injection Hs as <-. injection Hc as <-. injection Hg as <-.
  unfold default_layout.
  repeat split; apply get_lookup;
    rewrite lookup_with_moduleType, lookup_with_package by done; lookup_paths.
Qed.

(** The scaffold of a directory that is not there yet, in a directory
    that is: the directory is made and filled up to the first
    [package.json], where it stops. *)
Lemma scaffold_partial (a b name indexFilepath : string)
      (parent : list string) (w : world) :
  let D := path.join a b in
  let cfg := config (this w) in
  let here := name :: parent in
  tree (files w) -> path.isAbsolute a = true ->
  default_layout D cfg ->
  locate cwd D = here ->
  files w !! parent = Some Dir ->
  files w !! here = None ->
  scaffold cwd path_relative T D indexFilepath w
  = (Throw (TypeError "templates.packageJsonTemplate is not a function"),
     set_files
       (<["generated" :: here := Dir]>
       (<["schema.js" :: here :=
            File (if truthy (get cfg "examples") then examples_schemaFileTemplate T
                  else schemaFileTemplate T)]>
       (<["functions.js" :: here :=
            File (if truthy (get cfg "examples") then examples_functionFileTemplate T
                  else functionFileTemplate T)]>
       (<["config.js" :: here := File (configFileTemplate T (get cfg "moduleType"))]>
       (<[here := Dir]> (files w)))))) w).
Proof.
  intros D cfg here Htree Ha (ED & Ec & Ef & Es & Eg & _) Hloc Hparent Hnone.
  assert (HD : path.isAbsolute D = true)
    by now apply locate_facts.isAbsolute_join.
  assert (Hchild : forall x, files w !! (x :: here) = None)
    by (intros x; now apply tree_nothing_below).
  unfold scaffold.
  (* the directory *)
  rewrite bind_run.
  pose proof (fs_mkdir_recursive_child cwd a b name parent w Htree Ha Hloc
                Hparent Hnone) as Hmk.
  fold D here in Hmk. rewrite Hmk. clear Hmk.
  set (w1 := set_files (<[here := Dir]> (files w)) w).
  assert (T1 : tree (files w1)).
  { apply tree_insert; [assumption|assumption|].
    cbn [holds]. now apply bool_decide_eq_true_2. }
  assert (H1 : files w1 !! here = Some Dir) by apply lookup_insert_eq.
  (* config.js *)
  rewrite bind_run. unfold createConfigFile at 1.
  rewrite !bind_this_config. change (config (this w1)) with cfg.
  rewrite Ec. unfold writeFile. rewrite bind_run.
  cbn [validateString mret M_ret].
  rewrite (fs_writeFile_child cwd D "./config.js" "config.js" _ here w1);
    [|assumption|assumption|discriminate|reflexivity
     |rewrite <- Hloc; now apply (locate_dot_child cwd D "config.js")
     |assumption
     |cbn [files w1 set_files];
      rewrite lookup_insert_ne by distinct_locations; apply Hchild].
  set (w2 := set_files _ w1).
  assert (T2 : tree (files w2)).
  { apply tree_insert; [assumption| |].
    - cbn [files w1 set_files].
      rewrite lookup_insert_ne by distinct_locations. apply Hchild.
    - cbn [holds]. now apply bool_decide_eq_true_2. }
  assert (H2 : files w2 !! here = Some Dir).
  { cbn [files w2 set_files]. now rewrite lookup_insert_ne by distinct_locations. }
  (* functions.js *)
  rewrite bind_run. unfold createFunctionsFile at 1.
  rewrite !bind_this_config. change (config (this w2)) with cfg.
  rewrite Ef. unfold writeFile. rewrite bind_run.
  cbn [validateString mret M_ret].
  rewrite (fs_writeFile_child cwd D "./functions.js" "functions.js" _ here w2);
    [|assumption|assumption|discriminate|reflexivity
     |rewrite <- Hloc; now apply (locate_dot_child cwd D "functions.js")
     |assumption
     |cbn [files w2 w1 set_files];
      rewrite !lookup_insert_ne by distinct_locations; apply Hchild].
  set (w3 := set_files _ w2).
  assert (T3 : tree (files w3)).
  { apply tree_insert; [assumption| |].
    - cbn [files w2 w1 set_files].
      rewrite !lookup_insert_ne by distinct_locations. apply Hchild.
    - cbn [holds]. now apply bool_decide_eq_true_2. }
  assert (H3 : files w3 !! here = Some Dir).
  { cbn [files w3 set_files]. now rewrite lookup_insert_ne by distinct_locations. }
  (* schema.js *)
  rewrite bind_run. unfold createSchemaFile at 1.
  rewrite !bind_this_config. change (config (this w3)) with cfg.
  rewrite Es. unfold writeFile. rewrite bind_run.
  cbn [validateString mret M_ret].
  rewrite (fs_writeFile_child cwd D "./schema.js" "schema.js" _ here w3);
    [|assumption|assumption|discriminate|reflexivity
     |rewrite <- Hloc; now apply (locate_dot_child cwd D "schema.js")
     |assumption
     |cbn [files w3 w2 w1 set_files];
      rewrite !lookup_insert_ne by distinct_locations; apply Hchild].
  set (w4 := set_files _ w3).
  assert (T4 : tree (files w4)).
  { apply tree_insert; [assumption| |].
    - cbn [files w3 w2 w1 set_files].
      rewrite !lookup_insert_ne by distinct_locations. apply Hchild.
    - cbn [holds]. now apply bool_decide_eq_true_2. }
  assert (H4 : files w4 !! here = Some Dir).
  { cbn [files w4 set_files]. now rewrite lookup_insert_ne by distinct_locations. }
  (* the generated code directory *)
  rewrite bind_this_config. change (config (this w4)) with cfg.
  rewrite Eg, bind_run. cbn [validateString mret M_ret]. rewrite bind_run.
  rewrite (fs_mkdir_child cwd D "./generated" "generated" here w4);
    [|assumption|assumption|discriminate|reflexivity
     |rewrite <- Hloc; now apply (locate_dot_child cwd D "generated")
     |assumption
     |cbn [files w4 w3 w2 w1 set_files];
      rewrite !lookup_insert_ne by distinct_locations; apply Hchild].
  set (w5 := set_files _ w4).
  (* the first package.json *)
  rewrite bind_run. unfold createDatabaseConfigPackageJsonFile at 1.
  rewrite bind_this_config. change (config (this w5)) with cfg.
  rewrite ED, bind_run. cbn [validateString mret M_ret].
  reflexivity.
Qed.

(** X14. What [init] leaves behind in a project that is ready for it: a
    tree of files with a manifest, a module type that is known, a
    relative directory argument (or none) that names a directory which
    is not there in one that is, and with the examples option no
    [index.js] next to it. [init] makes the directory, writes
    [config.js], [functions.js] and [schema.js] from the templates,
    makes the generated code directory, and throws the TypeError of the
    missing [packageJsonTemplate]: nothing else is written, nothing is
    printed, no module is run. *)
Theorem init_leaves_partial_scaffold (filepath : option string)
        (options : value) (w w1 : world) (cfg : obj)
        (name : string) (parent : list string) :
  let D := getDatabaseConfigDirectory cwd filepath in
  let here := name :: parent in
  let examples := prop options "examples" in
  tree (files w) ->
  path.isAbsolute (default "./database" filepath) = false ->
  locate cwd D = here ->
  files w !! parent = Some Dir ->
  files w !! here = None ->
  mergeConfig cwd JSON_parse evaluate filepath options w = (Ok cfg, w1) ->
  truthy (get cfg "moduleType") = true ->
  (exists n, stat_path cwd (files w) "./package.json" = inr n) ->
  (truthy examples = true ->
   stat_path cwd (files w) (path.join (path.dirname D) "index.js") = inl ENOENT) ->
  exists w',
    init cwd JSON_parse evaluate path_relative T filepath options w
    = (Throw (TypeError "templates.packageJsonTemplate is not a function"), w')
    /\ files w'
       = <["generated" :: here := Dir]>
         (<["schema.js" :: here :=
              File (if truthy examples then examples_schemaFileTemplate T
                    else schemaFileTemplate T)]>
         (<["functions.js" :: here :=
              File (if truthy examples then examples_functionFileTemplate T
                    else functionFileTemplate T)]>
         (<["config.js" :: here := File (configFileTemplate T (get cfg "moduleType"))]>
         (<[here := Dir]> (files w)))))
    /\ calls w' = calls w
    /\ console w' = console w
    /\ config (this w') = cfg.
Proof.
  intros D here examples Htree Hrel Hloc Hparent Hnone Hm Hmt [n Hpkg] Hidx.
  assert (Hnone' : files w !! locate cwd D = None) by now rewrite Hloc.
  destruct (fresh_config filepath options w w1 cfg Htree Hnone' Hm)
    as (-> & Hex & Hlayout).
  fold D in Hlayout. fold examples in Hex.
  pose proof Hlayout as (ED & _).
  rewrite init_run, Hm. cbv zeta.
  rewrite (validateConfig_merged cwd JSON_parse evaluate filepath options w w cfg Hm),
    Hmt.
  rewrite exists_run. change (files (set_config cfg w)) with (files w).
  rewrite Hpkg.
  rewrite (createDefaultFiles_run cwd path_relative T D) by exact ED.
  rewrite exists_run. change (files (set_config cfg w)) with (files w).
  assert (HD : stat_path cwd (files w) D = inl ENOENT).
  { apply stat_path_ENOENT.
    - apply forward_getDatabaseConfigDirectory; [assumption|now left].
    - unfold stat. rewrite Hloc, Hnone. unfold here. cbn [under_file].
      rewrite Hparent, tree_no_file_above; [reflexivity|assumption|].
      rewrite Hparent. eauto. }
  rewrite HD.
  change (config (this (set_config cfg w))) with cfg. rewrite Hex.
  assert (Hchecked :
            (if truthy examples
             then exists_ cwd (path.join (path.dirname D) "index.js")
                          (set_config cfg w)
             else (Ok false, set_config cfg w))
            = (Ok false, set_config cfg w)).
  { destruct (truthy examples) eqn:E; [|reflexivity].
    rewrite exists_run. change (files (set_config cfg w)) with (files w).
    now rewrite Hidx. }
  rewrite Hchecked.
  assert (Hjoin : D = path.join cwd (default "./database" filepath)).
  { unfold D, getDatabaseConfigDirectory. now rewrite Hrel. }
  rewrite Hjoin.
  rewrite (scaffold_partial cwd (default "./database" filepath) name _ parent
             (set_config cfg w));
    try (rewrite <- Hjoin); try assumption.
  change (config (this (set_config cfg w))) with cfg. rewrite Hex.
  eexists. split; [reflexivity|]. now repeat split.
Qed.

End PartialScaffold.

(** * Where the example [index.js] goes *)

Lemma isAbsolute_dirname (p : string) :
  path.isAbsolute p = true -> path.isAbsolute (path.dirname p) = true.
Proof.
  destruct p as [|c0 rest]; [discriminate|]. cbn [path.isAbsolute path.dirname].
  intros H. rewrite H.
  destruct (path.dropwhile _ (path.dropwhile _ _)) as [|? [|]];
    cbn [path.isAbsolute]; (reflexivity || exact H).
Qed.

Section Index.

Variable cwd : string.
Hypothesis cwd_absolute : path.isAbsolute cwd = true.

(** X24. With the examples option, [createDefaultFiles] checks and would
    write [path.join(path.dirname(D), 'index.js')] for the database
    config directory [D]. For a directory argument that is relative or
    omitted this is an absolute path that names the entry [index.js] of
    the directory which holds the database config directory: the file
    goes next to that directory, not into it. *)
Theorem index_location (filepath : option string) :
  path.isAbsolute (default "./database" filepath) = false ->
  let D := getDatabaseConfigDirectory cwd filepath in
  let exampleIndexFilepath := path.join (path.dirname D) "index.js" in
  path.isAbsolute exampleIndexFilepath = true
  /\ locate cwd exampleIndexFilepath = "index.js" :: tail (locate cwd D).
Proof.
  intros Hrel D idx.
  assert (HD : path.isAbsolute (path.dirname D) = true)
    by apply isAbsolute_dirname, (getDatabaseConfigDirectory_absolute cwd cwd_absolute).
  split; [now apply locate_facts.isAbsolute_join|].
  unfold idx. rewrite locate_child; [|exact HD|reflexivity].
  f_equal. subst D. unfold getDatabaseConfigDirectory. rewrite Hrel.
  now apply dirname_facts.locate_dirname_join.
Qed.

End Index.

(** * [cleanup] *)

Section CleanupFacts.

Variable cwd : string.
Variable JSON_parse : string -> option value.
Variable evaluate : string -> option obj.
Variable run : list call -> call -> gmap (list string) node
               -> option (gmap (list string) node).
Variable fs_rm : string -> M unit.

Lemma cleanup_run (w : world) :
  cleanup fs_rm w
  = match get (config (this w)) "generatedCodeDirectory" with
    | VStr g =>
        match fs_rm g w with
        | (Ok _, w') => (Ok tt, w')
        | (Throw _, w') =>
            (Throw (TypeError "Cannot read properties of undefined (reading 'warn')"),
             w')
        end
    | _ =>
        (Throw (TypeError "Cannot read properties of undefined (reading 'warn')"), w)
    end.
Proof.
  unfold cleanup, try_catch. rewrite bind_this_config.
  destruct (get (config (this w)) "generatedCodeDirectory"); try reflexivity.
  rewrite bind_run. cbn [validateString mret M_ret].
  now destruct (fs_rm s w) as [[[]|e] w'].
Qed.

(** X15. [cleanup] does not swallow an error of [fs.rm]: its handler
    reads [this.logger], which the class never defines, so whatever goes
    wrong comes out as the TypeError of that read. It returns exactly
    when the configured directory is a string and [fs.rm] returns on
    it. *)
Theorem cleanup_throws_TypeError (w : world) :
  (forall e w',
      cleanup fs_rm w = (Throw e, w') ->
      e = TypeError "Cannot read properties of undefined (reading 'warn')")
  /\ (is_Ok (cleanup fs_rm w) = true
      <-> exists g, get (config (this w)) "generatedCodeDirectory" = VStr g
                    /\ is_Ok (fs_rm g w) = true).
Proof.
  rewrite cleanup_run. split.
  - intros e w'.
    destruct (get (config (this w)) "generatedCodeDirectory");
      try (now intros [= <- _]).
    destruct (fs_rm s w) as [[[]|e0] w0]; [discriminate|now intros [= <- _]].
  - destruct (get (config (this w)) "generatedCodeDirectory") as [| | | |g| |];
      try (split; [discriminate|now intros (g & Hg & _)]).
    unfold is_Ok. destruct (fs_rm g w) as [[[]|e0] w0] eqn:E; cbn [fst].
    + split; [intros _; exists g; now rewrite E|reflexivity].
    + split; [discriminate|]. intros (g' & [= <-] & H). now rewrite E in H.
Qed.

(** X16. Before [init] or [build] has resolved a configuration, the
    generated code directory of a helper is the default [./generated],
    which [cleanup] hands to [fs.rm] as it is: a path relative to the
    working directory, not one inside a database directory. *)
Theorem cleanup_before_init (options : obj) (w : world) :
  options !! "generatedCodeDirectory" = None ->
  this w = constructor options ->
  (cleanup fs_rm w).2 = (fs_rm "./generated" w).2
  /\ is_Ok (cleanup fs_rm w) = is_Ok (fs_rm "./generated" w).
Proof.
  intros Hopt Hthis. rewrite cleanup_run, Hthis. cbn [constructor config].
  unfold get. rewrite lookup_union, Hopt.
  change (defaultConfig !! "generatedCodeDirectory")
    with (Some (VStr "./generated")).
  change (default VUndefined (None ∪ Some (VStr "./generated")))
    with (VStr "./generated").
  unfold is_Ok. now destruct (fs_rm "./generated" w) as [[[]|e] w'].
Qed.

Lemma build_keeps_config (filepath : option string) (options : value)
      (w w1 : world) (cfg : obj) :
  mergeConfig cwd JSON_parse evaluate filepath options w = (Ok cfg, w1) ->
  config (this (build cwd JSON_parse evaluate run filepath options w).2) = cfg.
Proof.
  intros H. unfold build. rewrite bind_run, H, bind_run. cbn [update].
  match goal with
  | |- config (this (?k ?w).2) = _ =>
      assert (Hst : stable this k); [|now rewrite Hst]
  end.
  unfold getSchemaDefinitions.
  pose proof (stable_this_buildSchema run).
  stable_auto.
Qed.

(** X17. After a [build], however it ended once the configuration was
    resolved, [cleanup] works on the generated code directory of that
    configuration: the configured one, resolved against the database
    config directory. *)
Theorem cleanup_after_build (filepath : option string) (options : value)
        (w w1 : world) (cfg : obj) :
  mergeConfig cwd JSON_parse evaluate filepath options w = (Ok cfg, w1) ->
  let userConfig := userConfig_in cwd evaluate filepath w in
  let w' := (build cwd JSON_parse evaluate run filepath options w).2 in
  exists g,
    resolve (getDatabaseConfigDirectory cwd filepath)
            (configured userConfig "generatedCodeDirectory") "./generated"
    = Some g
    /\ (cleanup fs_rm w').2 = (fs_rm g w').2
    /\ is_Ok (cleanup fs_rm w') = is_Ok (fs_rm g w').
Proof.
  intros H userConfig w'.
  pose proof (build_keeps_config filepath options w w1 cfg H) as Hcfg.
  fold w' in Hcfg.
  apply mergeConfig_Ok in H as (f & s & c & p & g & _ & _ & _ & _ & Hg & Heq).
  exists g. split.
  { unfold userConfig. now rewrite <- get_union_configured. }
  assert (Hget : get cfg "generatedCodeDirectory" = VStr g).
  { apply get_lookup. rewrite Heq.
    rewrite lookup_with_moduleType, lookup_with_package by done. lookup_paths. }
  rewrite cleanup_run, Hcfg, Hget. unfold is_Ok.
  now destruct (fs_rm g w') as [[[]|e] w2].
Qed.

End CleanupFacts.

(** * The errors that can come out *)

Create HintDb raises discriminated.

Section Raises.

Variable P : error -> Prop.

Lemma raises_ret {A} (a : A) : raises P (mret a).
Proof. intros w e w' H. discriminate H. Qed.

Lemma raises_throw {A} (e : error) : P e -> raises P (@throw A e).
Proof. intros He w e' w' [= <- _]. exact He. Qed.

Lemma raises_bind {A B} (m : M A) (k : A -> M B) :
  raises P m -> (forall a, raises P (k a)) -> raises P (m ≫= k).
Proof.
  intros Hm Hk w e w'. rewrite bind_run.
  destruct (m w) as [[a|e0] w1] eqn:E.
  - apply Hk.
  - intros [= <- <-]. exact (Hm _ _ _ E).
Qed.

Lemma raises_try_catch {A} (m : M A) (handler : error -> M A) :
  (forall e, raises P (handler e)) -> raises P (try_catch m handler).
Proof.
  intros Hh w e w'. unfold try_catch.
  destruct (m w) as [[a|e0] w1]; [discriminate|apply Hh].
Qed.

Lemma raises_if {A} (b : bool) (m1 m2 : M A) :
  raises P m1 -> raises P m2 -> raises P (if b then m1 else m2).
Proof. now destruct b. Qed.

Lemma raises_read_world : raises P read_world.
Proof. intros w e w' H. discriminate H. Qed.

Lemma raises_update (f : world -> world) : raises P (update f).
Proof. intros w e w' H. discriminate H. Qed.

Lemma raises_this_config (k : string) : raises P (this_config k).
Proof. intros w e w' H. discriminate H. Qed.

Lemma raises_console_log (s : string) : raises P (console_log s).
Proof. intros w e w' H. discriminate H. Qed.

Hypothesis P_TypeError : forall msg, msg <> "Cannot read properties of undefined (reading 'examples')" -> P (TypeError msg).
Hypothesis P_SystemError : forall code syscall p, P (SystemError code syscall p).
Hypothesis P_Error : forall msg, P (Error msg).

Lemma raises_validateString (v : value) : raises P (validateString v).
Proof.
  intros w e w'. destruct v; cbn; intros [= <- _]; now apply P_TypeError.
Qed.

Lemma raises_fs_access (cwd p : string) : raises P (fs_access cwd p).
Proof.
  intros w e w'. unfold fs_access.
  destruct (stat_path _ _ _); intros [= <- _]; apply P_SystemError.
Qed.

Lemma raises_exists (cwd p : string) : raises P (exists_ cwd p).
Proof.
  intros w e w'. rewrite exists_run.
  destruct (stat_path _ _ _) as [[]|]; intros [= <- _]; apply P_SystemError.
Qed.

Lemma raises_fs_writeFile (cwd p c : string) : raises P (fs_writeFile cwd p c).
Proof.
  intros w e w'. unfold fs_writeFile.
  destruct (resolve_path _ _ _) as [|l]; [intros [= <- _]; apply P_SystemError|].
  destruct (files w !! l) as [[]|]; try (intros [= <- _]; apply P_SystemError).
  destruct (holds _ _); intros [= <- _]; apply P_SystemError.
Qed.

Lemma raises_fs_mkdir (cwd p : string) : raises P (fs_mkdir cwd p).
Proof.
  intros w e w'. unfold fs_mkdir.
  destruct (String.eqb p ""); [intros [= <- _]; apply P_SystemError|].
  destruct (walk _ _ _) as [|l]; [intros [= <- _]; apply P_SystemError|].
  destruct (files w !! l); [intros [= <- _]; apply P_SystemError|].
  destruct (holds _ _); intros [= <- _]; apply P_SystemError.
Qed.

Lemma raises_fs_mkdir_recursive (cwd p : string) :
  raises P (fs_mkdir_recursive cwd p).
Proof.
  intros w e w'. unfold fs_mkdir_recursive.
  destruct (String.eqb p ""); [intros [= <- _]; apply P_SystemError|].
  destruct (mkdirp _ _ _) as [[] ?]; intros [= <- _]; apply P_SystemError.
Qed.

Lemma raises_validateConfig (c : obj) : raises P (validateConfig c).
Proof.
  intros w e w'. unfold validateConfig.
  destruct (_ <? _)%nat; intros [= <- _]; apply P_Error.
Qed.

End Raises.

#[export] Hint Resolve raises_ret raises_read_world raises_update
  raises_this_config raises_console_log raises_validateString
  raises_fs_access raises_exists raises_fs_writeFile raises_fs_mkdir
  raises_fs_mkdir_recursive raises_validateConfig : raises.

Ltac raises_step :=
  first
    [ solve [auto with raises]
    | apply raises_throw; solve [auto]
    | apply raises_throw;
      match goal with
      | H : forall msg, _ -> ?P (TypeError msg) |- ?P (TypeError _) =>
          apply H; discriminate
      end
    | apply raises_bind; [|intros ?]
    | apply raises_try_catch; intros ?
    | apply raises_if
    | match goal with
      | |- raises _ (match ?x with _ => _ end) => destruct x
      end ].

Ltac raises_auto := repeat raises_step.

Section InitErrors.

Variable cwd : string.
Variable JSON_parse : string -> option value.
Variable evaluate : string -> option obj.
Variable path_relative : string -> string -> string.
Variable T : templates.

Variable P : error -> Prop.
Hypothesis P_TypeError : forall msg, msg <> "Cannot read properties of undefined (reading 'examples')" -> P (TypeError msg).
Hypothesis P_SystemError : forall code syscall p, P (SystemError code syscall p).
Hypothesis P_Error : forall msg, P (Error msg).

Lemma raises_mergeConfig (filepath : option string) (options : value) :
  options <> VUndefined -> options <> VNull ->
  raises P (mergeConfig cwd JSON_parse evaluate filepath options).
Proof.
  intros Hu Hn w e w'. rewrite mergeConfig_run. cbv zeta.
  destruct options; try congruence;
    (destruct (merged_config _ _ _ _ _ _); intros [= <- _];
     now apply P_TypeError).
Qed.

Lemma raises_createDefaultFiles :
  raises P (createDefaultFiles cwd path_relative T).
Proof.
  unfold createDefaultFiles, createConfigFile, createFunctionsFile,
    createSchemaFile, createDatabaseConfigPackageJsonFile,
    createGeneratedPackageJsonFile, packageJsonTemplate,
    createExampleIndexFile, writeFile.
  raises_auto.
Qed.

Lemma raises_init (filepath : option string) (options : value) :
  options <> VUndefined -> options <> VNull ->
  raises P (init cwd JSON_parse evaluate path_relative T filepath options).
Proof.
  intros Hu Hn. unfold init.
  apply raises_bind; [now apply raises_mergeConfig|intros cfg].
  pose proof raises_createDefaultFiles.
  raises_auto.
Qed.

End InitErrors.

Section BuildErrors.

Variable cwd : string.
Variable JSON_parse : string -> option value.
Variable evaluate : string -> option obj.
Variable run : list call -> call -> gmap (list string) node
               -> option (gmap (list string) node).

Variable P : error -> Prop.
Hypothesis P_TypeError : forall msg, msg <> "Cannot read properties of undefined (reading 'examples')" -> P (TypeError msg).
Hypothesis P_SystemError : forall code syscall p, P (SystemError code syscall p).
Hypothesis P_Error : forall msg, P (Error msg).
Hypothesis P_Thrown : forall c, P (Thrown c).

Lemma raises_import (p : string) : raises P (import_module cwd evaluate p).
Proof.
  intros w e w'. unfold import_module.
  destruct (stat _ _) as [|[]]; try (intros [= <- _]; apply P_Error).
  destruct (evaluate _); intros [= <- _]. apply P_Thrown.
Qed.

Lemma raises_external (c : call) : raises P (external run c).
Proof.
  intros w e w'. unfold external.
  destruct (run _ _ _); intros [= <- _]. apply P_Thrown.
Qed.

Lemma raises_build (filepath : option string) (options : value) :
  options <> VUndefined -> options <> VNull ->
  raises P (build cwd JSON_parse evaluate run filepath options).
Proof.
  intros Hu Hn. unfold build.
  apply raises_bind; [now apply raises_mergeConfig|intros cfg].
  unfold getSchemaDefinitions, buildSchema, call_export.
  pose proof raises_import. pose proof raises_external.
  repeat first
    [ raises_step
    | apply raises_throw, P_TypeError; discriminate ].
Qed.

End BuildErrors.

(** * The command line *)

Section CommandLineFacts.

Variable cwd : string.
Variable JSON_parse : string -> option value.
Variable evaluate : string -> option obj.
Variable run : list call -> call -> gmap (list string) node
               -> option (gmap (list string) node).
Variable path_relative : string -> string -> string.
Variable T : templates.

(** X18. Without a command, with the command [help], or with the help
    flag set, whatever else is on the command line, the script prints
    the usage text and exits with status 0: no helper is made, nothing is
    initialised or built, no file is touched. *)
Theorem cli_help (flags : obj) (positional : list string) (w : world) :
  head positional = None \/ head positional = Some ""
  \/ head positional = Some "help" \/ truthy (get flags "help") = true ->
  cli cwd JSON_parse evaluate run path_relative T flags positional w
  = (Ok (Exit 0), add_console help w).
Proof.
  intros H. unfold cli.
  assert (Hb : negb (truthy (from_option VStr VUndefined (head positional)))
               || bool_decide (head positional = Some "help")
               || truthy (get flags "help") = true).
  { destruct H as [-> | [-> | [-> | ->]]]; try reflexivity.
    apply orb_true_r. }
  now rewrite Hb.
Qed.

(** X19. A command other than [init], [build] and [help] is ignored in
    silence: the script makes a helper and ends, with nothing printed,
    nothing thrown and no file touched. *)
Theorem cli_unknown_command (flags : obj) (cmd : string)
        (args : list string) (w : world) :
  cmd <> "" -> cmd <> "help" -> cmd <> "init" -> cmd <> "build" ->
  truthy (get flags "help") = false ->
  cli cwd JSON_parse evaluate run path_relative T flags (cmd :: args) w
  = (Ok Finished, set_this (constructor ∅) w).
Proof.
  intros H1 H2 H3 H4 Hh. unfold cli. cbn [head tail from_option truthy].
  rewrite Hh.
  rewrite (proj2 (String.eqb_neq cmd "")) by assumption.
  rewrite !bool_decide_eq_false_2 by congruence.
  reflexivity.
Qed.

(** The script on [init] and on [build]. *)
Lemma cli_init_run (flags : obj) (args : list string) (w : world) :
  truthy (get flags "help") = false ->
  cli cwd JSON_parse evaluate run path_relative T flags ("init" :: args) w
  = match init cwd JSON_parse evaluate path_relative T (head args)
               (VObj (<["_" := array (tail args)]> flags))
               (set_this (constructor ∅) w) with
    | (Ok dependenciesNeeded, w') =>
        (Ok Finished,
         match dependenciesNeeded with
         | [] => w'
         | _ :: _ => add_console (install_message dependenciesNeeded) w'
         end)
    | (Throw e, w') => (Throw e, w')
    end.
Proof.
  intros Hh. unfold cli. cbn [head tail from_option truthy].
  rewrite Hh. cbn [negb orb String.eqb Ascii.eqb Bool.eqb].
  rewrite bool_decide_eq_false_2 by discriminate. cbn [orb].
  rewrite bind_update, bool_decide_eq_true_2 by reflexivity.
  rewrite bind_run.
  destruct (init _ _ _ _ _ _ _ _) as [[deps|e] w']; [|reflexivity].
  now destruct deps.
Qed.

Lemma cli_build_run (flags : obj) (args : list string) (w : world) :
  truthy (get flags "help") = false ->
  cli cwd JSON_parse evaluate run path_relative T flags ("build" :: args) w
  = match build cwd JSON_parse evaluate run (head args)
                (VObj (<["_" := array (tail args)]> flags))
                (set_this (constructor ∅) w) with
    | (Ok _, w') => (Ok Finished, w')
    | (Throw e, w') => (Throw e, w')
    end.
Proof.
  intros Hh. unfold cli. cbn [head tail from_option truthy].
  rewrite Hh. cbn [negb orb String.eqb Ascii.eqb Bool.eqb].
  rewrite bool_decide_eq_false_2 by discriminate. cbn [orb].
  rewrite bind_update, bool_decide_eq_false_2 by discriminate.
  rewrite bool_decide_eq_true_2 by reflexivity.
  rewrite bind_run.
  now destruct (build _ _ _ _ _ _ _) as [[[]|e] w'].
Qed.

(** X20. From the command line the options are always there: the script
    hands the flags object to [init] and [build], so whatever it throws,
    it is never the TypeError of a missing options argument. *)
Theorem cli_passes_options (flags : obj) (positional : list string)
        (w w' : world) (e : error) :
  cli cwd JSON_parse evaluate run path_relative T flags positional w
  = (Throw e, w') ->
  e <> TypeError "Cannot read properties of undefined (reading 'examples')".
Proof.
  set (P := fun e : error =>
              e <> TypeError "Cannot read properties of undefined (reading 'examples')").
  assert (P1 : forall msg,
             msg <> "Cannot read properties of undefined (reading 'examples')" ->
             P (TypeError msg)) by (intros msg Hm; unfold P; congruence).
  assert (P2 : forall code syscall p, P (SystemError code syscall p))
    by (intros; unfold P; discriminate).
  assert (P3 : forall msg, P (Error msg)) by (intros; unfold P; discriminate).
  assert (P4 : forall c, P (Thrown c)) by (intros; unfold P; discriminate).
  revert w e w'. change (raises P (cli cwd JSON_parse evaluate run path_relative T
                                       flags positional)).
  unfold cli.
  pose proof (fun filepath o =>
                raises_init cwd JSON_parse evaluate path_relative T P P1 P2 P3
                            filepath (VObj o)) as Hinit.
  pose proof (fun filepath o =>
                raises_build cwd JSON_parse evaluate run P P1 P2 P3 P4
                             filepath (VObj o)) as Hbuild.
  repeat first
    [ raises_step
    | apply Hinit; discriminate
    | apply Hbuild; discriminate ].
Qed.

End CommandLineFacts.

(** * From the command line to the end of [init] *)

Section StableConsole.

Variable cwd : string.

Lemma stable_console_set_config (c : obj) : stable console (update (set_config c)).
Proof. now intros w. Qed.

Lemma stable_console_import (evaluate : string -> option obj) (p : string) :
  stable console (import_module cwd evaluate p).
Proof.
  intros w. unfold import_module.
  destruct (stat _ _) as [|[]]; try reflexivity. now destruct (evaluate _).
Qed.

Lemma stable_console_writeFile (p c : string) :
  stable console (fs_writeFile cwd p c).
Proof.
  intros w. unfold fs_writeFile.
  destruct (resolve_path _ _ _) as [|l]; [reflexivity|].
  destruct (files w !! l) as [[]|]; try reflexivity.
  now destruct (holds _ _).
Qed.

Lemma stable_console_mkdir (p : string) : stable console (fs_mkdir cwd p).
Proof.
  intros w. unfold fs_mkdir.
  destruct (String.eqb p ""); [reflexivity|].
  destruct (walk _ _ _) as [|l]; [reflexivity|].
  destruct (files w !! l); [reflexivity|]. now destruct (holds _ _).
Qed.

Lemma stable_console_mkdir_recursive (p : string) :
  stable console (fs_mkdir_recursive cwd p).
Proof.
  intros w. unfold fs_mkdir_recursive.
  destruct (String.eqb p ""); [reflexivity|].
  now destruct (mkdirp _ _ _) as [[] ?].
Qed.

End StableConsole.

(** A computation that never returns decides alone what is left. *)
Lemma stable_bind_fails {X A B} (f : world -> X) (m : M A) (k : A -> M B) :
  fails m -> stable f m -> stable f (m ≫= k).
Proof.
  intros Hf Hs w. rewrite bind_run. specialize (Hs w).
  destruct (Hf w) as (e & w' & E). rewrite E in Hs |- *. exact Hs.
Qed.

Section EndToEnd.

Variable cwd : string.
Variable JSON_parse : string -> option value.
Variable evaluate : string -> option obj.
Variable run : list call -> call -> gmap (list string) node
               -> option (gmap (list string) node).
Variable path_relative : string -> string -> string.
Variable T : templates.

(** X21. Whatever [init] throws is an error of the class or of the file
    system: what goes wrong inside the config module or while the
    manifest is parsed never comes out of [init]. *)
Theorem init_errors_are_own (filepath : option string) (options : value)
        (w w' : world) (e : error) :
  init cwd JSON_parse evaluate path_relative T filepath options w
  = (Throw e, w') ->
  own_error e.
Proof.
  assert (Hother : options <> VUndefined -> options <> VNull ->
            raises own_error
              (init cwd JSON_parse evaluate path_relative T filepath options)).
  { intros Hu Hn.
    apply raises_init; try assumption; intros; exact I. }
  destruct options; try (apply Hother; discriminate);
    rewrite init_run, mergeConfig_run; cbv zeta; now intros [= <- _].
Qed.

Lemma stable_console_mergeConfig (filepath : option string) (options : value) :
  stable console (mergeConfig cwd JSON_parse evaluate filepath options).
Proof.
  pose proof (stable_console_import cwd evaluate).
  unfold mergeConfig, getConfig. stable_auto.
Qed.

Lemma stable_console_createDefaultFiles :
  stable console (createDefaultFiles cwd path_relative T).
Proof.
  pose proof (stable_console_writeFile cwd).
  pose proof (stable_console_mkdir cwd).
  pose proof (stable_console_mkdir_recursive cwd).
  unfold createDefaultFiles, createConfigFile, createFunctionsFile,
    createSchemaFile, writeFile.
  do 13 (apply stable_bind; [stable_auto|intros ?]).
  apply stable_bind_fails; [apply createDatabaseConfigPackageJsonFile_fails|].
  unfold createDatabaseConfigPackageJsonFile, packageJsonTemplate.
  do 2 (apply stable_bind; [stable_auto|intros ?]).
  apply stable_bind_fails; [apply fails_throw|apply stable_throw].
Qed.

(** What [init] prints: nothing, or the advice to create a manifest. *)
Lemma init_console (filepath : option string) (options : value) (w : world) :
  let w' := (init cwd JSON_parse evaluate path_relative T filepath options w).2 in
  console w' = console w
  \/ console w' = (console w ++ [package_json_help])%list.
Proof.
  intros w'. subst w'. rewrite init_run.
  pose proof (stable_console_mergeConfig filepath options w) as Hm.
  destruct (mergeConfig cwd JSON_parse evaluate filepath options w)
    as [[cfg|e] w1]; cbn [snd] in Hm; [|now left].
  cbv zeta.
  destruct (validateConfig cfg (set_config cfg w1)) as [[[]|e] w2]; [|now left].
  destruct (exists_ cwd "./package.json" (set_config cfg w1))
    as [[[]|e] w3]; [|right; cbn; now rewrite Hm|now left].
  pose proof (stable_console_createDefaultFiles (set_config cfg w1)) as Hc.
  destruct (createDefaultFiles cwd path_relative T (set_config cfg w1))
    as [[[]|e] w4]; cbn [snd] in Hc |- *; left; now rewrite Hc.
Qed.

(** X22. [hyperdb-helper init [dir]] never runs to its end: it throws,
    having printed at most the advice to create a [package.json]; the
    instruction to install the missing dependencies is never printed. *)
Theorem cli_init_throws (flags : obj) (args : list string) (w : world) :
  truthy (get flags "help") = false ->
  exists e w',
    cli cwd JSON_parse evaluate run path_relative T flags ("init" :: args) w
    = (Throw e, w')
    /\ (console w' = console w
        \/ console w' = (console w ++ [package_json_help])%list).
Proof.
  intros Hhelp. rewrite cli_init_run by exact Hhelp.
  set (options := VObj (<["_" := array (tail args)]> flags)).
  set (w0 := set_this (constructor ∅) w).
  pose proof (init_console (head args) options w0) as Hc. cbv zeta in Hc.
  destruct (init_fails cwd JSON_parse evaluate path_relative T
              (head args) options w0) as (e & w' & E).
  rewrite E in Hc |- *. now exists e, w'.
Qed.

End EndToEnd.

(** * The sample project, once more *)

(** Splitting a run of the sample into its outcome, once the outcome is
    known to be an error. *)
Ltac throws_as e w' E :=
  match goal with
  | Hok : is_Ok ?run = false |- _ =>
      let r := fresh "r" in
      remember run as r eqn:E in *;
      destruct r as [[?|e] w']; [discriminate Hok|];
      symmetry in E; clear Hok
  end.

(** In the sample project the module type of the user configuration
    gives way to the one the manifest decides. *)
Lemma moduleType_from_manifest_witness :
  exists cfg w',
    mergeConfig sample.cwd sample.JSON_parse sample.evaluate
                None (sample.flags false)
                (sample.start (sample.project_with sample.config_with_moduleType))
    = (Ok cfg, w')
    /\ cfg !! "moduleType" = Some (VStr "commonjs").
Proof.
  assert (Hok : is_Ok (mergeConfig sample.cwd sample.JSON_parse sample.evaluate
                         None (sample.flags false)
                         (sample.start
                            (sample.project_with sample.config_with_moduleType)))
                = true)
    by (vm_compute; reflexivity).
  assert (Hpkg : get (returned ∅ (mergeConfig sample.cwd sample.JSON_parse
                                    sample.evaluate None (sample.flags false)
                                    (sample.start
                                       (sample.project_with
                                          sample.config_with_moduleType))))
                     "package" = VObj ∅)
    by (vm_compute; reflexivity).
  returns_as cfg w' E. change (get cfg "package" = VObj ∅) in Hpkg.
  exists cfg, w'. split; [reflexivity|].
  pose proof (moduleType_from_manifest sample.cwd sample.JSON_parse
                sample.evaluate None (sample.flags false) _ w' cfg E) as H.
  cbv zeta in H. rewrite Hpkg in H. exact H.
Defined.

(** With a manifest that is not JSON the sample project still resolves,
    to the module type [commonjs]. *)
Lemma unreadable_manifest_is_ignored_witness :
  let w := sample.start cases.broken_manifest in
  exists cfg w',
    mergeConfig sample.cwd sample.JSON_parse sample.evaluate
                None (sample.flags false) w = (Ok cfg, w')
    /\ cfg !! "package" = Some (VObj ∅)
    /\ cfg !! "moduleType" = Some (VStr "commonjs").
Proof.
  intros w.
  assert (Hok : is_Ok (mergeConfig sample.cwd sample.JSON_parse sample.evaluate
                         None (sample.flags false) w) = true)
    by (vm_compute; reflexivity).
  assert (Hfile : stat_path sample.cwd (files w)
                            (path.join sample.cwd "package.json")
                  = inr (File "{"))
    by (vm_compute; reflexivity).
  assert (Hu : userConfig_in sample.cwd sample.evaluate None w !! "package" = None)
    by (vm_compute; reflexivity).
  returns_as cfg w' E.
  exists cfg, w'. split; [reflexivity|].
  destruct (unreadable_manifest_is_ignored sample.cwd sample.JSON_parse
              sample.evaluate None (sample.flags false) w w' cfg "{"
              Hfile eq_refl E) as [_ H].
  exact (H Hu).
Defined.

(** The configuration of the sample project passes validation. *)
Lemma validateConfig_after_mergeConfig_witness :
  exists cfg w',
    mergeConfig sample.cwd sample.JSON_parse sample.evaluate
                None (sample.flags false) (sample.start sample.project)
    = (Ok cfg, w')
    /\ validateConfig cfg w' = (Ok tt, w').
Proof.
  assert (Hok : is_Ok (mergeConfig sample.cwd sample.JSON_parse sample.evaluate
                         None (sample.flags false)
                         (sample.start sample.project)) = true)
    by (vm_compute; reflexivity).
  assert (Hmt : truthy (get (returned ∅ (mergeConfig sample.cwd sample.JSON_parse
                                           sample.evaluate None (sample.flags false)
                                           (sample.start sample.project)))
                            "moduleType") = true)
    by (vm_compute; reflexivity).
  returns_as cfg w' E. change (truthy (get cfg "moduleType") = true) in Hmt.
  exists cfg, w'. split; [reflexivity|].
  rewrite (validateConfig_after_mergeConfig sample.cwd sample.JSON_parse
             sample.evaluate None (sample.flags false) _ w' cfg E w').
  now rewrite Hmt.
Defined.

(** With the sample builders, which leave the files alone, the manifest
    of the sample project is what it was after [build]. *)
Lemma build_writes_through_builders_witness :
  files (build sample.cwd sample.JSON_parse sample.evaluate sample.run
               None (sample.flags false)
               (sample.start (sample.project_with sample.config_with_moduleType))).2
  !! ["package.json"; "proj"] = Some (File "{}").
Proof.
  apply (build_writes_through_builders sample.cwd sample.JSON_parse
           sample.evaluate sample.run
           (fun fs => fs !! ["package.json"; "proj"] = Some (File "{}"))).
  - intros history c fs fs' [= <-] H. exact H.
  - vm_compute. reflexivity.
Defined.

(** [build] in the sample project with an empty database directory. *)
Lemma build_needs_schema_file_witness :
  let w := sample.start cases.empty_database in
  exists w',
    build sample.cwd sample.JSON_parse sample.evaluate sample.run
          None (sample.flags false) w
    = (Throw (Error "Cannot find module /proj/database/schema.js"), w')
    /\ files w' = files w.
Proof.
  intros w.
  assert (Hok : is_Ok (mergeConfig sample.cwd sample.JSON_parse sample.evaluate
                         None (sample.flags false) w) = true)
    by (vm_compute; reflexivity).
  assert (Hsf : get (returned ∅ (mergeConfig sample.cwd sample.JSON_parse
                                   sample.evaluate None (sample.flags false) w))
                    "schemaFilepath" = VStr "/proj/database/schema.js")
    by (vm_compute; reflexivity).
  assert (Hdir : exists n, stat_path sample.cwd (files w)
                             (getDatabaseConfigDirectory sample.cwd None) = inr n)
    by (eexists; vm_compute; reflexivity).
  assert (Hnone : files w !! locate sample.cwd "/proj/database/schema.js" = None)
    by (vm_compute; reflexivity).
  returns_as cfg w1 E.
  change (get cfg "schemaFilepath" = VStr "/proj/database/schema.js") in Hsf.
  destruct (build_needs_schema_file sample.cwd sample.JSON_parse sample.evaluate
              sample.run None (sample.flags false) w w1 cfg
              "/proj/database/schema.js" E Hdir Hsf)
    as (w' & Hbuild & _ & Hfiles).
  { intros source. rewrite Hnone. discriminate. }
  exists w'. split; [exact Hbuild|exact Hfiles].
Defined.

(** [build] in the sample project with a schema module that has
    [createSchema] only. *)
Lemma build_without_createDatabase_witness :
  let w := sample.start cases.half_schema in
  exists w',
    build sample.cwd sample.JSON_parse cases.evaluate sample.run
          None (sample.flags false) w
    = (Throw (TypeError "schemaModule.createDatabase is not a function"), w')
    /\ calls w'
       = [ Evaluate "/proj/database/schema.js";
           Hyperschema_from (VStr "/proj/database/generated/schemas");
           Module_createSchema "createSchema"
             (VStr "/proj/database/generated/schemas");
           Hyperschema_toDisk (VStr "/proj/database/generated/schemas");
           HyperDB_from (VStr "/proj/database/generated/schemas")
                        (VStr "/proj/database/generated/database") ].
Proof.
  intros w.
  assert (Hok : is_Ok (mergeConfig sample.cwd sample.JSON_parse cases.evaluate
                         None (sample.flags false) w) = true)
    by (vm_compute; reflexivity).
  assert (Hsf : get (returned ∅ (mergeConfig sample.cwd sample.JSON_parse
                                   cases.evaluate None (sample.flags false) w))
                    "schemaFilepath" = VStr "/proj/database/schema.js")
    by (vm_compute; reflexivity).
  assert (Hhs : get (returned ∅ (mergeConfig sample.cwd sample.JSON_parse
                                   cases.evaluate None (sample.flags false) w))
                    "hyperschemaDirectory"
                = VStr "/proj/database/generated/schemas")
    by (vm_compute; reflexivity).
  assert (Hdb : get (returned ∅ (mergeConfig sample.cwd sample.JSON_parse
                                   cases.evaluate None (sample.flags false) w))
                    "hyperdbDirectory"
                = VStr "/proj/database/generated/database")
    by (vm_compute; reflexivity).
  assert (Hcalls : calls (mergeConfig sample.cwd sample.JSON_parse
                            cases.evaluate None (sample.flags false) w).2 = [])
    by (vm_compute; reflexivity).
  assert (Hdir : exists n, stat_path sample.cwd (files w)
                             (getDatabaseConfigDirectory sample.cwd None) = inr n)
    by (eexists; vm_compute; reflexivity).
  assert (Hfile : files w !! locate sample.cwd "/proj/database/schema.js"
                  = Some (File cases.schema_only))
    by (vm_compute; reflexivity).
  returns_as cfg w1 E.
  change (get cfg "schemaFilepath" = VStr "/proj/database/schema.js") in Hsf.
  change (get cfg "hyperschemaDirectory"
          = VStr "/proj/database/generated/schemas") in Hhs.
  change (get cfg "hyperdbDirectory"
          = VStr "/proj/database/generated/database") in Hdb.
  change (calls w1 = []) in Hcalls.
  destruct (build_without_createDatabase sample.cwd sample.JSON_parse
              cases.evaluate sample.run None (sample.flags false) w w1 cfg
              "/proj/database/schema.js" cases.schema_only "createSchema"
              {[ "createSchema" := VFun "createSchema" ]} (files w)
              E Hdir Hsf Hfile eq_refl eq_refl)
    as (w' & Hbuild & Hlog & _).
  { intros f. discriminate. }
  { reflexivity. }
  exists w'. split; [exact Hbuild|].
  rewrite Hlog, Hcalls, Hhs, Hdb. reflexivity.
Defined.

(** The files of the sample project with a database directory form a
    tree. *)
Lemma sample_project_with_tree (source : string) :
  tree (sample.project_with source).
Proof. apply tree_check_sound. vm_compute. reflexivity. Defined.

(** [init] in the sample project when its database directory holds a
    config module. *)
Lemma init_refuses_without_dotdot_witness :
  let w := sample.start (sample.project_with sample.config_with_moduleType) in
  is_Some (files w !! ["config.js"; "database"; "proj"])
  /\ exists e w',
      init sample.cwd sample.JSON_parse sample.evaluate sample.path_relative
           sample.T None (sample.flags false) w = (Throw e, w')
      /\ files w' = files w.
Proof.
  intros w.
  assert (H : is_Some (files w !! (["config.js"]
                                     ++ locate sample.cwd
                                          (getDatabaseConfigDirectory sample.cwd None))%list))
    by (eexists; vm_compute; reflexivity).
  split; [eexists; vm_compute; reflexivity|].
  exact (init_refuses_without_dotdot sample.cwd sample.JSON_parse
           sample.evaluate sample.path_relative sample.T None
           (sample.flags false) w ["config.js"] eq_refl
           (sample_project_with_tree _) (or_introl eq_refl) H).
Defined.

(** The check on [/proj/missing/../database] in the sample project,
    whose directory [/proj/database] is there. *)
Lemma missing_component_hides_witness :
  let w := sample.start (sample.project_with sample.config_with_moduleType) in
  files w !! ["database"; "proj"] = Some Dir
  /\ exists_ sample.cwd "/proj/missing/../database" w = (Ok false, w)
  /\ path.join "/proj/missing/../database" "config.js"
     = path.join "/proj/database" "config.js".
Proof.
  intros w.
  split; [vm_compute; reflexivity|].
  exact (missing_component_hides sample.cwd "/proj" "missing" "database"
           "config.js" w ["proj"] eq_refl
           ltac:(vm_compute; reflexivity) ltac:(vm_compute; reflexivity)
           eq_refl ltac:(vm_compute; reflexivity) ltac:(discriminate)).
Defined.

(** [init] in the sample project, which has no database directory
    yet. *)
Lemma init_leaves_partial_scaffold_witness :
  let w := sample.start sample.project in
  exists w',
    init sample.cwd sample.JSON_parse sample.evaluate sample.path_relative
         sample.T None (sample.flags false) w
    = (Throw (TypeError "templates.packageJsonTemplate is not a function"), w')
    /\ files w' !! ["schema.js"; "database"; "proj"]
       = Some (File (schemaFileTemplate sample.T))
    /\ files w' !! ["generated"; "database"; "proj"] = Some Dir
    /\ files w' !! ["package.json"; "database"; "proj"] = None.
Proof.
  intros w.
  assert (Hok : is_Ok (mergeConfig sample.cwd sample.JSON_parse sample.evaluate
                         None (sample.flags false) w) = true)
    by (vm_compute; reflexivity).
  assert (Hmt : truthy (get (returned ∅ (mergeConfig sample.cwd sample.JSON_parse
                                           sample.evaluate None (sample.flags false)
                                           w))
                            "moduleType") = true)
    by (vm_compute; reflexivity).
  assert (Hloc : locate sample.cwd (getDatabaseConfigDirectory sample.cwd None)
                 = ["database"; "proj"])
    by (vm_compute; reflexivity).
  assert (Hparent : files w !! ["proj"] = Some Dir) by (vm_compute; reflexivity).
  assert (Hnone : files w !! ["database"; "proj"] = None)
    by (vm_compute; reflexivity).
  assert (Hpkg : exists n, stat_path sample.cwd (files w) "./package.json" = inr n)
    by (eexists; vm_compute; reflexivity).
  assert (Hbelow : files w !! ["package.json"; "database"; "proj"] = None)
    by (vm_compute; reflexivity).
  returns_as cfg w1 E. change (truthy (get cfg "moduleType") = true) in Hmt.
  destruct (init_leaves_partial_scaffold sample.cwd sample.JSON_parse
              sample.evaluate sample.path_relative sample.T eq_refl
              None (sample.flags false) w w1 cfg "database" ["proj"]
              sample_project_tree eq_refl Hloc Hparent Hnone E Hmt Hpkg)
    as (w' & Hinit & Hfiles & _).
  { intros H. vm_compute in H. discriminate H. }
  exists w'. split; [exact Hinit|]. rewrite Hfiles.
  split; [|split].
  - rewrite lookup_insert_ne by discriminate. now rewrite lookup_insert_eq.
  - now rewrite lookup_insert_eq.
  - now rewrite !lookup_insert_ne by discriminate.
Defined.

(** [cleanup] on a helper that has not resolved a configuration, with an
    [fs.rm] that removes nothing. *)
Lemma cleanup_before_init_witness :
  let fs_rm : string -> M unit := fun p => mret tt in
  let w := sample.start sample.project in
  (cleanup fs_rm w).2 = (fs_rm "./generated" w).2
  /\ is_Ok (cleanup fs_rm w) = is_Ok (fs_rm "./generated" w).
Proof.
  intros fs_rm w.
  exact (cleanup_before_init fs_rm ∅ w (lookup_empty _) eq_refl).
Defined.

(** [cleanup] after [build] in the sample project. *)
Lemma cleanup_after_build_witness :
  let fs_rm : string -> M unit := fun p => mret tt in
  let w := sample.start (sample.project_with sample.config_with_moduleType) in
  let w' := (build sample.cwd sample.JSON_parse sample.evaluate sample.run
                   None (sample.flags false) w).2 in
  exists g, (cleanup fs_rm w').2 = (fs_rm g w').2.
Proof.
  intros fs_rm w w'.
  assert (Hok : is_Ok (mergeConfig sample.cwd sample.JSON_parse sample.evaluate
                         None (sample.flags false) w) = true)
    by (vm_compute; reflexivity).
  returns_as cfg w1 E.
  destruct (cleanup_after_build sample.cwd sample.JSON_parse sample.evaluate
              sample.run fs_rm None (sample.flags false) w w1 cfg E)
    as (g & _ & H & _).
  exists g. exact H.
Defined.

(** [hyperdb-helper] without arguments. *)
Lemma cli_help_witness :
  let w := sample.start sample.project in
  cli sample.cwd sample.JSON_parse sample.evaluate sample.run
      sample.path_relative sample.T cases.no_flags [] w
  = (Ok (Exit 0), add_console help w).
Proof.
  intros w.
  exact (cli_help sample.cwd sample.JSON_parse sample.evaluate sample.run
           sample.path_relative sample.T cases.no_flags [] w
           (or_introl eq_refl)).
Defined.

(** [hyperdb-helper deploy]. *)
Lemma cli_unknown_command_witness :
  let w := sample.start sample.project in
  cli sample.cwd sample.JSON_parse sample.evaluate sample.run
      sample.path_relative sample.T cases.no_flags ["deploy"] w
  = (Ok Finished, set_this (constructor ∅) w).
Proof.
  intros w.
  exact (cli_unknown_command sample.cwd sample.JSON_parse sample.evaluate
           sample.run sample.path_relative sample.T cases.no_flags "deploy" [] w
           ltac:(discriminate) ltac:(discriminate) ltac:(discriminate)
           ltac:(discriminate) eq_refl).
Defined.

(** [hyperdb-helper build] in the sample project before [init]. *)
Lemma cli_passes_options_witness :
  let w := sample.start sample.project in
  exists e w',
    cli sample.cwd sample.JSON_parse sample.evaluate sample.run
        sample.path_relative sample.T cases.no_flags ["build"] w = (Throw e, w')
    /\ e <> TypeError "Cannot read properties of undefined (reading 'examples')".
Proof.
  intros w.
  assert (Hok : is_Ok (cli sample.cwd sample.JSON_parse sample.evaluate sample.run
                           sample.path_relative sample.T cases.no_flags ["build"] w)
                = false)
    by (vm_compute; reflexivity).
  throws_as e w' E.
  exists e, w'. split; [reflexivity|].
  exact (cli_passes_options sample.cwd sample.JSON_parse sample.evaluate
           sample.run sample.path_relative sample.T cases.no_flags ["build"]
           w w' e E).
Defined.

(** [init] in the sample project when the database directory is there:
    the error is one of its own. *)
Lemma init_errors_are_own_witness :
  let w := sample.start (sample.project_with sample.config_with_moduleType) in
  exists e w',
    init sample.cwd sample.JSON_parse sample.evaluate sample.path_relative
         sample.T None (sample.flags false) w = (Throw e, w')
    /\ own_error e.
Proof.
  intros w.
  assert (Hok : is_Ok (init sample.cwd sample.JSON_parse sample.evaluate
                         sample.path_relative sample.T None (sample.flags false) w)
                = false)
    by (vm_compute; reflexivity).
  throws_as e w' E.
  exists e, w'. split; [reflexivity|].
  exact (init_errors_are_own sample.cwd sample.JSON_parse sample.evaluate
           sample.path_relative sample.T None (sample.flags false) w w' e E).
Defined.

(** [hyperdb-helper init] in the sample project. *)
Lemma cli_init_throws_witness :
  let w := sample.start sample.project in
  exists e w',
    cli sample.cwd sample.JSON_parse sample.evaluate sample.run
        sample.path_relative sample.T cases.no_flags ["init"] w = (Throw e, w')
    /\ (console w' = console w
        \/ console w' = (console w ++ [package_json_help])%list).
Proof.
  intros w.
  exact (cli_init_throws sample.cwd sample.JSON_parse sample.evaluate sample.run
           sample.path_relative sample.T cases.no_flags [] w eq_refl).
Defined.

(** Where the example file of the sample project goes. *)
Lemma index_location_witness :
  path.isAbsolute sample.cwd = true
  /\ locate sample.cwd (path.join (path.dirname "/proj/database") "index.js")
     = ["index.js"; "proj"].
Proof.
  split; [reflexivity|].
  exact (proj2 (index_location sample.cwd eq_refl None eq_refl)).
Defined.
